(** * FreeGamesScraper: a shallow embedding of [src/FreeGamesScraper.py]

    The development follows the Python source function by function.

    - Python [str] values are modelled by [string]; a character stands for
      the code point of the same number, so the model covers every text
      over U+0000..U+00FF.  Case folding, whitespace and the regular
      expression class [\w] are written out for that range.
    - Values decoded from JSON (and the dictionaries the scrapers build
      from them) are modelled by [json]; numbers are the integers, which is
      what the price fields of the two JSON storefronts carry.
    - A Python call that may raise returns a [result]; code that mutates
      local or global state around a [try]/[except] runs in the
      state-and-exception monad [prog]. *)

From stdpp Require Import gmap strings list.
From Stdlib Require Import ZArith QArith Ascii String DecimalString.

#[local] Close Scope Q_scope.
#[local] Close Scope Z_scope.
#[local] Open Scope string_scope.
#[local] Open Scope list_scope.
#[local] Open Scope nat_scope.

(** ** Exceptions and results *)

(** The exceptions the modelled code can meet.  All of them derive from
    Python's [Exception], so every [except Exception] (and every bare
    [except]) clause of the source catches each of them. *)
Inductive exn : Type :=
  | KeyError
  | TypeError
  | AttributeError
  | IndexError
  | ZeroDivisionError
  | ValueError          (* [response.json()] on a body that is not JSON *)
  | RequestException    (* connection failure, timeout *)
  | HTTPError           (* [raise_for_status] on a 4xx/5xx answer *)
  | OSError             (* [open] refused by the file system *)
  | OverflowError.      (* [int / int] whose quotient no float can hold *)

Inductive result (A : Type) : Type :=
  | Ok (a : A)
  | Raise (e : exn).
Arguments Ok {A} a.
Arguments Raise {A} e.

#[global] Instance result_ret : MRet result := λ A a, Ok a.
#[global] Instance result_bind : MBind result := λ A B f r,
  match r with
  | Ok a => f a
  | Raise e => Raise e
  end.

(** [try: body except: return default] around a pure computation. *)
Definition catch_default {A} (body : result A) (default : A) : A :=
  match body with
  | Ok a => a
  | Raise _ => default
  end.

(** ** Text: the [str] methods and the regular expression the source uses *)

Definition code (c : ascii) : nat := nat_of_ascii c.

Definition between (lo hi : nat) (c : ascii) : bool :=
  (lo <=? code c)%nat && (code c <=? hi)%nat.

(** [\w] of [re] on [str] patterns: letters, digits (every character for
    which [str.isalnum] holds) and the underscore. *)
Definition is_word_char (c : ascii) : bool :=
  between 48 57 c || between 65 90 c || between 97 122 c
  || (code c =? 95)%nat
  || (code c =? 170)%nat || (code c =? 181)%nat || (code c =? 186)%nat
  || between 178 179 c || (code c =? 185)%nat || between 188 190 c
  || between 192 214 c || between 216 246 c || between 248 255 c.

(** [str.isspace] on one character; [str.strip()] removes these. *)
Definition is_space_char (c : ascii) : bool :=
  between 9 13 c || between 28 32 c || (code c =? 133)%nat || (code c =? 160)%nat.

(** [str.lower] on one character. *)
Definition lower_char (c : ascii) : ascii :=
  if between 65 90 c || (between 192 222 c && negb (code c =? 215)%nat)
  then ascii_of_nat (code c + 32)
  else c.

Fixpoint lower (s : string) : string :=
  match s with
  | EmptyString => EmptyString
  | String c s' => String (lower_char c) (lower s')
  end.

Fixpoint lstrip (s : string) : string :=
  match s with
  | EmptyString => EmptyString
  | String c s' => if is_space_char c then lstrip s' else s
  end.

Fixpoint rstrip (s : string) : string :=
  match s with
  | EmptyString => EmptyString
  | String c s' =>
      match rstrip s' with
      | EmptyString => if is_space_char c then EmptyString else String c EmptyString
      | r => String c r
      end
  end.

Definition strip (s : string) : string := rstrip (lstrip s).

(** The pending token of the scan, emitted when the run of word characters
    ends. *)
Definition flush (cur : string) : list string :=
  match cur with
  | EmptyString => []
  | _ => [cur]
  end.

(** [re.findall(r'\b\w+\b', s)]: the maximal runs of word characters of
    [s], left to right.  [cur] is the run being read. *)
Fixpoint findall_words_from (cur : string) (s : string) : list string :=
  match s with
  | EmptyString => flush cur
  | String c s' =>
      if is_word_char c
      then findall_words_from (cur +:+ String c EmptyString) s'
      else flush cur ++ findall_words_from EmptyString s'
  end.

Definition findall_words (s : string) : list string :=
  findall_words_from EmptyString s.

(** [set(re.findall(r'\b\w+\b', s))] *)
Definition word_set (s : string) : gset string := list_to_set (findall_words s).

Fixpoint has_word_char (s : string) : bool :=
  match s with
  | EmptyString => false
  | String c s' => is_word_char c || has_word_char s'
  end.

(** ** JSON values and the Python operations on them *)

#[local] Set Warnings "-register-all".
Inductive json : Type :=
  | JNull
  | JBool (b : bool)
  | JInt (z : Z)
  | JStr (s : string)
  | JList (l : list json)
  | JDict (kv : list (string * json)).

(** A Python [dict] with string keys, in insertion order. *)
Abbreviation dict := (list (string * json)).

(** A normalized game record, as the scrapers build it. *)
Abbreviation offer := (list (string * json)).

Fixpoint dict_lookup (d : dict) (k : string) : option json :=
  match d with
  | [] => None
  | (k', v) :: d' => if String.eqb k' k then Some v else dict_lookup d' k
  end.

(** [d[k]] on a dictionary *)
Definition dict_getitem (d : dict) (k : string) : result json :=
  match dict_lookup d k with
  | Some v => Ok v
  | None => Raise KeyError
  end.

(** [d.get(k, default)] on a dictionary *)
Definition dict_get (d : dict) (k : string) (default : json) : json :=
  match dict_lookup d k with
  | Some v => v
  | None => default
  end.

(** ** The deduplicator, [_remove_duplicates] *)

(** [len(title_words & seen_words) / max(len(title_words), len(seen_words)) > 0.8].
    The quotient is a float; it is compared here as the exact fraction,
    [k / d > 8 / 10] iff [5 * k > 4 * d], which is what the float
    comparison yields for every set of fewer than [2^50] words.  A zero
    denominator raises. *)
Definition overlap_exceeds (title_words seen_words : gset string) : result bool :=
  let k := size (title_words ∩ seen_words) in
  let d := max (size title_words) (size seen_words) in
  if (d =? 0)%nat then Raise ZeroDivisionError
  else Ok (4 * d <? 5 * k)%nat.

(** The inner loop, [for seen_title in seen_titles: ... break], over an
    enumeration of the set [seen_titles]; the value is [is_duplicate]. *)
Fixpoint is_duplicate_in (title_words : gset string) (seen_titles : list string)
  : result bool :=
  match seen_titles with
  | [] => Ok false
  | seen_title :: rest =>
      hit ← overlap_exceeds title_words (word_set seen_title);
      if (hit : bool) then Ok true else is_duplicate_in title_words rest
  end.

(** [game['title'].lower().strip()]: the key may be missing, and only a
    [str] has [lower]. *)
Definition title_lower_of (game : offer) : result string :=
  t ← dict_getitem game "title";
  match t with
  | JStr s => Ok (strip (lower s))
  | _ => Raise AttributeError
  end.

(** One turn of the outer loop on the two accumulators of the source,
    [(unique_games, seen_titles)].  Python enumerates the set in an order
    of its own; the inner loop gives the same outcome for every order
    ([is_duplicate_in_Permutation]), so [elements] stands for it. *)
Definition remove_duplicates_step (st : list offer * gset string) (game : offer)
  : result (list offer * gset string) :=
  let '(unique_games, seen_titles) := st in
  title_lower ← title_lower_of game;
  is_duplicate ← is_duplicate_in (word_set title_lower) (elements seen_titles);
  if (is_duplicate : bool)
  then Ok (unique_games, seen_titles)
  else Ok ((unique_games ++ [game])%list, {[title_lower]} ∪ seen_titles).

(** [for game in games: ...] *)
Fixpoint remove_duplicates_loop (games : list offer) (st : list offer * gset string)
  : result (list offer * gset string) :=
  match games with
  | [] => Ok st
  | game :: rest =>
      st' ← remove_duplicates_step st game;
      remove_duplicates_loop rest st'
  end.

Definition _remove_duplicates (games : list offer) : result (list offer) :=
  st ← remove_duplicates_loop games ([], ∅);
  Ok (fst st).

(** *** The deduplicator as the specification words it

    A total function on offers: token sets of the normalized titles, the
    overlap as a rational number, and the threshold [0.8]. *)

Definition normalized_title (o : offer) : string :=
  match dict_lookup o "title" with
  | Some (JStr s) => strip (lower s)
  | _ => EmptyString
  end.

Definition overlap (A B : gset string) : Q :=
  Z.of_nat (size (A ∩ B)) # Pos.of_nat (max (size A) (size B)).

Definition exceeds_threshold (A B : gset string) : bool :=
  negb (Qle_bool (overlap A B) (8 # 10)).

Definition is_duplicate_of_seen (seen : gset string) (o : offer) : bool :=
  existsb (λ t, exceeds_threshold (word_set (normalized_title o)) (word_set t))
          (elements seen).

Fixpoint Dedupe_from (seen : gset string) (offers : list offer) : list offer :=
  match offers with
  | [] => []
  | o :: rest =>
      if is_duplicate_of_seen seen o
      then Dedupe_from seen rest
      else o :: Dedupe_from ({[normalized_title o]} ∪ seen) rest
  end.

Definition Dedupe (offers : list offer) : list offer := Dedupe_from ∅ offers.

(** An offer that carries only a title (and, for the examples, a url). *)
Definition titled (t : string) : offer := [("title", JStr t)].
Definition titled_at (t u : string) : offer := [("title", JStr t); ("url", JStr u)].

(** *** Predicates on the input of the deduplicator *)

(** The title is present and is a [str]. *)
Definition title_is_str (o : offer) : bool :=
  match dict_lookup o "title" with
  | Some (JStr _) => true
  | _ => false
  end.

(** The title is a [str] with at least one word character. *)
Definition title_has_word (o : offer) : bool :=
  match dict_lookup o "title" with
  | Some (JStr s) => has_word_char s
  | _ => false
  end.

(** The title is a [str] without any word character. *)
Definition title_token_free (o : offer) : bool :=
  match dict_lookup o "title" with
  | Some (JStr s) => negb (has_word_char s)
  | _ => false
  end.

Definition token_free_titles (games : list offer) : nat :=
  List.length (List.filter title_token_free games).

Definition seen_token_free (seen : gset string) : bool :=
  existsb (λ t, size (word_set t) =? 0) (elements seen).

(** [game] is classified as a duplicate of [kept]: the test of the inner
    loop succeeds on their two titles. *)
Definition duplicate_of (game kept : offer) : Prop :=
  ∃ t t', title_lower_of game = Ok t ∧ title_lower_of kept = Ok t'
          ∧ overlap_exceeds (word_set t) (word_set t') = Ok true.

(** Every title of [seen_titles] is the normalized title of an offer of
    [unique_games]. *)
Definition seen_from (unique_games : list offer) (seen_titles : gset string) : Prop :=
  ∀ t, t ∈ seen_titles → ∃ g, g ∈ unique_games ∧ title_lower_of g = Ok t.

(** ** Python operations on decoded JSON *)

(** [str(n)] for an integer *)
Definition str_of_Z (z : Z) : string := NilZero.string_of_int (Z.to_int z).
Definition str_of_nat (n : nat) : string := NilZero.string_of_uint (Nat.to_uint n).

(** [key in s] on two strings: [key] occurs in [s]. *)
Fixpoint is_substring (key s : string) : bool :=
  String.prefix key s
  || match s with
     | EmptyString => false
     | String _ s' => is_substring key s'
     end.

(** [bool(v)] *)
Definition py_truthy (v : json) : bool :=
  match v with
  | JNull => false
  | JBool b => b
  | JInt z => negb (z =? 0)%Z
  | JStr s => negb (String.eqb s EmptyString)
  | JList l => match l with [] => false | _ => true end
  | JDict d => match d with [] => false | _ => true end
  end.

(** ['key' in v]: membership in a dictionary's keys, in a list, or as a
    substring; the other values are not containers. *)
Definition py_in (key : string) (v : json) : result bool :=
  match v with
  | JDict d => Ok (bool_decide (is_Some (dict_lookup d key)))
  | JList l =>
      Ok (existsb (λ x, match x with JStr s => String.eqb s key | _ => false end) l)
  | JStr s => Ok (is_substring key s)
  | _ => Raise TypeError
  end.

(** [v['key']]: only a dictionary takes a string subscript. *)
Definition py_getitem (v : json) (key : string) : result json :=
  match v with
  | JDict d => dict_getitem d key
  | _ => Raise TypeError
  end.

(** [v[0]] *)
Definition py_getitem_0 (v : json) : result json :=
  match v with
  | JList (x :: _) => Ok x
  | JList [] => Raise IndexError
  | JStr (String c _) => Ok (JStr (String c EmptyString))
  | JStr EmptyString => Raise IndexError
  | JDict _ => Raise KeyError      (* the keys of decoded JSON are strings *)
  | _ => Raise TypeError
  end.

(** [v.get('key', default)]: only a dictionary has [get]. *)
Definition py_get (v : json) (key : string) (default : json) : result json :=
  match v with
  | JDict d => Ok (dict_get d key default)
  | _ => Raise AttributeError
  end.

(** [for x in v]: the values the iteration yields. *)
Definition py_iter (v : json) : result (list json) :=
  match v with
  | JList l => Ok l
  | JDict d => Ok (map (λ kv, JStr (fst kv)) d)
  | JStr s => Ok (map (λ c, JStr (String c EmptyString)) (list_ascii_of_string s))
  | _ => Raise TypeError
  end.

(** The integer a number stands for; [bool] is a subclass of [int]. *)
Definition py_int (v : json) : option Z :=
  match v with
  | JInt z => Some z
  | JBool b => Some (if b then 1 else 0)%Z
  | _ => None
  end.

(** [v == n] for an integer literal [n] *)
Definition py_eq_int (v : json) (n : Z) : bool :=
  match py_int v with
  | Some z => (z =? n)%Z
  | None => false
  end.

(** [v == 'text'] for a string literal *)
Definition py_eq_str (v : json) (text : string) : bool :=
  match v with
  | JStr s => String.eqb s text
  | _ => false
  end.

(** [v > 0]: ordering against an integer is defined on numbers only. *)
Definition py_gt_0 (v : json) : result bool :=
  match py_int v with
  | Some z => Ok (0 <? z)%Z
  | None => Raise TypeError
  end.

Definition two_digits (z : Z) : string :=
  (if (z <? 10)%Z then "0" else EmptyString) +:+ str_of_Z z.

(** The integer nearest to [n / d], for [0 < d]; of two that are as near,
    the even one. *)
Definition div_half_even (n d : Z) : Z :=
  let q := (n / d)%Z in
  let r := (n mod d)%Z in
  if (2 * r <? d)%Z then q
  else if (d <? 2 * r)%Z then (q + 1)%Z
  else if Z.even q then q else (q + 1)%Z.

(** [n / 100] on an integer: the double nearest to the quotient, ties to
    even, given as [(m, e)] for the value [m * 2^e], with [m] between
    [2^52] and [2^53] in absolute value; [OverflowError] when the quotient
    is beyond the doubles.  (The quotient of a non-zero integer by 100 is
    never subnormal.) *)
Definition true_divide_100 (n : Z) : result (Z * Z) :=
  if (n =? 0)%Z then Ok (0, 0)%Z
  else
    let a := Z.abs n in
    let e1 := (Z.log2 a - 59)%Z in
    let e := if (100 * 2 ^ 53 * 2 ^ Z.max 0 e1 <=? a * 2 ^ Z.max 0 (- e1))%Z
             then (e1 + 1)%Z else e1 in
    let m := div_half_even (a * 2 ^ Z.max 0 (- e)) (100 * 2 ^ Z.max 0 e) in
    if (1024 <=? Z.log2 m + e)%Z then Raise OverflowError
    else Ok (Z.sgn n * m, e)%Z.

(** [f"{x:.2f}"] on the double [m * 2^e]: its value rounded to the nearest
    hundredth, ties to even, written with all its digits. *)
Definition format_2f (x : Z * Z) : string :=
  let '(m, e) := x in
  let cents := div_half_even (100 * Z.abs m * 2 ^ Z.max 0 e) (2 ^ Z.max 0 (- e)) in
  (if (m <? 0)%Z then "-" else EmptyString)
  +:+ str_of_Z (cents / 100) +:+ "." +:+ two_digits (cents mod 100).

(** [f"${v / 100:.2f}"] *)
Definition format_price (v : json) : result string :=
  match py_int v with
  | Some z => x ← true_divide_100 z; Ok ("$" +:+ format_2f x)
  | None => Raise TypeError
  end.

(** *** [repr] and [str] *)

Definition quote_char : ascii := ascii_of_nat 39.       (* ' *)
Definition dquote_char : ascii := ascii_of_nat 34.
Definition backslash : ascii := ascii_of_nat 92.

Fixpoint contains_char (c : ascii) (s : string) : bool :=
  match s with
  | EmptyString => false
  | String c' s' => Ascii.eqb c c' || contains_char c s'
  end.

Definition hex_digit (n : nat) : ascii :=
  if n <? 10 then ascii_of_nat (48 + n) else ascii_of_nat (87 + n).

(** [str.isprintable] on one character *)
Definition is_printable (c : ascii) : bool :=
  between 32 126 c || (between 161 255 c && negb (code c =? 173)).

Definition repr_char (q : ascii) (c : ascii) : string :=
  if Ascii.eqb c q || Ascii.eqb c backslash then String backslash (String c EmptyString)
  else if code c =? 9 then String backslash "t"
  else if code c =? 10 then String backslash "n"
  else if code c =? 13 then String backslash "r"
  else if is_printable c then String c EmptyString
  else String backslash
         (String "x" (String (hex_digit (code c / 16))
                        (String (hex_digit (code c mod 16)) EmptyString))).

Fixpoint repr_chars (q : ascii) (s : string) : string :=
  match s with
  | EmptyString => EmptyString
  | String c s' => repr_char q c +:+ repr_chars q s'
  end.

(** [repr(s)] for a string: single quotes, unless the text has a single
    quote and no double quote. *)
Definition repr_str (s : string) : string :=
  let q := if contains_char quote_char s && negb (contains_char dquote_char s)
           then dquote_char else quote_char in
  String q (repr_chars q s) +:+ String q EmptyString.

Fixpoint join (sep : string) (parts : list string) : string :=
  match parts with
  | [] => EmptyString
  | [p] => p
  | p :: rest => p +:+ sep +:+ join sep rest
  end.

Fixpoint py_repr (v : json) : string :=
  match v with
  | JNull => "None"
  | JBool b => if b then "True" else "False"
  | JInt z => str_of_Z z
  | JStr s => repr_str s
  | JList l => "[" +:+ join ", " (map py_repr l) +:+ "]"
  | JDict d =>
      "{" +:+ join ", " (map (λ kv, repr_str (fst kv) +:+ ": " +:+ py_repr (snd kv)) d)
      +:+ "}"
  end.

(** [str(v)], which an f-string applies to the value it interpolates *)
Definition py_str (v : json) : string :=
  match v with
  | JStr s => s
  | _ => py_repr v
  end.

(** Values that can be a member of a [set] or a key of a [dict]. *)
Definition py_hashable (v : json) : bool :=
  match v with
  | JList _ | JDict _ => false
  | _ => true
  end.

(** [a == b] on hashable values *)
Definition py_eq_atom (a b : json) : bool :=
  match a, b with
  | JNull, JNull => true
  | JStr s, JStr t => String.eqb s t
  | _, _ =>
      match py_int a, py_int b with
      | Some x, Some y => (x =? y)%Z
      | _, _ => false
      end
  end.

(** ** State and exceptions: the monad of the effectful code *)

Definition prog (S A : Type) : Type := S → result A * S.

#[global] Instance prog_ret {S} : MRet (prog S) := λ A a s, (Ok a, s).
#[global] Instance prog_bind {S} : MBind (prog S) := λ A B f m s,
  match m s with
  | (Ok a, s') => f a s'
  | (Raise e, s') => (Raise e, s')
  end.

(** A pure computation that may raise, run inside [prog]. *)
Definition lift {S A} (r : result A) : prog S A := λ s, (r, s).

(** [try: body except Exception as e: handler]; what [body] did to the
    state before it raised stays done. *)
Definition try_except {S A} (body : prog S A) (handler : exn → prog S A) : prog S A :=
  λ s, match body s with
       | (Ok a, s') => (Ok a, s')
       | (Raise e, s') => handler e s'
       end.

(** [for x in xs: body] *)
Fixpoint for_each {S A} (xs : list A) (body : A → prog S unit) : prog S unit :=
  match xs with
  | [] => mret ()
  | x :: rest => body x ;; for_each rest body
  end.

(** [if cond: body] *)
Definition when {S} (cond : bool) (body : prog S unit) : prog S unit :=
  if cond then body else mret ().

(** ** Logging *)

Inductive level : Type := INFO | WARNING | ERROR.

(** A log record: the text of the message and, for the messages that end
    with [{e}], the exception they report. *)
Record log_record : Type := LogRecord {
  log_level : level;
  log_message : string;
  log_cause : option exn
}.

(** A state on which [logger] can write. *)
Class Logging (S : Type) : Type := emit : log_record → S → S.

Definition logger_info {S} `{!Logging S} (message : string) : prog S unit :=
  λ s, (Ok (), emit (LogRecord INFO message None) s).

Definition logger_warning {S} `{!Logging S} (message : string) : prog S unit :=
  λ s, (Ok (), emit (LogRecord WARNING message None) s).

(** [logger.error(f"message{e}")] *)
Definition logger_error {S} `{!Logging S} (message : string) (e : exn) : prog S unit :=
  λ s, (Ok (), emit (LogRecord ERROR message (Some e)) s).

(** ** The source adapters *)

(** What one call of a scraper works on: its local list [games] and the
    records it logs. *)
Record scraper_state : Type := ScraperState {
  sc_games : list offer;
  sc_log : list log_record
}.

#[global] Instance scraper_logging : Logging scraper_state :=
  λ r s, ScraperState (sc_games s) (sc_log s ++ [r]).

(** [games = []] *)
Definition new_games : prog scraper_state unit :=
  λ s, (Ok (), ScraperState [] (sc_log s)).

(** [games.append(game_info)] *)
Definition games_append (game_info : offer) : prog scraper_state unit :=
  λ s, (Ok (), ScraperState (sc_games s ++ [game_info]) (sc_log s)).

Definition get_games : prog scraper_state (list offer) :=
  λ s, (Ok (sc_games s), s).

(** The answer of [self.session.get]: its status, and what the scraper
    reads from its body ([response.json()], or the elements BeautifulSoup
    finds in [response.content]). *)
Record response (A : Type) : Type := Response {
  status_ok : bool;
  payload : A
}.
Arguments Response {A} status_ok payload.
Arguments status_ok {A} r.
Arguments payload {A} r.

Definition raise_for_status {S A} (r : response A) : prog S unit :=
  lift (if status_ok r then Ok () else Raise HTTPError).

(** [response.json()]; [None] is a body that is not JSON. *)
Definition response_json (r : response (option json)) : result json :=
  match payload r with
  | Some data => Ok data
  | None => Raise ValueError
  end.

(** *** Epic Games Store *)

Definition _get_epic_original_price (game_data : json) : string :=
  catch_default
    (has_price ← py_in "price" game_data;
     priced ← (if (has_price : bool)
               then p ← py_getitem game_data "price";
                    total ← py_get p "totalPrice" JNull;
                    Ok (py_truthy total)
               else Ok false);
     if (priced : bool)
     then p ← py_getitem game_data "price";
          total ← py_getitem p "totalPrice";
          price ← py_get total "originalPrice" (JInt 0);
          positive ← py_gt_0 price;
          if (positive : bool) then format_price price else Ok "Free"
     else Ok "Unknown")
    "Unknown".

(** The loop of [_get_epic_image_url], which returns at the first wide
    image. *)
Fixpoint first_wide_image (images : list json) : result json :=
  match images with
  | [] => Ok (JStr EmptyString)
  | image :: rest =>
      kind ← py_get image "type" JNull;
      if py_eq_str kind "OfferImageWide"
      then py_get image "url" (JStr EmptyString)
      else first_wide_image rest
  end.

Definition _get_epic_image_url (game_data : json) : json :=
  catch_default
    (has_images ← py_in "keyImages" game_data;
     if (has_images : bool)
     then images ← py_getitem game_data "keyImages" ≫= py_iter;
          first_wide_image images
     else Ok (JStr EmptyString))
    (JStr EmptyString).

Definition _get_epic_url (game_data : json) : string :=
  catch_default
    (ns ← py_get game_data "catalogNs" (JDict []);
     mappings ← py_get ns "mappings" (JList [JDict []]);
     mapping ← py_getitem_0 mappings;
     slug ← py_get mapping "pageSlug" (JStr EmptyString);
     Ok (if py_truthy slug
         then "https://store.epicgames.com/en-US/p/" +:+ py_str slug
         else "https://store.epicgames.com"))
    "https://store.epicgames.com".

(** The dictionary [game_info] of the Epic scraper. *)
Definition epic_game_info (game promo : json) (original_price : string)
  : result offer :=
  title ← py_get game "title" (JStr "Unknown");
  let url := _get_epic_url game in
  windows ← py_getitem promo "promotionalOffers";
  window ← py_getitem_0 windows;
  end_date ← py_get window "endDate" JNull;
  description ← py_get game "description" (JStr EmptyString);
  let image_url := _get_epic_image_url game in
  Ok [("title", title);
      ("platform", JStr "Epic Games Store");
      ("original_price", JStr original_price);
      ("current_price", JStr "Free");
      ("url", JStr url);
      ("end_date", end_date);
      ("description", description);
      ("image_url", image_url);
      ("type", JStr "Current Free Game")].

(** The body of [for offer in promotions['promotionalOffers']]; the loop
    variable is [promo] here. *)
Definition epic_promotion (game promo : json) : prog scraper_state unit :=
  windows ← lift (py_get promo "promotionalOffers" JNull);
  when (py_truthy windows)
    (let original_price := _get_epic_original_price game in
     when (negb (String.eqb original_price "Free"))
       (game_info ← lift (epic_game_info game promo original_price);
        games_append game_info)).

(** The body of [for game in search_store['elements']] *)
Definition epic_element (game : json) : prog scraper_state unit :=
  promotions ← lift (py_get game "promotions" JNull);
  when (py_truthy promotions)
    (current ← lift (py_get promotions "promotionalOffers" JNull);
     when (py_truthy current)
       (offers ← lift (py_getitem promotions "promotionalOffers" ≫= py_iter);
        for_each offers (epic_promotion game))).

(** The elements of the catalog, when the answer has one:
    [data['data']['Catalog']['searchStore']['elements']]. *)
Definition epic_elements (data : json) : result (list json) :=
  d ← py_getitem data "data";
  catalog ← py_getitem d "Catalog";
  search_store ← py_getitem catalog "searchStore";
  elements ← py_getitem search_store "elements";
  py_iter elements.

(** ['data' in data and 'Catalog' in data['data']] *)
Definition epic_has_catalog (data : json) : result bool :=
  has_data ← py_in "data" data;
  if (has_data : bool) then py_getitem data "data" ≫= py_in "Catalog" else Ok false.

Definition epic_try (fetched : result (response (option json)))
  : prog scraper_state unit :=
  resp ← lift fetched;
  raise_for_status resp;;
  data ← lift (response_json resp);
  has_catalog ← lift (epic_has_catalog data);
  when has_catalog
    (elements ← lift (epic_elements data);
     for_each elements epic_element).

Definition scrape_epic_games (fetched : result (response (option json)))
  : prog scraper_state (list offer) :=
  logger_info "Scraping Epic Games Store...";;
  new_games;;
  try_except (epic_try fetched)
    (λ e, logger_error "Error scraping Epic Games: " e);;
  games ← get_games;
  logger_info ("Found " +:+ str_of_nat (List.length games)
               +:+ " free games on Epic Games Store");;
  mret games.

(** *** Steam *)

(** The condition of the Steam filter, with the short circuit of [and]. *)
Definition steam_is_free (item : json) : result bool :=
  final_price ← py_get item "final_price" JNull;
  if py_eq_int final_price 0
  then original_price ← py_get item "original_price" (JInt 0);
       positive ← py_gt_0 original_price;
       if (positive : bool)
       then discount ← py_get item "discount_percent" JNull;
            Ok (py_eq_int discount 100)
       else Ok false
  else Ok false.

Definition steam_game_info (item : json) : result offer :=
  name ← py_get item "name" (JStr "Unknown");
  original_price ← py_get item "original_price" (JInt 0) ≫= format_price;
  id ← py_get item "id" (JStr EmptyString);
  discount ← py_get item "discount_percent" (JInt 0);
  image ← py_get item "large_capsule_image" (JStr EmptyString);
  Ok [("title", name);
      ("platform", JStr "Steam");
      ("original_price", JStr original_price);
      ("current_price", JStr "Free");
      ("url", JStr ("https://store.steampowered.com/app/" +:+ py_str id));
      ("discount_percent", discount);
      ("image_url", image);
      ("description", JStr "Steam temporary free promotion");
      ("type", JStr "Steam Weekend Deal")].

(** The body of [for item in data['specials']['items']] *)
Definition steam_item (item : json) : prog scraper_state unit :=
  free ← lift (steam_is_free item);
  when free
    (game_info ← lift (steam_game_info item);
     games_append game_info).

(** ['specials' in data and 'items' in data['specials']] *)
Definition steam_has_specials (data : json) : result bool :=
  has_specials ← py_in "specials" data;
  if (has_specials : bool) then py_getitem data "specials" ≫= py_in "items" else Ok false.

(** [data['specials']['items']], as the loop reads it *)
Definition steam_items (data : json) : result (list json) :=
  specials ← py_getitem data "specials";
  items ← py_getitem specials "items";
  py_iter items.

Definition steam_try (fetched : result (response (option json)))
  : prog scraper_state unit :=
  resp ← lift fetched;
  raise_for_status resp;;
  data ← lift (response_json resp);
  has_specials ← lift (steam_has_specials data);
  when has_specials
    (items ← lift (steam_items data);
     for_each items steam_item).

Definition scrape_steam_weekend_deals (fetched : result (response (option json)))
  : prog scraper_state (list offer) :=
  logger_info "Scraping Steam for weekend deals...";;
  new_games;;
  try_except (steam_try fetched)
    (λ e, logger_error "Error scraping Steam: " e);;
  games ← get_games;
  logger_info ("Found " +:+ str_of_nat (List.length games) +:+ " free games on Steam");;
  mret games.

(** *** The storefronts read through BeautifulSoup

    The payload of these answers is what the [find_all], [find] and
    [get_text] calls of the scraper yield on the page: one entry per
    element the loop visits. *)

(** GOG: per giveaway element, the stripped text of its title element, if
    it has one. *)
Definition gog_element (title_text : option string) : prog scraper_state unit :=
  match title_text with
  | Some title =>
      when (negb (String.eqb title EmptyString) && (3 <? String.length title))
        (games_append
           [("title", JStr title);
            ("platform", JStr "GOG");
            ("current_price", JStr "Free");
            ("url", JStr "https://www.gog.com/giveaway");
            ("description", JStr "GOG Giveaway");
            ("type", JStr "GOG Giveaway")])
  | None => mret ()
  end.

Definition gog_try (fetched : result (response (list (option string))))
  : prog scraper_state unit :=
  resp ← lift fetched;
  raise_for_status resp;;
  for_each (payload resp) gog_element.

Definition scrape_gog_giveaways (fetched : result (response (list (option string))))
  : prog scraper_state (list offer) :=
  logger_info "Scraping GOG for giveaways...";;
  new_games;;
  try_except (gog_try fetched) (λ e, logger_error "Error scraping GOG: " e);;
  games ← get_games;
  logger_info ("Found " +:+ str_of_nat (List.length games) +:+ " free games on GOG");;
  mret games.

(** itch.io: per card, the title link (its stripped text and its [href],
    the empty string when it has none) and the text of the price element. *)
Record itch_card : Type := ItchCard {
  itch_title : option (string * string);
  itch_price : option string
}.

Definition itch_is_free (price : option string) : bool :=
  match price with
  | Some text =>
      is_substring "free" (lower text) || is_substring "pay what you want" (lower text)
  | None => false
  end.

Definition itch_element (urljoin : string → string → string) (card : itch_card)
  : prog scraper_state unit :=
  match itch_title card with
  | Some (title, url_path) =>
      when (itch_is_free (itch_price card))
        (games_append
           [("title", JStr title);
            ("platform", JStr "itch.io");
            ("current_price", JStr "Free/PWYW");
            ("url", JStr (urljoin "https://itch.io" url_path));
            ("description", JStr "itch.io free/pay-what-you-want game");
            ("type", JStr "itch.io Free Game")])
  | None => mret ()
  end.

Definition itch_try (urljoin : string → string → string)
    (fetched : result (response (list itch_card))) : prog scraper_state unit :=
  resp ← lift fetched;
  raise_for_status resp;;
  for_each (take 10 (payload resp)) (itch_element urljoin).

(** [urljoin] is [urllib.parse.urljoin]. *)
Definition scrape_itchio_sales (urljoin : string → string → string)
    (fetched : result (response (list itch_card))) : prog scraper_state (list offer) :=
  logger_info "Scraping itch.io for free games...";;
  new_games;;
  try_except (itch_try urljoin fetched) (λ e, logger_error "Error scraping itch.io: " e);;
  games ← get_games;
  logger_info ("Found " +:+ str_of_nat (List.length games) +:+ " free games on itch.io");;
  mret games.

(** Ubisoft Connect: per card, the stripped texts of its title and price
    elements. *)
Record ubisoft_card : Type := UbisoftCard {
  ubisoft_title : option string;
  ubisoft_price : option string
}.

Definition ubisoft_element (card : ubisoft_card) : prog scraper_state unit :=
  match ubisoft_title card, ubisoft_price card with
  | Some title, Some price =>
      when (is_substring "free" (lower price) && (3 <? String.length title))
        (games_append
           [("title", JStr title);
            ("platform", JStr "Ubisoft Connect");
            ("current_price", JStr "Free");
            ("url", JStr "https://store.ubisoft.com/us/game");
            ("description", JStr "Ubisoft free game promotion");
            ("type", JStr "Ubisoft Free Game")])
  | _, _ => mret ()
  end.

Definition ubisoft_try (fetched : result (response (list ubisoft_card)))
  : prog scraper_state unit :=
  resp ← lift fetched;
  raise_for_status resp;;
  for_each (take 10 (payload resp)) ubisoft_element.

Definition scrape_ubisoft_connect (fetched : result (response (list ubisoft_card)))
  : prog scraper_state (list offer) :=
  logger_info "Scraping Ubisoft Connect for free games...";;
  new_games;;
  try_except (ubisoft_try fetched)
    (λ e, logger_error "Error scraping Ubisoft Connect: " e);;
  games ← get_games;
  logger_info ("Found " +:+ str_of_nat (List.length games)
               +:+ " free games on Ubisoft Connect");;
  mret games.

(** Microsoft Store: the page is fetched and parsed, nothing is read from
    it. *)
Definition microsoft_try (fetched : result (response unit)) : prog scraper_state unit :=
  resp ← lift fetched;
  raise_for_status resp.

Definition scrape_microsoft_store (fetched : result (response unit))
  : prog scraper_state (list offer) :=
  logger_info "Scraping Microsoft Store for free games...";;
  new_games;;
  try_except (microsoft_try fetched)
    (λ e, logger_error "Error scraping Microsoft Store: " e);;
  games ← get_games;
  logger_info ("Found " +:+ str_of_nat (List.length games)
               +:+ " free games on Microsoft Store");;
  mret games.

(** Amazon Prime Gaming: per offer element, the stripped text of its title
    element, if it has one. *)
Definition amazon_element (title_text : option string) : prog scraper_state unit :=
  match title_text with
  | Some title =>
      when (negb (String.eqb title EmptyString) && (3 <? String.length title))
        (games_append
           [("title", JStr title);
            ("platform", JStr "Amazon Prime Gaming");
            ("current_price", JStr "Free (Prime Required)");
            ("url", JStr "https://gaming.amazon.com/loot");
            ("description", JStr "Amazon Prime Gaming free game");
            ("type", JStr "Prime Gaming Offer")])
  | None => mret ()
  end.

Definition amazon_try (fetched : result (response (list (option string))))
  : prog scraper_state unit :=
  resp ← lift fetched;
  raise_for_status resp;;
  for_each (take 10 (payload resp)) amazon_element.

Definition scrape_amazon_prime_gaming
    (fetched : result (response (list (option string))))
  : prog scraper_state (list offer) :=
  logger_info "Scraping Amazon Prime Gaming for free games...";;
  new_games;;
  try_except (amazon_try fetched)
    (λ e, logger_error "Error scraping Amazon Prime Gaming: " e);;
  games ← get_games;
  logger_info ("Found " +:+ str_of_nat (List.length games)
               +:+ " free games on Amazon Prime Gaming");;
  mret games.

(** *** The seven scrapers of one run *)

(** What the seven storefronts answer during a run. *)
Record web : Type := Web {
  epic_answer : result (response (option json));
  steam_answer : result (response (option json));
  gog_answer : result (response (list (option string)));
  itch_answer : result (response (list itch_card));
  ubisoft_answer : result (response (list ubisoft_card));
  amazon_answer : result (response (list (option string)));
  microsoft_answer : result (response unit);
  web_urljoin : string → string → string
}.

(** The outcome of a call, as [future.result()] gives it back: the value
    returned or the exception raised. *)
Definition call {A} (scraper : prog scraper_state A) : result A :=
  fst (scraper (ScraperState [] [])).

(** The list [scrapers] of [scrape_all_platforms_threaded], each with its
    [__name__] and the outcome of its call. *)
Definition scrapers (w : web) : list (string * result (list offer)) :=
  [("scrape_epic_games", call (scrape_epic_games (epic_answer w)));
   ("scrape_steam_weekend_deals", call (scrape_steam_weekend_deals (steam_answer w)));
   ("scrape_gog_giveaways", call (scrape_gog_giveaways (gog_answer w)));
   ("scrape_itchio_sales", call (scrape_itchio_sales (web_urljoin w) (itch_answer w)));
   ("scrape_ubisoft_connect", call (scrape_ubisoft_connect (ubisoft_answer w)));
   ("scrape_amazon_prime_gaming", call (scrape_amazon_prime_gaming (amazon_answer w)));
   ("scrape_microsoft_store", call (scrape_microsoft_store (microsoft_answer w)))].

(** ** The scraper object, its sinks and the entry point *)

(** A file of the working directory. *)
Inductive file : Type :=
  | EmptyFile                                          (* opened, nothing written *)
  | CsvFile (header : list string) (rows : list (list string))
  | JsonFile (document : json).

(** A [print] of the source. *)
Inductive printed : Type :=
  | PStarting | PSearchNotice | PPleaseWait
  | PNoGamesFound
  | PSummary (total : nat)
  | PRule
  | PPlatform (platform : json) (count : nat)
  | PTitle (title : json)
  | POriginal (original_price : json)
  | PEnds (end_date : json)
  | PMore (count : nat)
  | PCompleted
  | PFound (count : nat)
  | PSaved
  | PAllFree (count : nat)
  | PNoneFree
  | PError (e : exn).

(** The state the main thread works on: [self.free_games], the standard
    output, the log, the files, and the clock ([clock n] is what the [n]-th
    reading of [datetime.now().isoformat()] gives). *)
Record world : Type := World {
  free_games : list offer;
  console : list printed;
  journal : list log_record;
  files : gmap string file;
  writable : string → bool;
  clock : nat → string;
  ticks : nat
}.

Definition set_free_games (gs : list offer) (w : world) : world :=
  World gs (console w) (journal w) (files w) (writable w) (clock w) (ticks w).
Definition set_console (c : list printed) (w : world) : world :=
  World (free_games w) c (journal w) (files w) (writable w) (clock w) (ticks w).
Definition set_journal (j : list log_record) (w : world) : world :=
  World (free_games w) (console w) j (files w) (writable w) (clock w) (ticks w).
Definition set_files (f : gmap string file) (w : world) : world :=
  World (free_games w) (console w) (journal w) f (writable w) (clock w) (ticks w).
Definition set_ticks (n : nat) (w : world) : world :=
  World (free_games w) (console w) (journal w) (files w) (writable w) (clock w) n.

#[global] Instance world_logging : Logging world :=
  λ r w, set_journal (journal w ++ [r]) w.

(** [print(line)] on a standard output that accepts the line.  The source's
    [print] raises on a stream that cannot encode or take the text; such a
    stream is outside what is stated here. *)
Definition print (line : printed) : prog world unit :=
  λ w, (Ok (), set_console (console w ++ [line]) w).

(** [datetime.now().isoformat()] *)
Definition now : prog world string :=
  λ w, (Ok (clock w (ticks w)), set_ticks (S (ticks w)) w).

Definition get_free_games : prog world (list offer) :=
  λ w, (Ok (free_games w), w).

Definition put_free_games (gs : list offer) : prog world unit :=
  λ w, (Ok (), set_free_games gs w).

(** [open(filename, 'w')]: the file is created or emptied, unless the file
    system refuses. *)
Definition open_w (filename : string) : prog world unit :=
  λ w, if writable w filename
       then (Ok (), set_files (<[filename := EmptyFile]> (files w)) w)
       else (Raise OSError, w).

Definition write_file (filename : string) (content : file) : prog world unit :=
  λ w, (Ok (), set_files (<[filename := content]> (files w)) w).

(** *** The orchestrator *)

(** The loop over [as_completed(future_to_scraper)]: [completed] lists the
    futures in the order in which they complete, each with the name of its
    scraper and the outcome of [future.result()]. *)
Fixpoint gather (completed : list (string * result (list offer)))
    (all_games : list offer) : prog world (list offer) :=
  match completed with
  | [] => mret all_games
  | (scraper_name, future) :: rest =>
      all_games' ← try_except
        (games ← lift future;
         logger_info ("Completed " +:+ scraper_name);;
         mret (all_games ++ games))
        (λ e, logger_error ("Error in " +:+ scraper_name +:+ ": ") e;;
              mret all_games);
      gather rest all_games'
  end.

Definition scrape_all_platforms_threaded
    (completed : list (string * result (list offer))) : prog world (list offer) :=
  logger_info "Starting comprehensive threaded scraping...";;
  all_games ← gather completed [];
  unique_games ← lift (_remove_duplicates all_games);
  logger_info ("Total unique free games found: "
               +:+ str_of_nat (List.length unique_games));;
  put_free_games unique_games;;
  mret unique_games.

(** *** The sinks *)

Definition fieldnames : list string :=
  ["title"; "platform"; "original_price"; "current_price"; "url";
   "end_date"; "description"; "type"; "scraped_at"].

(** [d[k] = v] *)
Fixpoint dict_set (d : dict) (k : string) (v : json) : dict :=
  match d with
  | [] => [(k, v)]
  | (k', v') :: d' =>
      if String.eqb k' k then (k', v) :: d' else (k', v') :: dict_set d' k v
  end.

(** The text [csv.writer] puts in a cell: nothing for [None], the text of
    a string, [str] of anything else. *)
Definition csv_cell (v : json) : string :=
  match v with
  | JNull => EmptyString
  | _ => py_str v
  end.

(** [{field: game.get(field, '') for field in fieldnames}] *)
Definition csv_row_of (game : offer) : dict :=
  map (λ field, (field, dict_get game field (JStr EmptyString))) fieldnames.

(** [DictWriter.writerow]: the cells of [row] in the order of
    [fieldnames]. *)
Definition csv_cells (row : dict) : list string :=
  map (λ field, csv_cell (dict_get row field (JStr EmptyString))) fieldnames.

Definition csv_append (cells : list string) (f : file) : file :=
  match f with
  | CsvFile header rows => CsvFile header (rows ++ [cells])
  | _ => f
  end.

(** [writer.writeheader()] on the file just opened *)
Definition csv_writeheader (filename : string) : prog world unit :=
  write_file filename (CsvFile fieldnames []).

(** [writer.writerow(row)] *)
Definition csv_writerow (filename : string) (row : dict) : prog world unit :=
  λ w, (Ok (), set_files (alter (csv_append (csv_cells row)) filename (files w)) w).

(** The body of [for game in self.free_games] in [save_to_csv] *)
Definition csv_game (filename : string) (game : offer) : prog world unit :=
  let row := csv_row_of game in
  stamp ← now;
  csv_writerow filename (dict_set row "scraped_at" (JStr stamp)).

Definition save_to_csv (filename : string) : prog world unit :=
  try_except
    (games ← get_free_games;
     match games with
     | [] => logger_warning "No games to save"
     | _ =>
         open_w filename;;
         csv_writeheader filename;;
         for_each games (csv_game filename);;
         logger_info ("Saved " +:+ str_of_nat (List.length games)
                      +:+ " games to " +:+ filename)
     end)
    (λ e, logger_error "Error saving to CSV: " e).

(** [x in seen], on hashable values *)
Definition atom_in (x : json) (seen : list json) : bool :=
  existsb (py_eq_atom x) seen.

(** [list(set(game.get('platform', 'Unknown') for game in games))].  The
    order in which Python lists a set is not specified; the model lists the
    members in the order in which they first occur. *)
Fixpoint platform_set (games : list offer) (members : list json) : result (list json) :=
  match games with
  | [] => Ok members
  | game :: rest =>
      let platform := dict_get game "platform" (JStr "Unknown") in
      if py_hashable platform
      then platform_set rest
             (if atom_in platform members then members else members ++ [platform])
      else Raise TypeError
  end.

(** The document [save_to_json] dumps. *)
Definition json_document (stamp : string) (platforms : list json) (games : list offer)
  : json :=
  JDict [("scraped_at", JStr stamp);
         ("total_games", JInt (Z.of_nat (List.length games)));
         ("platforms", JList platforms);
         ("games", JList (map JDict games))].

Definition save_to_json (filename : string) : prog world unit :=
  try_except
    (open_w filename;;
     stamp ← now;
     games ← get_free_games;
     platforms ← lift (platform_set games []);
     write_file filename (JsonFile (json_document stamp platforms games));;
     logger_info ("Saved " +:+ str_of_nat (List.length games)
                  +:+ " games to " +:+ filename))
    (λ e, logger_error "Error saving to JSON: " e).

(** *** The summary *)

(** [platforms[platform].append(game)], creating the entry when
    [platform not in platforms]. *)
Fixpoint group_add (platforms : list (json * list offer)) (platform : json)
    (game : offer) : list (json * list offer) :=
  match platforms with
  | [] => [(platform, [game])]
  | (p, games) :: rest =>
      if py_eq_atom platform p then (p, games ++ [game]) :: rest
      else (p, games) :: group_add rest platform game
  end.

(** The grouping loop of [print_summary] *)
Fixpoint group_by_platform (games : list offer) (platforms : list (json * list offer))
  : result (list (json * list offer)) :=
  match games with
  | [] => Ok platforms
  | game :: rest =>
      let platform := dict_get game "platform" (JStr "Unknown") in
      if py_hashable platform
      then group_by_platform rest (group_add platforms platform game)
      else Raise TypeError
  end.

(** ['key' in game and game['key']] *)
Definition has_truthy (game : offer) (key : string) : bool :=
  match dict_lookup game key with
  | Some v => py_truthy v
  | None => false
  end.

(** The body of [for game in games[:5]] *)
Definition print_game (game : offer) : prog world unit :=
  title ← lift (dict_getitem game "title");
  print (PTitle title);;
  when (has_truthy game "original_price")
    (print (POriginal (dict_get game "original_price" JNull)));;
  when (has_truthy game "end_date")
    (print (PEnds (dict_get game "end_date" JNull))).

(** The body of [for platform, games in platforms.items()] *)
Definition print_platform (entry : json * list offer) : prog world unit :=
  let '(platform, games) := entry in
  print (PPlatform platform (List.length games));;
  for_each (take 5 games) print_game;;
  when (5 <? List.length games) (print (PMore (List.length games - 5))).

Definition print_summary : prog world unit :=
  games ← get_free_games;
  match games with
  | [] => print PNoGamesFound
  | _ =>
      platforms ← lift (group_by_platform games []);
      print (PSummary (List.length games));;
      print PRule;;
      for_each platforms print_platform
  end.

(** *** The entry point *)

(** The [try] block of [main] *)
Definition main_try (completed : list (string * result (list offer)))
  : prog world unit :=
  print PStarting;;
  print PSearchNotice;;
  print PPleaseWait;;
  games ← scrape_all_platforms_threaded completed;
  print_summary;;
  save_to_json "free_games.json";;
  save_to_csv "free_games.csv";;
  print PCompleted;;
  print (PFound (List.length games));;
  print PSaved;;
  match games with
  | [] => print PNoneFree
  | _ => print (PAllFree (List.length games))
  end.

(** [main], on the futures of the run in their order of completion.  The
    scraper object is created with [free_games = []]. *)
Definition main (completed : list (string * result (list offer))) : prog world unit :=
  put_free_games [];;
  try_except (main_try completed)
    (λ e, logger_error "Unexpected error: " e;; print (PError e)).

(** A working directory without files, where every file can be written. *)
Definition fresh_world : world :=
  World [] [] [] ∅ (λ _, true) (λ n, "T" +:+ str_of_nat n) 0.

(** *** Vocabulary of the statements about the adapters and the orchestrator *)

(** The request did not bring a page: it raised, or the status is an
    error. *)
Definition transport_failed {A} (answer : result (response A)) : Prop :=
  match answer with
  | Raise _ => True
  | Ok r => status_ok r = false
  end.

(** A scraper whose [try] block is [try_block] isolates its failures: on
    every answer and from every state it returns, never raises, and what it
    returns is the list [games] as the [try] block left it; when the block
    raised, the error is in the log under [message]. *)
Definition fault_isolating {A}
    (scraper : result (response A) → prog scraper_state (list offer))
    (try_block : result (response A) → prog scraper_state unit)
    (message : string) : Prop :=
  ∀ fetched s, ∃ started finished,
    let '(outcome, after) := try_block fetched (ScraperState [] started) in
    scraper fetched s = (Ok (sc_games after), ScraperState (sc_games after) finished)
    ∧ match outcome with
      | Ok _ => True
      | Raise e => LogRecord ERROR message (Some e) ∈ finished
      end.

(** The offers of the futures that returned, in the order of the list. *)
Definition returned_offers (completed : list (string * result (list offer)))
  : list offer :=
  flat_map (λ f, match snd f with Ok games => games | Raise _ => [] end) completed.

(** The records the loop of the orchestrator logs. *)
Definition gather_records (completed : list (string * result (list offer)))
  : list log_record :=
  map (λ f, match snd f with
            | Ok _ => LogRecord INFO ("Completed " +:+ fst f) None
            | Raise e => LogRecord ERROR ("Error in " +:+ fst f +:+ ": ") (Some e)
            end) completed.

(** The integer at [game['price']['totalPrice']['originalPrice']], the
    original price in minor currency units. *)
Definition original_price_minor (game : json) : option Z :=
  match (p ← py_getitem game "price";
         total ← py_getitem p "totalPrice";
         py_getitem total "originalPrice") with
  | Ok v => py_int v
  | Raise _ => None
  end.

(** [promo] is an active promotional offer entry of [game]: an entry of
    [game['promotions']['promotionalOffers']] whose own
    [promotionalOffers] is not empty. *)
Definition active_promotion (game promo : json) : Prop :=
  ∃ promotions offers windows,
    py_get game "promotions" JNull = Ok promotions
    ∧ py_truthy promotions = true
    ∧ py_getitem promotions "promotionalOffers" ≫= py_iter = Ok offers
    ∧ promo ∈ offers
    ∧ py_get promo "promotionalOffers" JNull = Ok windows
    ∧ py_truthy windows = true.

(** The body of the loop over the catalog elements raises no exception on
    [game], from whatever state. *)
Definition epic_element_returns (game : json) : Prop :=
  ∀ s, fst (epic_element game s) = Ok ().

(** The offer [o] was built from the catalog element [game] and its
    promotional entry [promo]: the entry is active, and the price text of
    the element is not [Free], so that its original price, when it has
    one, is positive. *)
Definition epic_emitted (elements : list json) (o : offer) : Prop :=
  ∃ game promo,
    game ∈ elements
    ∧ active_promotion game promo
    ∧ (∀ z, original_price_minor game = Some z → (0 < z)%Z)
    ∧ _get_epic_original_price game ≠ "Free"
    ∧ epic_game_info game promo (_get_epic_original_price game) = Ok o.

(** The Steam filter as the specification words it:
    [final_price == 0 AND original_price > 0 AND discount_percent == 100]. *)
Definition steam_included (item : json) : bool :=
  match item with
  | JDict d =>
      py_eq_int (dict_get d "final_price" JNull) 0
      && match py_int (dict_get d "original_price" (JInt 0)) with
         | Some z => (0 <? z)%Z
         | None => false
         end
      && py_eq_int (dict_get d "discount_percent" JNull) 100
  | _ => false
  end.

(** The offer [o] was built from an item of the specials that passes
    the filter. *)
Definition steam_emitted (items : list json) (o : offer) : Prop :=
  ∃ item, item ∈ items ∧ steam_included item = true ∧ steam_game_info item = Ok o.

(** An item on which the filter can be evaluated and whose price is
    rendered to the cent: an object whose [original_price], when it has
    one, is an integer below [2^52]. *)
Definition steam_item_ok (item : json) : bool :=
  match item with
  | JDict d =>
      match py_int (dict_get d "original_price" (JInt 0)) with
      | Some z => (z <? 2 ^ 52)%Z
      | None => false
      end
  | _ => false
  end.

(** The row of an offer as the specification describes it: the eight
    fields of the offer that the header names, empty where the offer has
    none, then the time stamp. *)
Definition expected_csv_row (game : offer) (stamp : string) : list string :=
  map (λ field, match dict_lookup game field with
                | Some v => csv_cell v
                | None => EmptyString
                end)
      ["title"; "platform"; "original_price"; "current_price"; "url";
       "end_date"; "description"; "type"]
  ++ [stamp].

(** The rows of the offers, the [i]-th stamped with the [i]-th reading of
    the clock from [tick] on. *)
Fixpoint expected_csv_rows (time : nat → string) (tick : nat) (games : list offer)
  : list (list string) :=
  match games with
  | [] => []
  | game :: rest =>
      expected_csv_row game (time tick) :: expected_csv_rows time (S tick) rest
  end.

(** A run in which no storefront can be reached. *)
Definition offline : web :=
  Web (Raise RequestException) (Raise RequestException) (Raise RequestException)
      (Raise RequestException) (Raise RequestException) (Raise RequestException)
      (Raise RequestException) (λ base path, base +:+ path).

(** *** Sample answers, for the examples *)

(** A promotions object with one active promotional offer entry. *)
Definition sample_promotions : json :=
  JDict [("promotionalOffers",
          JList [JDict [("promotionalOffers",
                         JList [JDict [("endDate", JStr "2024-01-04T16:00:00.000Z")]])]])].

(** A catalog element under promotion whose original price is [minor]. *)
Definition sample_game (title : string) (minor : Z) : json :=
  JDict [("title", JStr title);
         ("promotions", sample_promotions);
         ("price", JDict [("totalPrice", JDict [("originalPrice", JInt minor)])])].

(** The answer of the Epic backend with the given catalog elements. *)
Definition epic_answer_of (elements : list json) : result (response (option json)) :=
  Ok (Response true
        (Some (JDict [("data",
                 JDict [("Catalog",
                   JDict [("searchStore",
                     JDict [("elements", JList elements)])])])]))).

Definition sample_item (name : string) (final original discount : Z) : json :=
  JDict [("name", JStr name); ("id", JInt 440);
         ("final_price", JInt final);
         ("original_price", JInt original);
         ("discount_percent", JInt discount)].

(** The answer of the Steam endpoint with the given specials. *)
Definition steam_answer_of (items : list json) : result (response (option json)) :=
  Ok (Response true (Some (JDict [("specials", JDict [("items", JList items)])]))).

(** The offer the Epic scraper builds from [sample_game "Control" 2999]. *)
Definition sample_control_offer : offer :=
  [("title", JStr "Control");
   ("platform", JStr "Epic Games Store");
   ("original_price", JStr "$29.99");
   ("current_price", JStr "Free");
   ("url", JStr "https://store.epicgames.com");
   ("end_date", JStr "2024-01-04T16:00:00.000Z");
   ("description", JStr EmptyString);
   ("image_url", JStr EmptyString);
   ("type", JStr "Current Free Game")].

(** *** Vocabulary of the statements about the sinks and the entry point *)

(** A program that only prints: it returns, and the standard output is
    all it changes. *)
Definition prints (m : prog world unit) : Prop :=
  ∀ w, ∃ lines, m w = (Ok (), set_console (console w ++ lines) w).

Definition has_title (o : offer) : Prop := is_Some (dict_lookup o "title").

(** The platform of the offer can be a member of a set and a key of a
    dictionary; the platform the scrapers set is a string. *)
Definition hashable_platform (o : offer) : Prop :=
  py_hashable (dict_get o "platform" (JStr "Unknown")) = true.

(** The platform of the offer is a string, as in every [game_info] the
    scrapers build. *)
Definition platform_is_str (o : offer) : Prop :=
  ∃ p, dict_lookup o "platform" = Some (JStr p).

(** A run in which the Epic backend answers with one element under
    promotion and no other storefront can be reached. *)
Definition sample_web : web :=
  Web (epic_answer_of [sample_game "Control" 2999])
      (Raise RequestException) (Raise RequestException)
      (Raise RequestException) (Raise RequestException) (Raise RequestException)
      (Raise RequestException) (λ base path, base +:+ path).

(** *** Vocabulary of the further statements *)

(** An image object of type [OfferImageWide]. *)
Definition is_wide_image (image : json) : bool :=
  match image with
  | JDict d => py_eq_str (dict_get d "type" JNull) "OfferImageWide"
  | _ => false
  end.

(** What the GOG scraper keeps of an element: an offer when its title
    element has more than three characters. *)
Definition gog_kept (title_text : option string) : option offer :=
  match title_text with
  | Some title =>
      if 3 <? String.length title
      then Some [("title", JStr title);
                 ("platform", JStr "GOG");
                 ("current_price", JStr "Free");
                 ("url", JStr "https://www.gog.com/giveaway");
                 ("description", JStr "GOG Giveaway");
                 ("type", JStr "GOG Giveaway")]
      else None
  | None => None
  end.

(** What the Amazon scraper keeps of an element. *)
Definition amazon_kept (title_text : option string) : option offer :=
  match title_text with
  | Some title =>
      if 3 <? String.length title
      then Some [("title", JStr title);
                 ("platform", JStr "Amazon Prime Gaming");
                 ("current_price", JStr "Free (Prime Required)");
                 ("url", JStr "https://gaming.amazon.com/loot");
                 ("description", JStr "Amazon Prime Gaming free game");
                 ("type", JStr "Prime Gaming Offer")]
      else None
  | None => None
  end.


(** What the Ubisoft scraper keeps of a card. *)
Definition ubisoft_kept (card : ubisoft_card) : option offer :=
  match ubisoft_title card, ubisoft_price card with
  | Some title, Some price =>
      if is_substring "free" (lower price) && (3 <? String.length title)
      then Some [("title", JStr title);
                 ("platform", JStr "Ubisoft Connect");
                 ("current_price", JStr "Free");
                 ("url", JStr "https://store.ubisoft.com/us/game");
                 ("description", JStr "Ubisoft free game promotion");
                 ("type", JStr "Ubisoft Free Game")]
      else None
  | _, _ => None
  end.

(** [get_current_free_games]: the list the last run stored. *)
Definition get_current_free_games : prog world (list offer) := get_free_games.

(** The lines [print_summary] prints for one game and for one platform. *)
Definition game_lines (game : offer) : list printed :=
  [PTitle (dict_get game "title" JNull)]
  ++ (if has_truthy game "original_price"
      then [POriginal (dict_get game "original_price" JNull)] else [])
  ++ (if has_truthy game "end_date"
      then [PEnds (dict_get game "end_date" JNull)] else []).

Definition platform_lines (entry : json * list offer) : list printed :=
  [PPlatform (fst entry) (List.length (snd entry))]
  ++ flat_map game_lines (take 5 (snd entry))
  ++ (if 5 <? List.length (snd entry)
      then [PMore (List.length (snd entry) - 5)] else []).

Definition is_title_line (line : printed) : bool :=
  match line with
  | PTitle _ => true
  | _ => false
  end.

(** The offers [print_summary] files under [platform]. *)
Definition on_platform (platform : json) (game : offer) : bool :=
  py_eq_atom (dict_get game "platform" (JStr "Unknown")) platform.

(** What the grouping loop of [print_summary] keeps true: the keys are
    distinct, each entry holds the offers of its platform seen so far, in
    their order, and each platform seen has an entry. *)
Definition grouped_so_far (platforms : list (json * list offer)) (seen : list offer)
  : Prop :=
  NoDup (map fst platforms)
  ∧ (∀ q ms, (q, ms) ∈ platforms → ms ≠ [] ∧ ms = List.filter (on_platform q) seen)
  ∧ (∀ game, game ∈ seen →
       dict_get game "platform" (JStr "Unknown") ∈ map fst platforms).

(* ================================================================== *)
(** * Properties *)
(* ================================================================== *)

Example dedup_control_colon :
  _remove_duplicates [titled "Control Ultimate Edition"; titled "Control: Ultimate Edition"]
  = Ok [titled "Control Ultimate Edition"].
Proof. vm_compute. reflexivity. Qed.

Example dedup_control_short :
  _remove_duplicates [titled "Control"; titled "Control Ultimate Edition"]
  = Ok [titled "Control"; titled "Control Ultimate Edition"].
Proof. vm_compute. reflexivity. Qed.

Example dedup_punct :
  _remove_duplicates [titled "!!!"; titled "???"] = Raise ZeroDivisionError.
Proof. vm_compute. reflexivity. Qed.

(** The overlaps of the two examples: 1 and 1/3. *)
Example overlap_control_colon :
  Qeq (overlap (word_set "control ultimate edition")
               (word_set "control: ultimate edition")) (1 # 1).
Proof. vm_compute. reflexivity. Qed.

Example overlap_control_short :
  Qeq (overlap (word_set "control") (word_set "control ultimate edition")) (1 # 3).
Proof. vm_compute. reflexivity. Qed.

(** The test is not transitive: the second title is dropped for the first,
    and the third, close to the second only, is kept. *)
Example dedup_not_transitive :
  _remove_duplicates [titled "a b c d e f"; titled "a b c d e g"; titled "b c d e g h"]
  = Ok [titled "a b c d e f"; titled "b c d e g h"].
Proof. vm_compute. reflexivity. Qed.

(** Three futures: the same game twice, and a failure. *)
Example pipeline_three_adapters :
  fst (scrape_all_platforms_threaded
         [("first", Ok [titled "Game A"]); ("second", Ok [titled "Game A"]);
          ("third", Raise RequestException)] fresh_world)
  = Ok [titled "Game A"].
Proof. vm_compute. reflexivity. Qed.

(** ** Text *)

Section Text.

Lemma is_word_char_lower c : is_word_char (lower_char c) = is_word_char c.
Proof. destruct c as [[] [] [] [] [] [] [] []]; reflexivity. Qed.

Lemma space_is_not_word c : is_space_char c = true → is_word_char c = false.
Proof. destruct c as [[] [] [] [] [] [] [] []]; vm_compute; congruence. Qed.

Lemma has_word_char_lower s : has_word_char (lower s) = has_word_char s.
Proof.
  induction s as [|c s IH]; simpl; [done|].
  by rewrite is_word_char_lower, IH.
Qed.

Lemma has_word_char_lstrip s : has_word_char (lstrip s) = has_word_char s.
Proof.
  induction s as [|c s IH]; simpl; [done|].
  destruct (is_space_char c) eqn:Hc; [|done].
  by rewrite IH, (space_is_not_word c Hc).
Qed.

Lemma has_word_char_rstrip s : has_word_char (rstrip s) = has_word_char s.
Proof.
  induction s as [|c s IH]; simpl; [done|].
  rewrite <- IH. destruct (rstrip s) as [|c' r]; [|done].
  destruct (is_space_char c) eqn:Hc; simpl; [|done].
  by rewrite (space_is_not_word c Hc).
Qed.

Lemma has_word_char_strip_lower s :
  has_word_char (strip (lower s)) = has_word_char s.
Proof.
  unfold strip.
  by rewrite has_word_char_rstrip, has_word_char_lstrip, has_word_char_lower.
Qed.

Lemma flush_nil cur : flush cur = [] ↔ cur = EmptyString.
Proof. by destruct cur. Qed.

Lemma append_char_nonempty cur c : cur +:+ String c EmptyString ≠ EmptyString.
Proof. by destruct cur. Qed.

Lemma findall_words_from_nil cur s :
  findall_words_from cur s = [] ↔ cur = EmptyString ∧ has_word_char s = false.
Proof.
  revert cur. induction s as [|c s IH]; intros cur; simpl.
  - rewrite flush_nil. tauto.
  - destruct (is_word_char c); simpl.
    + rewrite IH. split; [|intros [_ ?]; congruence].
      intros [Hc _]. by apply append_char_nonempty in Hc.
    + rewrite app_nil, IH, flush_nil. tauto.
Qed.

Lemma word_set_size_0 s : size (word_set s) = 0 ↔ has_word_char s = false.
Proof.
  unfold word_set, findall_words.
  rewrite size_empty_iff. split.
  - intros He. apply (findall_words_from_nil EmptyString s).
    destruct (findall_words_from EmptyString s) as [|w ws]; [done|].
    exfalso. apply (not_elem_of_empty (C:=gset string) w).
    rewrite <- He. set_solver.
  - intros Hs.
    assert (findall_words_from EmptyString s = []) as ->
      by (by apply findall_words_from_nil).
    done.
Qed.

Lemma word_set_size_pos s : 0 < size (word_set s) ↔ has_word_char s = true.
Proof.
  pose proof (word_set_size_0 s) as H0.
  destruct (has_word_char s); split; intros H; try done.
  - destruct (size (word_set s)); [|lia].
    by destruct H0 as [H0 _]; specialize (H0 eq_refl).
  - destruct H0 as [_ H0]. rewrite H0 in H by done. lia.
Qed.

End Text.

(** ** The result monad *)

Section Result.
Context {A B : Type}.

Lemma bind_Ok (a : A) (f : A → result B) : Ok a ≫= f = f a.
Proof. reflexivity. Qed.

Lemma bind_Raise (e : exn) (f : A → result B) : Raise e ≫= f = Raise e.
Proof. reflexivity. Qed.

Lemma bind_Ok_inv (m : result A) (f : A → result B) (b : B) :
  m ≫= f = Ok b → ∃ a, m = Ok a ∧ f a = Ok b.
Proof. destruct m as [a|e]; [eauto | discriminate]. Qed.

End Result.

(** ** The overlap test *)

Section Overlap.
Implicit Types (A B title_words : gset string).

Lemma exceeds_threshold_nat A B :
  0 < max (size A) (size B) →
  exceeds_threshold A B = (4 * max (size A) (size B) <? 5 * size (A ∩ B)).
Proof.
  intros Hd. unfold exceeds_threshold, overlap, Qle_bool. cbn [Qnum Qden].
  set (d := max (size A) (size B)) in *. set (k := size (A ∩ B)).
  assert (Z.pos (Pos.of_nat d) = Z.of_nat d) as ->.
  { rewrite <- (Nat2Pos.id d) at 2 by lia. by rewrite positive_nat_Z. }
  destruct (Nat.ltb_spec (4 * d) (5 * k)).
  - apply negb_true_iff, Z.leb_gt. lia.
  - apply negb_false_iff, Z.leb_le. lia.
Qed.

Lemma overlap_exceeds_pos title_words B :
  0 < size title_words →
  overlap_exceeds title_words B = Ok (exceeds_threshold title_words B).
Proof.
  intros Hp. unfold overlap_exceeds.
  destruct (Nat.eqb_spec (max (size title_words) (size B)) 0) as [H0|_]; [lia|].
  by rewrite exceeds_threshold_nat by lia.
Qed.

Lemma overlap_exceeds_zero title_words B :
  size title_words = 0 →
  overlap_exceeds title_words B
  = if size B =? 0 then Raise ZeroDivisionError else Ok false.
Proof.
  intros Hz. unfold overlap_exceeds.
  assert (size (title_words ∩ B) = 0) as ->.
  { assert (size (title_words ∩ B) ≤ size title_words) as Hs
      by (apply subseteq_size; intros x [? _]%elem_of_intersection; done).
    lia. }
  rewrite Hz, Nat.max_0_l, Nat.mul_0_r.
  by destruct (size B =? 0).
Qed.

(** The inner loop in closed form: it raises exactly when the new title
    has no token and some seen title has none either, whatever the order
    in which the set is enumerated. *)
Lemma is_duplicate_in_pos title_words seen :
  0 < size title_words →
  is_duplicate_in title_words seen
  = Ok (existsb (λ t, exceeds_threshold title_words (word_set t)) seen).
Proof.
  intros Hp. induction seen as [|t seen IH]; simpl; [done|].
  rewrite overlap_exceeds_pos by done. rewrite bind_Ok.
  by destruct (exceeds_threshold title_words (word_set t)).
Qed.

Lemma is_duplicate_in_zero title_words seen :
  size title_words = 0 →
  is_duplicate_in title_words seen
  = if existsb (λ t, size (word_set t) =? 0) seen
    then Raise ZeroDivisionError else Ok false.
Proof.
  intros Hz. induction seen as [|t seen IH]; simpl; [done|].
  rewrite overlap_exceeds_zero by done.
  by destruct (size (word_set t) =? 0).
Qed.

Lemma existsb_Permutation {X} (p : X → bool) (l l' : list X) :
  l ≡ₚ l' → existsb p l = existsb p l'.
Proof.
  induction 1 as [|x l l' _ IH|x y l|l l' l'' _ IH1 _ IH2]; simpl.
  - done.
  - by rewrite IH.
  - by destruct (p x), (p y).
  - by rewrite IH1.
Qed.

Lemma is_duplicate_in_Permutation title_words (seen seen' : list string) :
  seen ≡ₚ seen' →
  is_duplicate_in title_words seen = is_duplicate_in title_words seen'.
Proof.
  intros Hp. destruct (size title_words) eqn:Hs.
  - rewrite !is_duplicate_in_zero by done. by rewrite (existsb_Permutation _ _ _ Hp).
  - rewrite !is_duplicate_in_pos by lia. by rewrite (existsb_Permutation _ _ _ Hp).
Qed.

End Overlap.

(** ** The loop of [_remove_duplicates] *)

Section Loop.
Implicit Types (games pre post out : list offer) (seen : gset string).

Lemma remove_duplicates_step_inv u seen game st' :
  remove_duplicates_step (u, seen) game = Ok st' →
  ∃ title_lower is_duplicate,
    title_lower_of game = Ok title_lower
    ∧ is_duplicate_in (word_set title_lower) (elements seen) = Ok is_duplicate
    ∧ st' = if is_duplicate then (u, seen)
            else (u ++ [game], {[title_lower]} ∪ seen).
Proof.
  unfold remove_duplicates_step.
  intros (tl & Htl & H)%bind_Ok_inv.
  apply bind_Ok_inv in H as (d & Hd & H).
  exists tl, d. repeat split; [done..|].
  destruct d; congruence.
Qed.

Lemma remove_duplicates_step_eq u seen game title_lower is_duplicate :
  title_lower_of game = Ok title_lower →
  is_duplicate_in (word_set title_lower) (elements seen) = Ok is_duplicate →
  remove_duplicates_step (u, seen) game
  = Ok (if is_duplicate then (u, seen)
        else (u ++ [game], {[title_lower]} ∪ seen)).
Proof.
  intros Htl Hd. unfold remove_duplicates_step.
  rewrite Htl, bind_Ok, Hd, bind_Ok. by destruct is_duplicate.
Qed.

Lemma remove_duplicates_loop_app pre post st :
  remove_duplicates_loop (pre ++ post) st
  = remove_duplicates_loop pre st ≫= remove_duplicates_loop post.
Proof.
  revert st. induction pre as [|g pre IH]; intros st; simpl; [done|].
  destruct (remove_duplicates_step st g) as [st1|e]; [|done].
  rewrite !bind_Ok. apply IH.
Qed.

(** The loop only appends to [unique_games], and what it appends is a
    subsequence of the games it reads. *)
Lemma remove_duplicates_loop_extends games u seen u' seen' :
  remove_duplicates_loop games (u, seen) = Ok (u', seen') →
  ∃ out, u' = u ++ out ∧ sublist out games.
Proof.
  revert u seen. induction games as [|g games IH]; intros u seen; simpl.
  - intros [= <- <-]. exists []. by rewrite app_nil_r.
  - intros (st1 & Hstep & Hloop)%bind_Ok_inv.
    apply remove_duplicates_step_inv in Hstep as (tl & d & _ & _ & ->).
    destruct d.
    + apply IH in Hloop as (out & -> & Hsub).
      exists out. split; [done|]. by apply sublist_cons.
    + apply IH in Hloop as (out & -> & Hsub).
      exists (g :: out). split; [by rewrite <- app_assoc|]. by apply sublist_skip.
Qed.

(** The decisions of the loop depend on [seen_titles] only: running the
    accepted offers again from the same set accepts each of them. *)
Lemma remove_duplicates_loop_again games u seen out seen' :
  remove_duplicates_loop games (u, seen) = Ok (u ++ out, seen') →
  ∀ u0, remove_duplicates_loop out (u0, seen) = Ok (u0 ++ out, seen').
Proof.
  revert u seen out. induction games as [|g games IH]; intros u seen out; simpl.
  - intros [= Hu <-] u0.
    assert (out = []) as -> by (apply (app_inv_head u); by rewrite app_nil_r).
    by rewrite app_nil_r.
  - intros (st1 & Hstep & Hloop)%bind_Ok_inv u0.
    apply remove_duplicates_step_inv in Hstep as (tl & d & Htl & Hd & ->).
    destruct d; [by eapply IH|].
    destruct (remove_duplicates_loop_extends _ _ _ _ _ Hloop) as (out' & Hout & _).
    rewrite <- app_assoc in Hout. apply app_inv_head in Hout as ->.
    replace (u ++ [g] ++ out') with ((u ++ [g]) ++ out') in Hloop
      by (by rewrite <- app_assoc).
    cbn [remove_duplicates_loop app].
    rewrite (remove_duplicates_step_eq u0 _ _ _ _ Htl Hd), bind_Ok.
    rewrite (IH _ _ _ Hloop (u0 ++ [g])). by rewrite <- app_assoc.
Qed.

End Loop.

(** ** The deduplicator against its specification *)

Section Dedupe.
Implicit Types (games pre post out : list offer) (seen : gset string).

Lemma title_is_str_lower o :
  title_is_str o = true → title_lower_of o = Ok (normalized_title o).
Proof.
  unfold title_is_str, title_lower_of, normalized_title, dict_getitem.
  by destruct (dict_lookup o "title") as [[]|].
Qed.

Lemma normalized_title_size o :
  title_is_str o = true →
  (size (word_set (normalized_title o)) =? 0) = title_token_free o.
Proof.
  unfold title_is_str, normalized_title, title_token_free.
  destruct (dict_lookup o "title") as [[| | |s| |]|]; try done. intros _.
  pose proof (word_set_size_0 (strip (lower s))) as H0.
  rewrite has_word_char_strip_lower in H0.
  destruct (Nat.eqb_spec (size (word_set (strip (lower s)))) 0) as [Hz|Hz].
  - apply H0 in Hz. by rewrite Hz.
  - destruct (has_word_char s); [done|]. by destruct Hz, H0 as [_ ->].
Qed.

Lemma existsb_elements_union (p : string → bool) t seen :
  existsb p (elements ({[t]} ∪ seen)) = p t || existsb p (elements seen).
Proof.
  apply eq_true_iff_eq.
  rewrite orb_true_iff, !existsb_exists. split.
  - intros (x & Hx & Hp).
    apply list_elem_of_In, elem_of_elements, elem_of_union in Hx as [Hx|Hx].
    + apply elem_of_singleton in Hx as ->. by left.
    + right. exists x. by rewrite <- list_elem_of_In, elem_of_elements.
  - intros [Hp|(x & Hx & Hp)].
    + exists t. split; [|done].
      apply list_elem_of_In, elem_of_elements, elem_of_union_l.
      by apply elem_of_singleton.
    + exists x. split; [|done].
      apply list_elem_of_In, elem_of_elements, elem_of_union_r.
      by apply elem_of_elements, list_elem_of_In.
Qed.

(** Against a set without token-free title, a token-free title is never
    a duplicate. *)
Lemma token_free_not_duplicate seen o :
  title_is_str o = true → title_token_free o = true →
  seen_token_free seen = false →
  is_duplicate_of_seen seen o = false.
Proof.
  intros Hs Hf Hseen. rewrite <- normalized_title_size in Hf by done.
  apply Nat.eqb_eq in Hf.
  unfold is_duplicate_of_seen, seen_token_free in *.
  induction (elements seen) as [|t l IH]; simpl in *; [done|].
  apply orb_false_iff in Hseen as [Ht Hl]. rewrite (IH Hl), orb_false_r.
  apply Nat.eqb_neq in Ht.
  rewrite exceeds_threshold_nat by lia.
  apply Nat.ltb_ge.
  assert (size (word_set (normalized_title o) ∩ word_set t) = 0) as ->; [|lia].
  assert (size (word_set (normalized_title o) ∩ word_set t)
          ≤ size (word_set (normalized_title o))) as Hle
    by (apply subseteq_size; intros x [? _]%elem_of_intersection; done).
  lia.
Qed.

(** The loop on games whose titles are all strings, in closed form. *)
Lemma remove_duplicates_loop_exact games : ∀ u seen,
  Forall (λ o, title_is_str o = true) games →
  remove_duplicates_loop games (u, seen) ≫= (λ st, Ok (fst st))
  = if 2 <=? (if seen_token_free seen then 1 else 0) + token_free_titles games
    then Raise ZeroDivisionError
    else Ok (u ++ Dedupe_from seen games).
Proof.
  induction games as [|g games IH]; intros u seen Hstr.
  - simpl. rewrite app_nil_r.
    by destruct (seen_token_free seen).
  - apply Forall_cons in Hstr as [Hg Hstr].
    cbn [remove_duplicates_loop Dedupe_from].
    unfold token_free_titles in *. cbn [List.filter].
    pose proof (title_is_str_lower g Hg) as Htl.
    pose proof (normalized_title_size g Hg) as Hsz.
    destruct (title_token_free g) eqn:Hfree.
    + apply Nat.eqb_eq in Hsz.
      pose proof (is_duplicate_in_zero _ (elements seen) Hsz) as Hd.
      fold (seen_token_free seen) in Hd.
      destruct (seen_token_free seen) eqn:Hseen.
      * unfold remove_duplicates_step. rewrite Htl, bind_Ok, Hd. done.
      * rewrite (remove_duplicates_step_eq _ _ _ _ _ Htl Hd), !bind_Ok.
        rewrite (token_free_not_duplicate seen g Hg Hfree Hseen).
        rewrite IH by done. unfold seen_token_free at 1.
        rewrite existsb_elements_union, Hsz. cbn [Nat.eqb orb List.length].
        replace (0 + S (List.length (List.filter title_token_free games)))
          with (1 + List.length (List.filter title_token_free games)) by lia.
        destruct (2 <=? _); [done|]. by rewrite <- app_assoc.
    + apply Nat.eqb_neq in Hsz.
      assert (0 < size (word_set (normalized_title g))) as Hpos by lia.
      pose proof (is_duplicate_in_pos _ (elements seen) Hpos) as Hd.
      fold (is_duplicate_of_seen seen g) in Hd.
      rewrite (remove_duplicates_step_eq _ _ _ _ _ Htl Hd), !bind_Ok.
      destruct (is_duplicate_of_seen seen g).
      * by rewrite IH.
      * rewrite IH by done. unfold seen_token_free at 1.
        rewrite existsb_elements_union.
        apply Nat.eqb_neq in Hsz. rewrite Hsz. cbn [orb].
        fold (seen_token_free seen).
        destruct (2 <=? _); [done|]. by rewrite <- app_assoc.
Qed.

(** On string titles the source computes the specified function, unless
    two titles have no token, in which case it raises. *)
Lemma remove_duplicates_exact games :
  Forall (λ o, title_is_str o = true) games →
  _remove_duplicates games
  = if 2 <=? token_free_titles games then Raise ZeroDivisionError
    else Ok (Dedupe games).
Proof.
  intros Hstr. unfold _remove_duplicates, Dedupe.
  by rewrite (remove_duplicates_loop_exact games [] ∅ Hstr).
Qed.

Lemma title_has_word_str o : title_has_word o = true → title_is_str o = true.
Proof.
  unfold title_has_word, title_is_str.
  by destruct (dict_lookup o "title") as [[]|].
Qed.

Lemma title_has_word_not_free o :
  title_has_word o = true → title_token_free o = false.
Proof.
  unfold title_has_word, title_token_free.
  destruct (dict_lookup o "title") as [[| | |s| |]|]; try done.
  by intros ->.
Qed.

Lemma token_free_titles_wordy games :
  Forall (λ o, title_has_word o = true) games → token_free_titles games = 0.
Proof.
  unfold token_free_titles.
  induction 1 as [|o games Ho _ IH]; simpl; [done|].
  by rewrite (title_has_word_not_free o Ho).
Qed.

Lemma token_free_titles_app pre post :
  token_free_titles (pre ++ post) = token_free_titles pre + token_free_titles post.
Proof. unfold token_free_titles. by rewrite List.filter_app, length_app. Qed.

Lemma token_free_titles_cons o games :
  title_token_free o = true →
  token_free_titles (o :: games) = S (token_free_titles games).
Proof. unfold token_free_titles. simpl. by intros ->. Qed.

End Dedupe.

(** ** First seen, first kept *)

Section FirstSeen.
Implicit Types (games pre post out : list offer) (seen : gset string).

Lemma is_duplicate_in_true title_words (l : list string) :
  is_duplicate_in title_words l = Ok true →
  ∃ t, t ∈ l ∧ overlap_exceeds title_words (word_set t) = Ok true.
Proof.
  induction l as [|t l IH]; simpl; [done|].
  intros (hit & Hhit & H)%bind_Ok_inv. destruct hit.
  - exists t. split; [apply list_elem_of_here | done].
  - destruct (IH H) as (t' & Ht' & Hov).
    exists t'. split; [by apply list_elem_of_further | done].
Qed.

Lemma seen_from_loop games : ∀ u seen u' seen',
  remove_duplicates_loop games (u, seen) = Ok (u', seen') →
  seen_from u seen → seen_from u' seen'.
Proof.
  induction games as [|g games IH]; intros u seen u' seen'; simpl.
  - by intros [= <- <-].
  - intros (st1 & Hstep & Hloop)%bind_Ok_inv Hinv.
    apply remove_duplicates_step_inv in Hstep as (tl & d & Htl & _ & ->).
    destruct d; [by eapply IH|].
    eapply IH; [done|]. intros t [Ht|Ht]%elem_of_union.
    + apply elem_of_singleton in Ht as ->.
      exists g. split; [|done]. apply elem_of_app. right. apply list_elem_of_here.
    + destruct (Hinv t Ht) as (g' & Hg' & Hg't).
      exists g'. split; [|done]. apply elem_of_app. by left.
Qed.

Lemma remove_duplicates_sublist games out :
  _remove_duplicates games = Ok out → sublist out games.
Proof.
  unfold _remove_duplicates.
  intros ([out1 seen'] & Hloop & [= <-])%bind_Ok_inv.
  by apply remove_duplicates_loop_extends in Hloop as (out' & -> & Hsub).
Qed.

(** Where an offer of the input goes: it is appended to what the loop
    kept before it, or it is dropped because of one of those. *)
Lemma remove_duplicates_split pre g post out :
  _remove_duplicates (pre ++ g :: post) = Ok out →
  ∃ kept_before kept_after,
    _remove_duplicates pre = Ok kept_before
    ∧ sublist kept_before pre ∧ sublist kept_after post
    ∧ (out = kept_before ++ g :: kept_after
       ∨ (out = kept_before ++ kept_after
          ∧ ∃ first, first ∈ kept_before ∧ duplicate_of g first)).
Proof.
  unfold _remove_duplicates.
  intros ([out1 seen'] & Hloop & [= <-])%bind_Ok_inv.
  rewrite remove_duplicates_loop_app in Hloop.
  apply bind_Ok_inv in Hloop as ([kb seen1] & Hpre & Hrest).
  cbn [remove_duplicates_loop] in Hrest.
  apply bind_Ok_inv in Hrest as (st2 & Hstep & Hpost).
  pose proof (remove_duplicates_loop_extends _ _ _ _ _ Hpre) as (kb' & Hkb & Hsub1).
  simpl in Hkb. subst kb'.
  assert (seen_from kb seen1) as Hinv.
  { eapply seen_from_loop; [exact Hpre|]. intros t Ht.
    by apply not_elem_of_empty in Ht. }
  apply remove_duplicates_step_inv in Hstep as (tl & d & Htl & Hd & ->).
  rewrite Hpre, bind_Ok. cbn [fst].
  destruct d.
  - apply remove_duplicates_loop_extends in Hpost as (ka & -> & Hsub2).
    exists kb, ka. repeat split; [done..|]. right. split; [done|].
    apply is_duplicate_in_true in Hd as (t' & Ht' & Hov).
    apply elem_of_elements in Ht'.
    destruct (Hinv t' Ht') as (first & Hfirst & Hft).
    exists first. split; [done|]. by exists tl, t'.
  - apply remove_duplicates_loop_extends in Hpost as (ka & -> & Hsub2).
    exists kb, ka. repeat split; [done..|]. left. by rewrite <- app_assoc.
Qed.

End FirstSeen.

(* ================================================================== *)
(** * The claims about the deduplicator *)
(* ================================================================== *)

(** C1 (the two titled examples of the claim hold, see
    [dedup_control_colon] and [dedup_control_short]; the general statement
    does not): on two titles without any word character no accepted title
    yields an overlap above 0.8, so the second offer should be accepted,
    but the source raises [ZeroDivisionError] while comparing it with the
    first. *)
Theorem remove_duplicates_two_token_free_titles :
  _remove_duplicates [titled "!!!"; titled "???"] = Raise ZeroDivisionError
  ∧ Dedupe [titled "!!!"; titled "???"] = [titled "!!!"; titled "???"].
Proof. split; vm_compute; reflexivity. Qed.

(** C6: the deduplicator is idempotent.  In the exception monad:
    deduplicating the result of the deduplicator is the same computation as
    deduplicating once; when the first pass returns [out], the second pass
    returns [out] again. *)
Theorem remove_duplicates_idempotent (x : list offer) :
  _remove_duplicates x ≫= _remove_duplicates = _remove_duplicates x.
Proof.
  destruct (_remove_duplicates x) as [out|e] eqn:Hx; [|done].
  rewrite bind_Ok. unfold _remove_duplicates in *.
  apply bind_Ok_inv in Hx as ([out1 seen'] & Hloop & [= <-]).
  change out1 with ([] ++ out1) in Hloop.
  by rewrite (remove_duplicates_loop_again _ _ _ _ _ Hloop []).
Qed.

(** C7: the output is an order-preserving subsequence of the input; every
    offer of the input is either kept, unchanged, right after the offers
    kept before it, or dropped as the duplicate of an offer that was kept
    before it: the first seen of two duplicates is the one in the output,
    and the output holds input offers only, none rebuilt from several. *)
Theorem remove_duplicates_first_seen_wins (games out : list offer) :
  _remove_duplicates games = Ok out →
  sublist out games
  ∧ ∀ pre g post, games = pre ++ g :: post →
      ∃ kept_before kept_after,
        _remove_duplicates pre = Ok kept_before
        ∧ sublist kept_before pre ∧ sublist kept_after post
        ∧ (out = kept_before ++ g :: kept_after
           ∨ (out = kept_before ++ kept_after
              ∧ ∃ first, first ∈ kept_before ∧ duplicate_of g first)).
Proof.
  intros Hout. split.
  - by apply remove_duplicates_sublist.
  - intros pre g post ->. by apply remove_duplicates_split.
Qed.

Lemma remove_duplicates_first_seen_wins_witness :
  let first := titled_at "Game A" "https://one.example/a" in
  let later := titled_at "game a!" "https://two.example/a" in
  _remove_duplicates [first; later] = Ok [first]
  ∧ sublist [first] [first; later]
  ∧ ∀ pre g post, [first; later] = pre ++ g :: post →
      ∃ kept_before kept_after,
        _remove_duplicates pre = Ok kept_before
        ∧ sublist kept_before pre ∧ sublist kept_after post
        ∧ ([first] = kept_before ++ g :: kept_after
           ∨ ([first] = kept_before ++ kept_after
              ∧ ∃ kept, kept ∈ kept_before ∧ duplicate_of g kept)).
Proof.
  intros first later. split; [vm_compute; reflexivity|].
  apply (remove_duplicates_first_seen_wins [first; later] [first]).
  vm_compute. reflexivity.
Defined.

(** C10: when every title has a word character the deduplicator returns,
    and returns what the specification describes, without dividing by
    zero; on titles that are strings, two offers whose titles have no word
    character make it raise [ZeroDivisionError]. *)
Theorem remove_duplicates_zero_division (games : list offer) :
  (Forall (λ o, title_has_word o = true) games →
   _remove_duplicates games = Ok (Dedupe games))
  ∧ (Forall (λ o, title_is_str o = true) games →
     ∀ pre a mid b post, games = pre ++ a :: mid ++ b :: post →
       title_token_free a = true → title_token_free b = true →
       _remove_duplicates games = Raise ZeroDivisionError).
Proof.
  split.
  - intros Hw. rewrite remove_duplicates_exact.
    + by rewrite token_free_titles_wordy.
    + eapply Forall_impl; [exact Hw|]. apply title_has_word_str.
  - intros Hstr pre a mid b post -> Ha Hb.
    rewrite remove_duplicates_exact by done.
    rewrite token_free_titles_app, (token_free_titles_cons a) by done.
    rewrite token_free_titles_app, (token_free_titles_cons b) by done.
    destruct (Nat.leb_spec 2
      (token_free_titles pre + S (token_free_titles mid + S (token_free_titles post))));
      [done | lia].
Qed.

Lemma remove_duplicates_zero_division_witness :
  _remove_duplicates [titled "Control"; titled "Control Ultimate Edition"]
  = Ok (Dedupe [titled "Control"; titled "Control Ultimate Edition"])
  ∧ _remove_duplicates [titled "Portal"; titled "..."; titled "Braid"; titled "?!"]
    = Raise ZeroDivisionError.
Proof.
  split.
  - apply (remove_duplicates_zero_division
             [titled "Control"; titled "Control Ultimate Edition"]).
    repeat constructor.
  - apply (proj2 (remove_duplicates_zero_division
             [titled "Portal"; titled "..."; titled "Braid"; titled "?!"]))
      with (pre := [titled "Portal"]) (a := titled "...")
           (mid := [titled "Braid"]) (b := titled "?!") (post := []).
    + repeat constructor.
    + reflexivity.
    + reflexivity.
    + reflexivity.
Defined.

(* ================================================================== *)
(** * The adapters *)
(* ================================================================== *)

Lemma prog_bind_run {S A B} (m : prog S A) (f : A → prog S B) s :
  (m ≫= f) s
  = match m s with
    | (Ok a, s') => f a s'
    | (Raise e, s') => (Raise e, s')
    end.
Proof. reflexivity. Qed.

Lemma lift_run {S A} (r : result A) (s : S) : lift r s = (r, s).
Proof. reflexivity. Qed.

Section Loops.
Context {S A : Type}.

Lemma for_each_app (xs ys : list A) (body : A → prog S unit) s :
  for_each (xs ++ ys) body s = (for_each xs body;; for_each ys body) s.
Proof.
  revert s. induction xs as [|x xs IH]; intros s; [done|].
  cbn [for_each app]. rewrite !prog_bind_run.
  destruct (body x s) as [[[]|e] s1]; [|done].
  rewrite IH. by rewrite prog_bind_run.
Qed.

(** A property of the state that every turn preserves, whether the turn
    returns or raises, holds when the loop ends. *)
Lemma for_each_preserves (I : S → Prop) (xs : list A) (body : A → prog S unit) :
  (∀ x s, x ∈ xs → I s → I (snd (body x s))) →
  ∀ s, I s → I (snd (for_each xs body s)).
Proof.
  induction xs as [|x xs IH]; intros Hbody s Hs; [done|].
  cbn [for_each]. rewrite prog_bind_run.
  pose proof (Hbody x s (list_elem_of_here _ _) Hs) as H1.
  destruct (body x s) as [[[]|e] s1]; simpl in *; [|done].
  apply IH; [|done]. intros y s' Hy. apply Hbody. by apply list_elem_of_further.
Qed.

(** A loop whose turns all return, returns. *)
Lemma for_each_returns (xs : list A) (body : A → prog S unit) :
  (∀ x, x ∈ xs → ∀ s, fst (body x s) = Ok ()) →
  ∀ s, fst (for_each xs body s) = Ok ().
Proof.
  induction xs as [|x xs IH]; intros Hbody s; [done|].
  cbn [for_each]. rewrite prog_bind_run.
  pose proof (Hbody x (list_elem_of_here _ _) s) as Hx.
  destruct (body x s) as [[[]|e] s1]; [|done].
  apply IH. intros y Hy. apply Hbody. by apply list_elem_of_further.
Qed.

(** What the turn of [x] establishes when it returns, and every turn
    keeps, holds at the end of a loop over [x] that returns. *)
Lemma for_each_reaches (I : S → Prop) (xs : list A) (body : A → prog S unit) x :
  x ∈ xs →
  (∀ s, fst (body x s) = Ok () → I (snd (body x s))) →
  (∀ y s, I s → I (snd (body y s))) →
  ∀ s, fst (for_each xs body s) = Ok () → I (snd (for_each xs body s)).
Proof.
  intros Hx Hturn Hkeep.
  induction xs as [|y xs IH]; intros s; [by apply elem_of_nil in Hx|].
  cbn [for_each]. rewrite prog_bind_run.
  apply elem_of_cons in Hx as [<-|Hx].
  - pose proof (Hturn s) as H1.
    destruct (body x s) as [[[]|e] s1]; [|done]. intros _.
    apply for_each_preserves; [|by apply H1].
    intros z s' _. apply Hkeep.
  - destruct (body y s) as [[[]|e] s1]; [|done]. by apply IH.
Qed.

End Loops.

Section Shell.

(** The frame every scraper puts around its [try] block. *)
Lemma shell_run (start message : string) (found : nat → string)
    (body : prog scraper_state unit) (s : scraper_state) :
  (logger_info start;;
   new_games;;
   try_except body (λ e, logger_error message e);;
   games ← get_games;
   logger_info (found (List.length games));;
   mret games) s
  = match body (ScraperState [] (sc_log s ++ [LogRecord INFO start None])) with
    | (Ok _, after) =>
        (Ok (sc_games after),
         ScraperState (sc_games after)
           (sc_log after
            ++ [LogRecord INFO (found (List.length (sc_games after))) None]))
    | (Raise e, after) =>
        (Ok (sc_games after),
         ScraperState (sc_games after)
           ((sc_log after ++ [LogRecord ERROR message (Some e)])
            ++ [LogRecord INFO (found (List.length (sc_games after))) None]))
    end.
Proof.
  unfold try_except, logger_info, logger_error, new_games, get_games.
  rewrite !prog_bind_run. cbn.
  by destruct (body _) as [[[]|e] after].
Qed.

Lemma shell_isolates {A}
    (scraper : result (response A) → prog scraper_state (list offer))
    (try_block : result (response A) → prog scraper_state unit)
    (start message : string) (found : nat → string) :
  (∀ fetched,
     scraper fetched
     = (logger_info start;;
        new_games;;
        try_except (try_block fetched) (λ e, logger_error message e);;
        games ← get_games;
        logger_info (found (List.length games));;
        mret games)) →
  fault_isolating scraper try_block message.
Proof.
  intros Hshape fetched s. rewrite Hshape.
  exists (sc_log s ++ [LogRecord INFO start None]).
  rewrite shell_run.
  destruct (try_block fetched _) as [[[]|e] after]; eexists; (split; [reflexivity|]).
  - done.
  - apply elem_of_app. left. apply elem_of_app. right. apply list_elem_of_here.
Qed.

Lemma fault_isolating_returns {A} scraper try_block message
    (fetched : result (response A)) s :
  fault_isolating scraper try_block message →
  ∃ games s', scraper fetched s = (Ok games, s').
Proof.
  intros H. destruct (H fetched s) as (started & finished & Hrun).
  destruct (try_block fetched _) as [outcome after].
  destruct Hrun as [-> _]. eauto.
Qed.

Lemma epic_isolating :
  fault_isolating scrape_epic_games epic_try "Error scraping Epic Games: ".
Proof.
  by apply (shell_isolates _ _ "Scraping Epic Games Store..." _
    (λ n, "Found " +:+ str_of_nat n +:+ " free games on Epic Games Store")).
Qed.

Lemma steam_isolating :
  fault_isolating scrape_steam_weekend_deals steam_try "Error scraping Steam: ".
Proof.
  by apply (shell_isolates _ _ "Scraping Steam for weekend deals..." _
    (λ n, "Found " +:+ str_of_nat n +:+ " free games on Steam")).
Qed.

Lemma gog_isolating :
  fault_isolating scrape_gog_giveaways gog_try "Error scraping GOG: ".
Proof.
  by apply (shell_isolates _ _ "Scraping GOG for giveaways..." _
    (λ n, "Found " +:+ str_of_nat n +:+ " free games on GOG")).
Qed.

Lemma itch_isolating urljoin :
  fault_isolating (scrape_itchio_sales urljoin) (itch_try urljoin)
    "Error scraping itch.io: ".
Proof.
  by apply (shell_isolates _ _ "Scraping itch.io for free games..." _
    (λ n, "Found " +:+ str_of_nat n +:+ " free games on itch.io")).
Qed.

Lemma ubisoft_isolating :
  fault_isolating scrape_ubisoft_connect ubisoft_try
    "Error scraping Ubisoft Connect: ".
Proof.
  by apply (shell_isolates _ _ "Scraping Ubisoft Connect for free games..." _
    (λ n, "Found " +:+ str_of_nat n +:+ " free games on Ubisoft Connect")).
Qed.

Lemma amazon_isolating :
  fault_isolating scrape_amazon_prime_gaming amazon_try
    "Error scraping Amazon Prime Gaming: ".
Proof.
  by apply (shell_isolates _ _ "Scraping Amazon Prime Gaming for free games..." _
    (λ n, "Found " +:+ str_of_nat n +:+ " free games on Amazon Prime Gaming")).
Qed.

Lemma microsoft_isolating :
  fault_isolating scrape_microsoft_store microsoft_try
    "Error scraping Microsoft Store: ".
Proof.
  by apply (shell_isolates _ _ "Scraping Microsoft Store for free games..." _
    (λ n, "Found " +:+ str_of_nat n +:+ " free games on Microsoft Store")).
Qed.

End Shell.

Section Transport.

Lemma isolating_transport {A}
    (scraper : result (response A) → prog scraper_state (list offer))
    try_block message fetched :
  fault_isolating scraper try_block message →
  (∀ s, ∃ e, try_block fetched s = (Raise e, s)) →
  call (scraper fetched) = Ok [].
Proof.
  intros Hiso Htry. unfold call.
  destruct (Hiso fetched (ScraperState [] [])) as (started & finished & Hrun).
  destruct (Htry (ScraperState [] started)) as [e He].
  rewrite He in Hrun. destruct Hrun as [-> _]. done.
Qed.

Lemma isolating_call {A}
    (scraper : result (response A) → prog scraper_state (list offer))
    try_block message fetched :
  fault_isolating scraper try_block message →
  ∃ games, call (scraper fetched) = Ok games.
Proof.
  intros Hiso. unfold call.
  destruct (fault_isolating_returns _ _ _ fetched (ScraperState [] []) Hiso)
    as (games & s' & ->).
  by exists games.
Qed.

(** A request that fails makes the [try] block raise at once. *)
Ltac transport :=
  let ok := fresh "ok" in
  intros [[ok ?]|?] Hf s; cbn in Hf;
  [subst ok; eexists; reflexivity | eexists; reflexivity].

Lemma epic_try_transport fetched :
  transport_failed fetched → ∀ s, ∃ e, epic_try fetched s = (Raise e, s).
Proof. revert fetched. transport. Qed.

Lemma steam_try_transport fetched :
  transport_failed fetched → ∀ s, ∃ e, steam_try fetched s = (Raise e, s).
Proof. revert fetched. transport. Qed.

Lemma gog_try_transport fetched :
  transport_failed fetched → ∀ s, ∃ e, gog_try fetched s = (Raise e, s).
Proof. revert fetched. transport. Qed.

Lemma itch_try_transport urljoin fetched :
  transport_failed fetched → ∀ s, ∃ e, itch_try urljoin fetched s = (Raise e, s).
Proof. revert fetched. transport. Qed.

Lemma ubisoft_try_transport fetched :
  transport_failed fetched → ∀ s, ∃ e, ubisoft_try fetched s = (Raise e, s).
Proof. revert fetched. transport. Qed.

Lemma amazon_try_transport fetched :
  transport_failed fetched → ∀ s, ∃ e, amazon_try fetched s = (Raise e, s).
Proof. revert fetched. transport. Qed.

Lemma microsoft_try_transport fetched :
  transport_failed fetched → ∀ s, ∃ e, microsoft_try fetched s = (Raise e, s).
Proof. revert fetched. transport. Qed.

(** A body that is not JSON makes the two JSON scrapers raise before
    they read anything. *)
Lemma epic_try_not_json s :
  epic_try (Ok (Response true None)) s = (Raise ValueError, s).
Proof. reflexivity. Qed.

Lemma steam_try_not_json s :
  steam_try (Ok (Response true None)) s = (Raise ValueError, s).
Proof. reflexivity. Qed.

End Transport.

(** C3, as the source has it: every adapter returns on every answer and
    never raises; when its [try] block fails the error is logged under the
    adapter's message and the adapter returns the offers appended before
    the failure: none when the request failed (error, bad status, or a body
    that is not JSON). *)
Theorem scrapers_isolate_failures (w : web) :
  (fault_isolating scrape_epic_games epic_try "Error scraping Epic Games: "
   ∧ fault_isolating scrape_steam_weekend_deals steam_try "Error scraping Steam: "
   ∧ fault_isolating scrape_gog_giveaways gog_try "Error scraping GOG: "
   ∧ fault_isolating (scrape_itchio_sales (web_urljoin w)) (itch_try (web_urljoin w))
       "Error scraping itch.io: "
   ∧ fault_isolating scrape_ubisoft_connect ubisoft_try
       "Error scraping Ubisoft Connect: "
   ∧ fault_isolating scrape_amazon_prime_gaming amazon_try
       "Error scraping Amazon Prime Gaming: "
   ∧ fault_isolating scrape_microsoft_store microsoft_try
       "Error scraping Microsoft Store: ")
  ∧ Forall (λ f, ∃ games, snd f = Ok games) (scrapers w)
  ∧ (transport_failed (epic_answer w) → transport_failed (steam_answer w) →
     transport_failed (gog_answer w) → transport_failed (itch_answer w) →
     transport_failed (ubisoft_answer w) → transport_failed (amazon_answer w) →
     transport_failed (microsoft_answer w) →
     Forall (λ f, snd f = Ok []) (scrapers w))
  ∧ call (scrape_epic_games (Ok (Response true None))) = Ok []
  ∧ call (scrape_steam_weekend_deals (Ok (Response true None))) = Ok [].
Proof.
  pose proof epic_isolating as He. pose proof steam_isolating as Hs.
  pose proof gog_isolating as Hg. pose proof (itch_isolating (web_urljoin w)) as Hi.
  pose proof ubisoft_isolating as Hu. pose proof amazon_isolating as Ha.
  pose proof microsoft_isolating as Hm.
  split; [done|]. split; [|split; [|split]].
  - unfold scrapers. repeat apply Forall_cons_2; try apply Forall_nil_2; cbn [snd].
    + exact (isolating_call _ _ _ _ He).
    + exact (isolating_call _ _ _ _ Hs).
    + exact (isolating_call _ _ _ _ Hg).
    + exact (isolating_call _ _ _ _ Hi).
    + exact (isolating_call _ _ _ _ Hu).
    + exact (isolating_call _ _ _ _ Ha).
    + exact (isolating_call _ _ _ _ Hm).
  - intros F1 F2 F3 F4 F5 F6 F7.
    unfold scrapers. repeat apply Forall_cons_2; try apply Forall_nil_2; cbn [snd].
    + exact (isolating_transport _ _ _ _ He (epic_try_transport _ F1)).
    + exact (isolating_transport _ _ _ _ Hs (steam_try_transport _ F2)).
    + exact (isolating_transport _ _ _ _ Hg (gog_try_transport _ F3)).
    + exact (isolating_transport _ _ _ _ Hi (itch_try_transport _ _ F4)).
    + exact (isolating_transport _ _ _ _ Hu (ubisoft_try_transport _ F5)).
    + exact (isolating_transport _ _ _ _ Ha (amazon_try_transport _ F6)).
    + exact (isolating_transport _ _ _ _ Hm (microsoft_try_transport _ F7)).
  - apply (isolating_transport _ _ _ _ He). intros s. eexists. apply epic_try_not_json.
  - apply (isolating_transport _ _ _ _ Hs). intros s. eexists. apply steam_try_not_json.
Qed.

Lemma scrapers_isolate_failures_witness :
  Forall (λ f, snd f = Ok []) (scrapers offline).
Proof.
  apply (scrapers_isolate_failures offline); exact I.
Defined.

(** C3, as the claim states it, fails: after one offer the Epic scraper
    meets an element that is not an object; its [try] block fails, the
    error is logged, and the sequence it returns is not empty. *)
Lemma scrape_epic_games_keeps_offers_on_failure :
  ∃ o log,
    scrape_epic_games (epic_answer_of [sample_game "Control" 2999; JNull])
      (ScraperState [] [])
    = (Ok [o], ScraperState [o] log)
    ∧ snd (epic_try (epic_answer_of [sample_game "Control" 2999; JNull])
             (ScraperState [] [])) = ScraperState [o] []
    ∧ fst (epic_try (epic_answer_of [sample_game "Control" 2999; JNull])
             (ScraperState [] [])) = Raise AttributeError
    ∧ LogRecord ERROR "Error scraping Epic Games: " (Some AttributeError) ∈ log
    ∧ [o] ≠ [].
Proof.
  eexists _, _. split; [vm_compute; reflexivity|].
  split; [vm_compute; reflexivity|].
  split; [vm_compute; reflexivity|].
  split; [|done].
  apply list_elem_of_further, list_elem_of_here.
Qed.

(* ================================================================== *)
(** * The orchestrator *)
(* ================================================================== *)

Section Gather.
Implicit Types (completed order : list (string * result (list offer))).

Lemma set_journal_twice j l w :
  set_journal (journal (set_journal j w) ++ l) (set_journal j w)
  = set_journal (j ++ l) w.
Proof. by destruct w. Qed.

Lemma set_journal_nil w : set_journal (journal w ++ []) w = w.
Proof. destruct w. unfold set_journal. simpl. by rewrite app_nil_r. Qed.

(** The loop never raises: a future that raised adds a record to the log
    and nothing to [all_games]. *)
Lemma gather_run completed : ∀ all_games w,
  gather completed all_games w
  = (Ok (all_games ++ returned_offers completed),
     set_journal (journal w ++ gather_records completed) w).
Proof.
  induction completed as [|[name future] completed IH]; intros all_games w.
  - cbn. by rewrite app_nil_r, set_journal_nil.
  - cbn [gather]. rewrite prog_bind_run.
    unfold returned_offers, gather_records in *. cbn [flat_map map fst snd].
    destruct future as [games|e];
      unfold try_except, lift, logger_info, logger_error, mbind, prog_bind, mret,
        prog_ret, emit, world_logging.
    + rewrite IH. rewrite set_journal_twice.
      by rewrite <- !app_assoc.
    + rewrite IH. rewrite set_journal_twice.
      by rewrite <- !app_assoc.
Qed.

Lemma returned_offers_app completed completed' :
  returned_offers (completed ++ completed')
  = returned_offers completed ++ returned_offers completed'.
Proof. unfold returned_offers. by rewrite flat_map_app. Qed.

Lemma returned_offers_Permutation completed order :
  order ≡ₚ completed → returned_offers order ≡ₚ returned_offers completed.
Proof. intros Hp. unfold returned_offers. by apply Permutation_flat_map. Qed.

Lemma scrape_all_platforms_threaded_run completed w unique :
  _remove_duplicates (returned_offers completed) = Ok unique →
  scrape_all_platforms_threaded completed w
  = (Ok unique,
     World unique (console w)
       (journal w
        ++ [LogRecord INFO "Starting comprehensive threaded scraping..." None]
        ++ gather_records completed
        ++ [LogRecord INFO ("Total unique free games found: "
                            +:+ str_of_nat (List.length unique)) None])
       (files w) (writable w) (clock w) (ticks w)).
Proof.
  intros Hd. destruct w as [fg co jo fi wr cl ti].
  unfold scrape_all_platforms_threaded. rewrite prog_bind_run.
  unfold logger_info at 1. cbv beta iota.
  rewrite prog_bind_run, gather_run. cbn [app].
  rewrite prog_bind_run, lift_run, Hd.
  unfold logger_info, put_free_games, emit, world_logging, set_journal, set_free_games.
  rewrite !prog_bind_run.
  cbn [free_games console journal files writable clock ticks mret prog_ret].
  by rewrite <- !app_assoc.
Qed.

Lemma scrape_all_platforms_threaded_raises completed w e :
  _remove_duplicates (returned_offers completed) = Raise e →
  ∃ w', scrape_all_platforms_threaded completed w = (Raise e, w')
        ∧ files w' = files w.
Proof.
  intros Hd. destruct w as [fg co jo fi wr cl ti].
  unfold scrape_all_platforms_threaded. rewrite prog_bind_run.
  unfold logger_info at 1. cbv beta iota.
  rewrite prog_bind_run, gather_run. cbn [app].
  rewrite prog_bind_run, lift_run, Hd. eauto.
Qed.

End Gather.

(** C2: when the future of adapter [name] raises, whatever the other
    futures did and in whatever order the futures complete, the loop of the
    orchestrator ends with the offers of the futures that returned, those
    before and those after the failed one, and with nothing from the failed
    one, whose error it logs; these offers are what
    [scrape_all_platforms_threaded] hands to the deduplicator. *)
Theorem gather_isolates_failed_adapter
    (before after : list (string * result (list offer)))
    (name : string) (e : exn) (w : world) :
  (∃ w', gather (before ++ (name, Raise e) :: after) [] w
         = (Ok (returned_offers before ++ returned_offers after), w')
         ∧ LogRecord ERROR ("Error in " +:+ name +:+ ": ") (Some e) ∈ journal w')
  ∧ (∀ order, order ≡ₚ before ++ (name, Raise e) :: after →
       ∃ all_games w', gather order [] w = (Ok all_games, w')
         ∧ all_games ≡ₚ returned_offers before ++ returned_offers after)
  ∧ fst (scrape_all_platforms_threaded (before ++ (name, Raise e) :: after) w)
    = _remove_duplicates (returned_offers before ++ returned_offers after).
Proof.
  assert (returned_offers (before ++ (name, Raise e) :: after)
          = returned_offers before ++ returned_offers after) as Hret.
  { by rewrite returned_offers_app. }
  split.
  - eexists. rewrite gather_run, Hret. split; [reflexivity|].
    destruct w; cbn. apply elem_of_app. right.
    unfold gather_records. rewrite map_app. apply elem_of_app. right.
    apply list_elem_of_here.
  - split.
    + intros order Hp. eexists _, _. rewrite gather_run. split; [reflexivity|].
      cbn. rewrite <- Hret. by apply returned_offers_Permutation.
    + rewrite <- Hret.
      destruct (_remove_duplicates
                  (returned_offers (before ++ (name, Raise e) :: after)))
        as [unique|e'] eqn:Hd.
      * by rewrite (scrape_all_platforms_threaded_run _ _ _ Hd).
      * by destruct (scrape_all_platforms_threaded_raises _ w _ Hd) as (w' & -> & _).
Qed.

Lemma gather_isolates_failed_adapter_witness :
  ∃ all_games w',
    gather [("scrape_steam_weekend_deals", Raise TypeError);
            ("scrape_gog_giveaways", Ok [titled "Braid"]);
            ("scrape_epic_games", Ok [titled "Control"])] [] fresh_world
    = (Ok all_games, w')
    ∧ all_games ≡ₚ [titled "Control"; titled "Braid"].
Proof.
  apply (proj1 (proj2 (gather_isolates_failed_adapter
                  [("scrape_epic_games", Ok [titled "Control"])]
                  [("scrape_gog_giveaways", Ok [titled "Braid"])]
                  "scrape_steam_weekend_deals" TypeError fresh_world))).
  cbn [app].
  etrans; [apply Permutation_skip, Permutation_swap | apply Permutation_swap].
Defined.

(* ================================================================== *)
(** * The two JSON storefronts *)
(* ================================================================== *)

Section Rendering.
#[local] Open Scope Z_scope.

Lemma div_half_even_near n d :
  0 < d → 2 * Z.abs (n - d * div_half_even n d) ≤ d.
Proof.
  intros Hd. unfold div_half_even.
  pose proof (Z.div_mod n d ltac:(lia)) as Hn.
  pose proof (Z.mod_pos_bound n d Hd) as Hr.
  destruct (Z.ltb_spec (2 * (n mod d)) d); [lia|].
  destruct (Z.ltb_spec d (2 * (n mod d))); [lia|].
  destruct (Z.even (n / d)); lia.
Qed.

Lemma div_half_even_unique n d q :
  0 < d → 2 * Z.abs (n - d * q) < d → div_half_even n d = q.
Proof.
  intros Hd Hq. unfold div_half_even.
  pose proof (Z.div_mod n d ltac:(lia)) as Hn.
  pose proof (Z.mod_pos_bound n d Hd) as Hr.
  destruct (Z.ltb_spec (2 * (n mod d)) d); [nia|].
  destruct (Z.ltb_spec d (2 * (n mod d))); [nia|].
  destruct (Z.even (n / d)); nia.
Qed.

(** Below [2^52] the two roundings, to the double and to the hundredth,
    give the amount back: the text is the amount in units and cents. *)
Lemma format_price_exact v z :
  py_int v = Some z → 0 ≤ z < 2 ^ 52 →
  format_price v
  = Ok ("$" +:+ str_of_Z (z / 100) +:+ "." +:+ two_digits (z mod 100)).
Proof.
  intros Hv [Hz0 Hz]. unfold format_price. rewrite Hv. unfold true_divide_100.
  destruct (Z.eqb_spec z 0) as [->|Hne]; [reflexivity|].
  assert (0 < z) as Hpos by lia.
  rewrite (Z.abs_eq z) by lia.
  assert (0 ≤ Z.log2 z ≤ 51) as Hlog.
  { split; [apply Z.log2_nonneg|].
    assert (Z.log2 z < 52); [|lia]. by apply Z.log2_lt_pow2. }
  cbv zeta.
  set (e := if 100 * 2 ^ 53 * 2 ^ Z.max 0 (Z.log2 z - 59)
               <=? z * 2 ^ Z.max 0 (- (Z.log2 z - 59))
            then Z.log2 z - 59 + 1 else Z.log2 z - 59).
  assert (-59 ≤ e ≤ -7) as He by (subst e; destruct (_ <=? _); lia).
  clearbody e.
  rewrite (Z.max_l 0 e), (Z.max_r 0 (- e)) by lia.
  change (2 ^ 0) with 1. rewrite Z.mul_1_r.
  set (m := div_half_even (z * 2 ^ (- e)) 100).
  assert (128 ≤ 2 ^ (- e)) as Hs.
  { change 128 with (2 ^ 7). apply Z.pow_le_mono_r; lia. }
  assert (2 ^ (- e) ≤ 2 ^ 59) as Hs' by (apply Z.pow_le_mono_r; lia).
  pose proof (div_half_even_near (z * 2 ^ (- e)) 100 ltac:(lia)) as Hm. fold m in Hm.
  assert (0 ≤ m < 2 ^ 111) as Hmb.
  { assert (z * 2 ^ (- e) < 2 ^ 52 * 2 ^ 59) by nia.
    change (2 ^ 111) with (2 ^ 52 * 2 ^ 59). lia. }
  assert (Z.log2 m < 111) as Hlm.
  { destruct (Z.eqb_spec m 0) as [->|]; [done|]. apply Z.log2_lt_pow2; lia. }
  destruct (Z.leb_spec 1024 (Z.log2 m + e)); [lia|].
  rewrite bind_Ok, Z.sgn_pos by lia. rewrite Z.mul_1_l.
  unfold format_2f. rewrite (Z.max_l 0 e), (Z.max_r 0 (- e)) by lia.
  change (2 ^ 0) with 1. rewrite Z.mul_1_r, (Z.abs_eq m) by lia.
  rewrite (div_half_even_unique (100 * m) (2 ^ (- e)) z) by lia.
  destruct (Z.ltb_spec m 0); [lia|]. reflexivity.
Qed.

End Rendering.

(** Beyond that the text is that of the nearest double, and of no double
    at all when the quotient is too large. *)
Example format_price_nearest_double :
  format_price (JInt 9007199254740993) = Ok "$90071992547409.94"
  ∧ format_price (JInt (10 ^ 311)) = Raise OverflowError.
Proof. split; vm_compute; reflexivity. Qed.

Section Epic.

Lemma py_getitem_Ok v key x :
  py_getitem v key = Ok x → ∃ d, v = JDict d ∧ dict_lookup d key = Some x.
Proof.
  destruct v as [| | | | |d]; try done. cbn. unfold dict_getitem.
  destruct (dict_lookup d key) eqn:H; [|done]. intros [= ->]. eauto.
Qed.

Lemma dict_lookup_nonempty d key x : dict_lookup d key = Some x → py_truthy (JDict d) = true.
Proof. by destruct d. Qed.

Lemma original_price_minor_inv game z :
  original_price_minor game = Some z →
  ∃ g p t v, game = JDict g ∧ dict_lookup g "price" = Some (JDict p)
     ∧ dict_lookup p "totalPrice" = Some (JDict t)
     ∧ dict_lookup t "originalPrice" = Some v ∧ py_int v = Some z.
Proof.
  unfold original_price_minor.
  destruct (py_getitem game "price") as [p|] eqn:Hp; [|done].
  rewrite bind_Ok.
  destruct (py_getitem p "totalPrice") as [t|] eqn:Ht; [|done].
  rewrite bind_Ok.
  destruct (py_getitem t "originalPrice") as [v|] eqn:Hv; [|done].
  intros Hz.
  apply py_getitem_Ok in Hp as (g & -> & Hg).
  apply py_getitem_Ok in Ht as (pd & -> & Hpd).
  apply py_getitem_Ok in Hv as (td & -> & Htd).
  by exists g, pd, td, v.
Qed.

Lemma epic_original_price_of_minor game z :
  original_price_minor game = Some z →
  _get_epic_original_price game
  = if (0 <? z)%Z then catch_default (format_price (JInt z)) "Unknown" else "Free".
Proof.
  intros (g & p & t & v & -> & Hg & Hp & Ht & Hv)%original_price_minor_inv.
  unfold _get_epic_original_price. cbn [py_in py_getitem py_get].
  unfold dict_getitem, dict_get. rewrite Hg. cbn.
  unfold dict_getitem, dict_get. rewrite Hp.
  rewrite (dict_lookup_nonempty _ _ _ Ht). cbn.
  unfold dict_get. rewrite Ht. cbn.
  unfold py_gt_0, format_price. rewrite Hv. cbn [py_int mbind result_bind].
  by destruct (0 <? z)%Z.
Qed.

Lemma epic_original_price_zero game :
  original_price_minor game = Some 0%Z → _get_epic_original_price game = "Free".
Proof. intros H. by rewrite (epic_original_price_of_minor _ _ H). Qed.

Lemma epic_original_price_2999 game :
  original_price_minor game = Some 2999%Z → _get_epic_original_price game = "$29.99".
Proof. intros H. rewrite (epic_original_price_of_minor _ _ H). vm_compute. reflexivity. Qed.

Lemma epic_priced_not_free game z :
  original_price_minor game = Some z → _get_epic_original_price game ≠ "Free" →
  (0 < z)%Z.
Proof.
  intros Hz Hfree. destruct (Z.ltb_spec 0 z) as [|Hle]; [done|].
  destruct Hfree. rewrite (epic_original_price_of_minor _ _ Hz).
  by destruct (Z.ltb_spec 0 z); [lia|].
Qed.

(** What one turn of the inner loop does to the state. *)
Lemma epic_promotion_run game promo s :
  sc_log (snd (epic_promotion game promo s)) = sc_log s
  ∧ (sc_games (snd (epic_promotion game promo s)) = sc_games s
     ∨ ∃ o windows,
         epic_promotion game promo s
         = (Ok (), ScraperState (sc_games s ++ [o]) (sc_log s))
         ∧ py_get promo "promotionalOffers" JNull = Ok windows
         ∧ py_truthy windows = true
         ∧ _get_epic_original_price game ≠ "Free"
         ∧ epic_game_info game promo (_get_epic_original_price game) = Ok o).
Proof.
  unfold epic_promotion. rewrite prog_bind_run, lift_run.
  destruct (py_get promo "promotionalOffers" JNull) as [windows|e] eqn:Hw; [|by split; [|left]].
  destruct (py_truthy windows) eqn:Htruthy; cbn [when]; [|by split; [|left]].
  destruct (String.eqb_spec (_get_epic_original_price game) "Free") as [Hfree|Hfree];
    cbn [negb when]; [by split; [|left]|].
  rewrite prog_bind_run, lift_run.
  destruct (epic_game_info game promo (_get_epic_original_price game)) as [o|e] eqn:Ho;
    [|by split; [|left]].
  split; [done|]. right. exists o, windows. done.
Qed.

Lemma epic_element_preserves elements game s :
  game ∈ elements →
  (∀ o, o ∈ sc_games s → epic_emitted elements o) →
  ∀ o, o ∈ sc_games (snd (epic_element game s)) → epic_emitted elements o.
Proof.
  intros Hgame Hs. unfold epic_element. rewrite prog_bind_run, lift_run.
  destruct (py_get game "promotions" JNull) as [promotions|e] eqn:Hpromotions; [|done].
  destruct (py_truthy promotions) eqn:Htruthy; cbn [when]; [|done].
  rewrite prog_bind_run, lift_run.
  destruct (py_get promotions "promotionalOffers" JNull) as [current|e]; [|done].
  destruct (py_truthy current); cbn [when]; [|done].
  rewrite prog_bind_run, lift_run.
  destruct (py_getitem promotions "promotionalOffers" ≫= py_iter)
    as [offers|e] eqn:Hoffers; [|done].
  apply (for_each_preserves
           (λ s', ∀ o, o ∈ sc_games s' → epic_emitted elements o)); [|done].
  intros promo s' Hpromo Hs' o.
  destruct (epic_promotion_run game promo s')
    as [_ [->|(o' & windows & -> & Hw & Hwt & Hfree & Ho')]]; [by apply Hs'|].
  cbn [snd sc_games]. intros [Ho| ->%list_elem_of_singleton]%elem_of_app;
    [by apply Hs'|].
  exists game, promo. repeat split; try done.
  - by exists promotions, offers, windows.
  - intros z Hz. by apply (epic_priced_not_free game).
Qed.

Lemma epic_try_emitted fetched s o :
  sc_games s = [] →
  o ∈ sc_games (snd (epic_try fetched s)) →
  ∃ data elements,
    fetched = Ok (Response true (Some data))
    ∧ epic_elements data = Ok elements
    ∧ epic_emitted elements o.
Proof.
  intros Hs. unfold epic_try. rewrite prog_bind_run, lift_run.
  destruct fetched as [[ok body]|e]; [|by cbn; rewrite Hs; intros ?%elem_of_nil].
  rewrite prog_bind_run. cbn [raise_for_status status_ok lift].
  destruct ok; [|by cbn; rewrite Hs; intros ?%elem_of_nil].
  rewrite prog_bind_run, lift_run. cbn [response_json payload].
  destruct body as [data|]; [|by cbn; rewrite Hs; intros ?%elem_of_nil].
  cbn [response_json payload].
  rewrite prog_bind_run, lift_run.
  destruct (epic_has_catalog data) as [[]|e]; cbn [when];
    [|by cbn; rewrite Hs; intros ?%elem_of_nil..].
  rewrite prog_bind_run, lift_run.
  destruct (epic_elements data) as [elements|e] eqn:Helements;
    [|by cbn; rewrite Hs; intros ?%elem_of_nil].
  intros Ho. exists data, elements. repeat split; [done|].
  revert o Ho.
  apply (for_each_preserves
           (λ s', ∀ o, o ∈ sc_games s' → epic_emitted elements o)).
  - intros game s' Hgame Hs'. by apply epic_element_preserves.
  - rewrite Hs. by intros o ?%elem_of_nil.
Qed.

Lemma epic_element_free game s :
  _get_epic_original_price game = "Free" →
  sc_games (snd (epic_element game s)) = sc_games s.
Proof.
  intros Hfree. unfold epic_element. rewrite prog_bind_run, lift_run.
  destruct (py_get game "promotions" JNull) as [promotions|e]; [|done].
  destruct (py_truthy promotions); cbn [when]; [|done].
  rewrite prog_bind_run, lift_run.
  destruct (py_get promotions "promotionalOffers" JNull) as [current|e]; [|done].
  destruct (py_truthy current); cbn [when]; [|done].
  rewrite prog_bind_run, lift_run.
  destruct (py_getitem promotions "promotionalOffers" ≫= py_iter) as [offers|e]; [|done].
  apply (for_each_preserves (λ s', sc_games s' = sc_games s)); [|done].
  intros promo s' _ Hs'.
  by destruct (epic_promotion_run game promo s')
    as [_ [->|(o' & windows & _ & _ & _ & Hne & _)]].
Qed.

Lemma py_get_Ok v key default x :
  py_get v key default = Ok x → ∃ d, v = JDict d ∧ dict_get d key default = x.
Proof. destruct v; try done. cbn. intros [= <-]. eauto. Qed.

Lemma epic_promotion_2999 game promo window rest s :
  original_price_minor game = Some 2999%Z →
  py_get promo "promotionalOffers" JNull = Ok (JList (JDict window :: rest)) →
  ∃ o, epic_promotion game promo s
       = (Ok (), ScraperState (sc_games s ++ [o]) (sc_log s))
       ∧ dict_lookup o "original_price" = Some (JStr "$29.99").
Proof.
  intros Hprice Hw.
  pose proof (epic_original_price_2999 _ Hprice) as Hfmt.
  apply original_price_minor_inv in Hprice as (g & _ & _ & _ & -> & _).
  unfold epic_promotion. rewrite prog_bind_run, lift_run, Hw. cbn [py_truthy when].
  rewrite Hfmt. cbn [String.eqb Ascii.eqb Bool.eqb negb when].
  apply py_get_Ok in Hw as (pd & -> & Hpd).
  unfold dict_get in Hpd.
  destruct (dict_lookup pd "promotionalOffers") as [windows|] eqn:Hlookup; [|done].
  subst windows.
  rewrite prog_bind_run, lift_run.
  unfold epic_game_info. cbn [py_get py_getitem bind_Ok]. rewrite bind_Ok.
  unfold dict_getitem at 1. rewrite Hlookup. rewrite bind_Ok.
  cbn [py_getitem_0]. rewrite !bind_Ok.
  eexists. split; [reflexivity|]. reflexivity.
Qed.

Lemma epic_promotion_keeps game promo s o :
  o ∈ sc_games s → o ∈ sc_games (snd (epic_promotion game promo s)).
Proof.
  intros Ho.
  destruct (epic_promotion_run game promo s) as [_ [->|(o' & windows & -> & _)]];
    [done|].
  cbn [snd sc_games]. apply elem_of_app. by left.
Qed.

Lemma epic_element_keeps game s o :
  o ∈ sc_games s → o ∈ sc_games (snd (epic_element game s)).
Proof.
  intros Ho. unfold epic_element. rewrite prog_bind_run, lift_run.
  destruct (py_get game "promotions" JNull) as [promotions|e]; [|done].
  destruct (py_truthy promotions); cbn [when]; [|done].
  rewrite prog_bind_run, lift_run.
  destruct (py_get promotions "promotionalOffers" JNull) as [current|e]; [|done].
  destruct (py_truthy current); cbn [when]; [|done].
  rewrite prog_bind_run, lift_run.
  destruct (py_getitem promotions "promotionalOffers" ≫= py_iter) as [offers|e]; [|done].
  apply (for_each_preserves (λ s', o ∈ sc_games s')); [|done].
  intros promo s' _. apply epic_promotion_keeps.
Qed.

(** A turn of the inner loop that returns, on an active entry of an
    element whose price text is not [Free], has appended the offer. *)
Lemma epic_promotion_includes game promo windows s :
  py_get promo "promotionalOffers" JNull = Ok windows →
  py_truthy windows = true →
  _get_epic_original_price game ≠ "Free" →
  fst (epic_promotion game promo s) = Ok () →
  ∃ o, epic_game_info game promo (_get_epic_original_price game) = Ok o
       ∧ o ∈ sc_games (snd (epic_promotion game promo s)).
Proof.
  intros Hw Ht Hfree. unfold epic_promotion.
  rewrite prog_bind_run, lift_run, Hw, Ht. cbn [when].
  destruct (String.eqb_spec (_get_epic_original_price game) "Free"); [done|].
  cbn [negb when]. rewrite prog_bind_run, lift_run.
  destruct (epic_game_info game promo (_get_epic_original_price game)) as [o|e];
    [|done].
  intros _. exists o. split; [done|].
  cbn [games_append snd sc_games]. apply elem_of_app. right. apply list_elem_of_here.
Qed.

Lemma py_iter_truthy v items x : py_iter v = Ok items → x ∈ items → py_truthy v = true.
Proof.
  destruct v as [| | |s|l|d]; try done; cbn; intros [= <-] Hx.
  - destruct s; [by apply elem_of_nil in Hx|done].
  - destruct l; [by apply elem_of_nil in Hx|done].
  - destruct d; [by apply elem_of_nil in Hx|done].
Qed.

(** A turn of the outer loop that returns, on an element with an active
    entry and a price text that is not [Free], has appended its offer. *)
Lemma epic_element_includes game promo s :
  active_promotion game promo →
  _get_epic_original_price game ≠ "Free" →
  fst (epic_element game s) = Ok () →
  ∃ o, epic_game_info game promo (_get_epic_original_price game) = Ok o
       ∧ o ∈ sc_games (snd (epic_element game s)).
Proof.
  intros (promotions & offers & windows & Hp & Hpt & Hoffers & Hin & Hw & Hwt) Hfree.
  unfold epic_element. rewrite prog_bind_run, lift_run, Hp, Hpt. cbn [when].
  rewrite prog_bind_run, lift_run.
  pose proof Hoffers as Hsplit.
  apply bind_Ok_inv in Hsplit as (current & Hcur & Hiter).
  apply py_getitem_Ok in Hcur as (d & -> & Hd).
  cbn [py_get]. unfold dict_get. rewrite Hd, (py_iter_truthy _ _ _ Hiter Hin).
  cbn [when]. rewrite prog_bind_run, lift_run, Hoffers.
  apply (for_each_reaches
           (λ s', ∃ o, epic_game_info game promo (_get_epic_original_price game) = Ok o
                       ∧ o ∈ sc_games s') offers (epic_promotion game) promo Hin).
  - intros s'. by apply (epic_promotion_includes _ _ windows).
  - intros y s' (o & Ho & Ho'). exists o. split; [done|]. by apply epic_promotion_keeps.
Qed.

(** The loop over the elements reaches [game] when the elements before it
    raise nothing, and what it has appended for [game] stays, whatever the
    elements after it do. *)
Lemma epic_loop_includes before game after promo s :
  Forall epic_element_returns before → epic_element_returns game →
  active_promotion game promo →
  _get_epic_original_price game ≠ "Free" →
  ∃ o, epic_game_info game promo (_get_epic_original_price game) = Ok o
       ∧ o ∈ sc_games (snd (for_each (before ++ game :: after) epic_element s)).
Proof.
  intros Hb Hg Hp Hfree. rewrite for_each_app, prog_bind_run.
  pose proof (for_each_returns before epic_element
                (λ x Hx, proj1 (Forall_forall _ _) Hb x Hx) s) as Hret.
  destruct (for_each before epic_element s) as [[[]|e] s1]; [|done].
  cbn [for_each]. rewrite prog_bind_run.
  destruct (epic_element_includes game promo s1 Hp Hfree (Hg s1)) as (o & Ho & Hin).
  exists o. split; [done|].
  pose proof (Hg s1) as Hg1.
  destruct (epic_element game s1) as [[[]|e] s2]; [|done]. cbn [snd] in Hin.
  apply (for_each_preserves (λ s', o ∈ sc_games s')); [|done].
  intros y s' _. apply epic_element_keeps.
Qed.

Lemma epic_try_catalog data elements s :
  epic_has_catalog data = Ok true → epic_elements data = Ok elements →
  epic_try (Ok (Response true (Some data))) s = for_each elements epic_element s.
Proof.
  intros Hhas Hel. unfold epic_try. rewrite prog_bind_run, lift_run.
  rewrite prog_bind_run. cbn [raise_for_status status_ok lift].
  rewrite prog_bind_run, lift_run. cbn [response_json payload].
  rewrite prog_bind_run, lift_run, Hhas. cbn [when].
  by rewrite prog_bind_run, lift_run, Hel.
Qed.

End Epic.

(** C4, as the source has it: every offer the Epic scraper returns was
    built from a catalog element with an active promotional offer entry
    whose price text is not [Free], so that its original price, when it has
    one, is positive; an element whose original price is 0 gives the price
    text [Free] and no offer, whatever its promotions.  An element whose
    original price is 2999, with an active promotional offer entry, is in
    what the scraper returns, with [$29.99] as [original_price], wherever
    it stands in the catalog, when the loop raises nothing on the elements
    before it nor on the element; it stays there whatever the elements
    after it do. *)
Theorem scrape_epic_games_price_filter :
  (∀ fetched s games s',
     scrape_epic_games fetched s = (Ok games, s') →
     ∀ o, o ∈ games →
       ∃ data elements,
         fetched = Ok (Response true (Some data))
         ∧ epic_elements data = Ok elements
         ∧ epic_emitted elements o)
  ∧ (∀ game, original_price_minor game = Some 0%Z →
       _get_epic_original_price game = "Free"
       ∧ ∀ s, sc_games (snd (epic_element game s)) = sc_games s)
  ∧ (∀ data before game after promo,
       epic_has_catalog data = Ok true →
       epic_elements data = Ok (before ++ game :: after) →
       Forall epic_element_returns before →
       epic_element_returns game →
       original_price_minor game = Some 2999%Z →
       active_promotion game promo →
       ∃ games o,
         call (scrape_epic_games (Ok (Response true (Some data)))) = Ok games
         ∧ o ∈ games
         ∧ epic_game_info game promo "$29.99" = Ok o
         ∧ dict_lookup o "original_price" = Some (JStr "$29.99"))
  ∧ call (scrape_epic_games
            (epic_answer_of [sample_game "Overcooked" 0; sample_game "Control" 2999]))
    = Ok [sample_control_offer].
Proof.
  split; [|split; [|split]].
  - intros fetched s games s' Hrun o Ho.
    destruct (epic_isolating fetched s) as (started & finished & Hiso).
    destruct (epic_try fetched (ScraperState [] started)) as [outcome after] eqn:Htry.
    destruct Hiso as [Hiso _]. rewrite Hiso in Hrun.
    injection Hrun as <- _.
    apply (epic_try_emitted fetched (ScraperState [] started)); [done|].
    by rewrite Htry.
  - intros game Hzero. pose proof (epic_original_price_zero _ Hzero) as Hfree.
    split; [done|]. intros s. by apply epic_element_free.
  - intros data before game after promo Hhas Hel Hb Hg Hprice Hp.
    pose proof (epic_original_price_2999 _ Hprice) as Htext.
    destruct (epic_isolating (Ok (Response true (Some data))) (ScraperState [] []))
      as (started & finished & Hiso).
    rewrite (epic_try_catalog _ _ _ Hhas Hel) in Hiso.
    destruct (epic_loop_includes before game after promo (ScraperState [] started)
                Hb Hg Hp) as (o & Ho & Hin); [by rewrite Htext|].
    destruct (for_each (before ++ game :: after) epic_element (ScraperState [] started))
      as [outcome final].
    destruct Hiso as [Hiso _]. rewrite Htext in Ho.
    exists (sc_games final), o. unfold call. rewrite Hiso.
    split; [done|]. split; [done|]. split; [done|].
    unfold epic_game_info in Ho. cbv zeta in Ho.
    repeat (apply bind_Ok_inv in Ho as (? & _ & Ho)).
    by injection Ho as <-.
  - vm_compute. reflexivity.
Qed.

Lemma scrape_epic_games_price_filter_witness :
  ∃ games o,
    call (scrape_epic_games
            (epic_answer_of [sample_game "Overcooked" 0; sample_game "Control" 2999;
                             JNull])) = Ok games
    ∧ o ∈ games
    ∧ epic_game_info (sample_game "Control" 2999)
        (JDict [("promotionalOffers",
                 JList [JDict [("endDate", JStr "2024-01-04T16:00:00.000Z")]])])
        "$29.99" = Ok o
    ∧ dict_lookup o "original_price" = Some (JStr "$29.99").
Proof.
  apply (proj1 (proj2 (proj2 scrape_epic_games_price_filter))
           (JDict [("data",
              JDict [("Catalog",
                JDict [("searchStore",
                  JDict [("elements",
                    JList [sample_game "Overcooked" 0; sample_game "Control" 2999;
                           JNull])])])])])
           [sample_game "Overcooked" 0] (sample_game "Control" 2999) [JNull]).
  - reflexivity.
  - reflexivity.
  - constructor; [|constructor]. intros s. reflexivity.
  - intros s. reflexivity.
  - reflexivity.
  - exists sample_promotions,
      [JDict [("promotionalOffers",
               JList [JDict [("endDate", JStr "2024-01-04T16:00:00.000Z")]])]],
      (JList [JDict [("endDate", JStr "2024-01-04T16:00:00.000Z")]]).
    repeat split. apply list_elem_of_here.
Defined.

(** C4, as the claim states it, fails twice.  An element under promotion
    that has no price is emitted, with the price text [Unknown]: the
    scraper leaves out the price text [Free] only.  And an element whose
    original price is 2999, with an active promotional offer entry, is
    not in what the scraper returns when the loop raised on an element
    before it. *)
Lemma scrape_epic_games_unpriced_and_unreached :
  call (scrape_epic_games
          (epic_answer_of
             [JDict [("title", JStr "Mystery"); ("promotions", sample_promotions)]]))
  = Ok [[("title", JStr "Mystery");
         ("platform", JStr "Epic Games Store");
         ("original_price", JStr "Unknown");
         ("current_price", JStr "Free");
         ("url", JStr "https://store.epicgames.com");
         ("end_date", JStr "2024-01-04T16:00:00.000Z");
         ("description", JStr EmptyString);
         ("image_url", JStr EmptyString);
         ("type", JStr "Current Free Game")]]
  ∧ original_price_minor
      (JDict [("title", JStr "Mystery"); ("promotions", sample_promotions)]) = None
  ∧ call (scrape_epic_games (epic_answer_of [JNull; sample_game "Control" 2999]))
    = Ok [].
Proof. repeat split; vm_compute; reflexivity. Qed.

Section Steam.

Lemma steam_is_free_ok item :
  steam_item_ok item = true → steam_is_free item = Ok (steam_included item).
Proof.
  destruct item as [| | | | |d]; try done. unfold steam_item_ok.
  destruct (py_int (dict_get d "original_price" (JInt 0))) as [z|] eqn:Hz; [|done].
  intros _. unfold steam_is_free, steam_included. cbn [py_get]. rewrite bind_Ok, Hz.
  destruct (py_eq_int (dict_get d "final_price" JNull) 0); [|done].
  rewrite bind_Ok. unfold py_gt_0. rewrite Hz, bind_Ok.
  destruct (0 <? z)%Z; [|done]. by rewrite bind_Ok.
Qed.

Lemma steam_included_price d :
  steam_included (JDict d) = true →
  ∃ z, py_int (dict_get d "original_price" (JInt 0)) = Some z ∧ (0 < z)%Z.
Proof.
  unfold steam_included.
  intros [[_ Hpos]%andb_prop _]%andb_prop.
  destruct (py_int (dict_get d "original_price" (JInt 0))) as [z|]; [|done].
  exists z. split; [done|]. by apply Z.ltb_lt.
Qed.

Lemma steam_game_info_ok item :
  steam_item_ok item = true → steam_included item = true →
  ∃ o, steam_game_info item = Ok o.
Proof.
  destruct item as [| | | | |d]; try done.
  intros Hok (z & Hz & Hpos)%steam_included_price.
  unfold steam_item_ok in Hok. rewrite Hz in Hok. apply Z.ltb_lt in Hok.
  unfold steam_game_info. cbn [py_get]. rewrite !bind_Ok.
  rewrite (format_price_exact _ z Hz) by lia. rewrite !bind_Ok. eauto.
Qed.

Lemma steam_loop items : 
  Forall (λ item, steam_item_ok item = true) items → ∀ s,
  ∃ emitted, for_each items steam_item s = (Ok (), ScraperState (sc_games s ++ emitted) (sc_log s))
     ∧ Forall2 (λ item o, steam_game_info item = Ok o) (List.filter steam_included items) emitted.
Proof.
  induction 1 as [|item items Hok _ IH]; intros s.
  - exists []. cbn. rewrite app_nil_r. by destruct s.
  - cbn [for_each List.filter]. rewrite prog_bind_run.
    unfold steam_item at 1. rewrite prog_bind_run, lift_run, (steam_is_free_ok _ Hok).
    destruct (steam_included item) eqn:Hinc; cbn [when].
    + destruct (steam_game_info_ok _ Hok Hinc) as [o Ho].
      rewrite prog_bind_run, lift_run, Ho. unfold games_append.
      destruct (IH (ScraperState (sc_games s ++ [o]) (sc_log s))) as (em & -> & HF).
      exists (o :: em). cbn. rewrite <- app_assoc. split; [done|]. by constructor.
    + unfold mret, prog_ret. destruct (IH s) as (em & -> & HF). exists em. done.
Qed.

Lemma steam_item_keeps item s o :
  o ∈ sc_games s → o ∈ sc_games (snd (steam_item item s)).
Proof.
  intros Ho. unfold steam_item. rewrite prog_bind_run, lift_run.
  destruct (steam_is_free item) as [[]|e]; cbn [when]; [|done..].
  rewrite prog_bind_run, lift_run.
  destruct (steam_game_info item) as [o'|e]; [|done].
  cbn [games_append snd sc_games]. apply elem_of_app. by left.
Qed.

(** The loop over the specials reaches [item] when it can evaluate the
    items before it, and what it has appended for [item] stays, whatever
    the items after it do. *)
Lemma steam_loop_includes before item after s :
  Forall (λ x, steam_item_ok x = true) before →
  steam_item_ok item = true → steam_included item = true →
  ∃ o, steam_game_info item = Ok o
       ∧ o ∈ sc_games (snd (for_each (before ++ item :: after) steam_item s)).
Proof.
  intros Hb Hok Hinc. rewrite for_each_app, prog_bind_run.
  destruct (steam_loop before Hb s) as (emitted & -> & _).
  cbn [for_each]. rewrite prog_bind_run.
  unfold steam_item at 1. rewrite prog_bind_run, lift_run, (steam_is_free_ok _ Hok), Hinc.
  cbn [when]. destruct (steam_game_info_ok _ Hok Hinc) as [o Ho].
  rewrite prog_bind_run, lift_run, Ho. exists o. split; [done|].
  cbn [games_append].
  apply (for_each_preserves (λ s', o ∈ sc_games s')).
  - intros y s' _. apply steam_item_keeps.
  - cbn [sc_games]. apply elem_of_app. right. apply list_elem_of_here.
Qed.

Lemma steam_is_free_true item :
  steam_is_free item = Ok true → steam_included item = true.
Proof.
  destruct item as [| | | | |d]; try done.
  unfold steam_is_free, steam_included. cbn [py_get]. rewrite bind_Ok.
  destruct (py_eq_int (dict_get d "final_price" JNull) 0); [|done].
  rewrite bind_Ok. unfold py_gt_0.
  destruct (py_int (dict_get d "original_price" (JInt 0))) as [z|]; [|done].
  rewrite bind_Ok. destruct (0 <? z)%Z; [|done].
  rewrite bind_Ok. by intros [= ->].
Qed.

Lemma steam_try_emitted fetched s o :
  sc_games s = [] →
  o ∈ sc_games (snd (steam_try fetched s)) →
  ∃ data items,
    fetched = Ok (Response true (Some data))
    ∧ steam_items data = Ok items
    ∧ steam_emitted items o.
Proof.
  intros Hs. unfold steam_try. rewrite prog_bind_run, lift_run.
  destruct fetched as [[ok body]|e]; [|by cbn; rewrite Hs; intros ?%elem_of_nil].
  rewrite prog_bind_run. cbn [raise_for_status status_ok lift].
  destruct ok; [|by cbn; rewrite Hs; intros ?%elem_of_nil].
  rewrite prog_bind_run, lift_run.
  destruct body as [data|]; [|by cbn; rewrite Hs; intros ?%elem_of_nil].
  cbn [response_json payload].
  rewrite prog_bind_run, lift_run.
  destruct (steam_has_specials data) as [[]|e]; cbn [when];
    [|by cbn; rewrite Hs; intros ?%elem_of_nil..].
  rewrite prog_bind_run, lift_run.
  destruct (steam_items data) as [items|e] eqn:Hitems;
    [|by cbn; rewrite Hs; intros ?%elem_of_nil].
  intros Ho. exists data, items. repeat split; [done|].
  revert o Ho.
  apply (for_each_preserves (λ s', ∀ o, o ∈ sc_games s' → steam_emitted items o)).
  - intros item s' Hitem Hs' o. unfold steam_item.
    rewrite prog_bind_run, lift_run.
    destruct (steam_is_free item) as [[]|e] eqn:Hfree; cbn [when]; [|by apply Hs'..].
    rewrite prog_bind_run, lift_run.
    destruct (steam_game_info item) as [o'|e] eqn:Ho'; [|by apply Hs'].
    cbn [games_append snd sc_games].
    intros [Ho| ->%list_elem_of_singleton]%elem_of_app; [by apply Hs'|].
    exists item. repeat split; [done| |done]. by apply steam_is_free_true.
  - rewrite Hs. by intros o ?%elem_of_nil.
Qed.

Lemma steam_try_specials data items s :
  steam_has_specials data = Ok true → steam_items data = Ok items →
  steam_try (Ok (Response true (Some data))) s = for_each items steam_item s.
Proof.
  intros Hhas Hitems. unfold steam_try. rewrite prog_bind_run, lift_run.
  rewrite prog_bind_run. cbn [raise_for_status status_ok lift].
  rewrite prog_bind_run, lift_run. cbn [response_json payload].
  rewrite prog_bind_run, lift_run, Hhas. cbn [when].
  by rewrite prog_bind_run, lift_run, Hitems.
Qed.

Lemma steam_try_run data items started :
  steam_has_specials data = Ok true → steam_items data = Ok items →
  Forall (λ item, steam_item_ok item = true) items →
  ∃ emitted,
    steam_try (Ok (Response true (Some data))) (ScraperState [] started)
    = (Ok (), ScraperState emitted started)
    ∧ Forall2 (λ item o, steam_game_info item = Ok o)
        (List.filter steam_included items) emitted.
Proof.
  intros Hhas Hitems Hok.
  destruct (steam_loop items Hok (ScraperState [] started)) as (em & Hrun & HF).
  exists em. split; [|done].
  by rewrite (steam_try_specials _ _ _ Hhas Hitems).
Qed.

End Steam.

(** C5, as the source has it: every offer the Steam scraper returns was
    built from an item of the specials with [final_price == 0],
    [original_price > 0] and [discount_percent == 100].  Such an item is in
    what the scraper returns, wherever it stands among the specials, when
    it and the items before it are objects whose [original_price], if any,
    is an integer below [2^52]; it stays there whatever the items after it
    are.  When all the items are such objects the scraper returns one offer
    per item that passes the three tests, in the order of the collection,
    and nothing else.  The [original_price] of an offer is the amount in
    units and cents, [$19.99] for 1999; an item whose [final_price] is 500
    is not included. *)
Theorem scrape_steam_keeps_free_specials :
  (∀ fetched s games s',
     scrape_steam_weekend_deals fetched s = (Ok games, s') →
     ∀ o, o ∈ games →
       ∃ data items,
         fetched = Ok (Response true (Some data))
         ∧ steam_items data = Ok items
         ∧ steam_emitted items o)
  ∧ (∀ data before item after,
       steam_has_specials data = Ok true →
       steam_items data = Ok (before ++ item :: after) →
       Forall (λ x, steam_item_ok x = true) before →
       steam_item_ok item = true →
       steam_included item = true →
       ∃ games o,
         call (scrape_steam_weekend_deals (Ok (Response true (Some data)))) = Ok games
         ∧ steam_game_info item = Ok o
         ∧ o ∈ games)
  ∧ (∀ data items,
       steam_has_specials data = Ok true →
       steam_items data = Ok items →
       Forall (λ item, steam_item_ok item = true) items →
       ∃ games,
         call (scrape_steam_weekend_deals (Ok (Response true (Some data)))) = Ok games
         ∧ Forall2 (λ item o, steam_game_info item = Ok o)
             (List.filter steam_included items) games)
  ∧ (∀ item, steam_item_ok item = true →
       steam_is_free item = Ok (steam_included item))
  ∧ (∀ d z o,
       py_int (dict_get d "original_price" (JInt 0)) = Some z →
       (0 ≤ z < 2 ^ 52)%Z →
       steam_game_info (JDict d) = Ok o →
       dict_lookup o "original_price"
       = Some (JStr ("$" +:+ str_of_Z (z / 100) +:+ "." +:+ two_digits (z mod 100))))
  ∧ (∀ d o, dict_lookup d "original_price" = Some (JInt 1999) →
       steam_game_info (JDict d) = Ok o →
       dict_lookup o "original_price" = Some (JStr "$19.99"))
  ∧ (∀ d, dict_lookup d "final_price" = Some (JInt 500) →
       steam_included (JDict d) = false ∧ steam_is_free (JDict d) = Ok false).
Proof.
  split; [|split; [|split; [|split; [|split; [|split]]]]].
  - intros fetched s games s' Hrun o Ho.
    destruct (steam_isolating fetched s) as (started & finished & Hiso).
    destruct (steam_try fetched (ScraperState [] started)) as [outcome after] eqn:Htry.
    destruct Hiso as [Hiso _]. rewrite Hiso in Hrun.
    injection Hrun as <- _.
    apply (steam_try_emitted fetched (ScraperState [] started)); [done|].
    by rewrite Htry.
  - intros data before item after Hhas Hitems Hb Hok Hinc.
    destruct (steam_isolating (Ok (Response true (Some data))) (ScraperState [] []))
      as (started & finished & Hiso).
    rewrite (steam_try_specials _ _ _ Hhas Hitems) in Hiso.
    destruct (steam_loop_includes before item after (ScraperState [] started)
                Hb Hok Hinc) as (o & Ho & Hin).
    destruct (for_each (before ++ item :: after) steam_item (ScraperState [] started))
      as [outcome final].
    destruct Hiso as [Hiso _].
    exists (sc_games final), o. unfold call. by rewrite Hiso.
  - intros data items Hhas Hitems Hok.
    destruct (steam_isolating (Ok (Response true (Some data))) (ScraperState [] []))
      as (started & finished & Hiso).
    destruct (steam_try_run data items started Hhas Hitems Hok) as (emitted & Htry & HF).
    rewrite Htry in Hiso. destruct Hiso as [Hiso _].
    exists emitted. split; [|done]. unfold call. by rewrite Hiso.
  - apply steam_is_free_ok.
  - intros d z o Hz Hbound. unfold steam_game_info. cbn [py_get]. rewrite !bind_Ok.
    rewrite (format_price_exact _ z Hz Hbound). rewrite !bind_Ok. by intros [= <-].
  - intros d o Hprice.
    assert (py_int (dict_get d "original_price" (JInt 0)) = Some 1999%Z) as Hz
      by (unfold dict_get; by rewrite Hprice).
    unfold steam_game_info. cbn [py_get]. rewrite !bind_Ok.
    rewrite (format_price_exact _ _ Hz) by (split; [discriminate|reflexivity]).
    rewrite !bind_Ok. intros [= <-]. reflexivity.
  - intros d Hfinal. unfold steam_included, steam_is_free. cbn [py_get].
    unfold dict_get. rewrite Hfinal. by rewrite bind_Ok.
Qed.

Lemma scrape_steam_keeps_free_specials_witness :
  ∃ games o,
    call (scrape_steam_weekend_deals
            (steam_answer_of [sample_item "Braid" 500 1999 75;
                              sample_item "Portal" 0 1999 100; JNull])) = Ok games
    ∧ steam_game_info (sample_item "Portal" 0 1999 100) = Ok o
    ∧ o ∈ games.
Proof.
  apply (proj1 (proj2 scrape_steam_keeps_free_specials)
           (JDict [("specials",
              JDict [("items",
                JList [sample_item "Braid" 500 1999 75;
                       sample_item "Portal" 0 1999 100; JNull])])])
           [sample_item "Braid" 500 1999 75] (sample_item "Portal" 0 1999 100) [JNull]).
  - reflexivity.
  - reflexivity.
  - repeat constructor.
  - reflexivity.
  - reflexivity.
Defined.

(** C5, as the claim states it, fails in its [if] half: an item with
    [final_price == 0], [original_price > 0] and [discount_percent == 100]
    is not in what the scraper returns when an item before it cannot be
    evaluated, here one whose [original_price] is a string. *)
Lemma scrape_steam_loses_item_after_bad_one :
  steam_included (sample_item "Portal" 0 1999 100) = true
  ∧ call (scrape_steam_weekend_deals
            (steam_answer_of
               [JDict [("name", JStr "Braid"); ("final_price", JInt 0);
                       ("original_price", JStr "19.99");
                       ("discount_percent", JInt 100)];
                sample_item "Portal" 0 1999 100]))
    = Ok [].
Proof. split; vm_compute; reflexivity. Qed.

(* ================================================================== *)
(** * The offers of a run *)
(* ================================================================== *)

Section Platforms.

Lemma platform_is_str_hashable o : platform_is_str o → hashable_platform o.
Proof. intros [p Hp]. unfold hashable_platform, dict_get. by rewrite Hp. Qed.

Lemma games_append_platforms o s :
  platform_is_str o → Forall platform_is_str (sc_games s) →
  Forall platform_is_str (sc_games (snd (games_append o s))).
Proof. intros Ho Hs. cbn. apply Forall_app. split; [done|]. by constructor. Qed.

Lemma epic_game_info_platform game promo price o :
  epic_game_info game promo price = Ok o → platform_is_str o.
Proof.
  unfold epic_game_info.
  intros (title & _ & H)%bind_Ok_inv.
  apply bind_Ok_inv in H as (windows & _ & H).
  apply bind_Ok_inv in H as (window & _ & H).
  apply bind_Ok_inv in H as (end_date & _ & H).
  apply bind_Ok_inv in H as (description & _ & [= <-]).
  by eexists.
Qed.

Lemma steam_game_info_platform item o :
  steam_game_info item = Ok o → platform_is_str o.
Proof.
  unfold steam_game_info.
  intros (name & _ & H)%bind_Ok_inv.
  apply bind_Ok_inv in H as (price & _ & H).
  apply bind_Ok_inv in H as (id & _ & H).
  apply bind_Ok_inv in H as (discount & _ & H).
  apply bind_Ok_inv in H as (image & _ & [= <-]).
  by eexists.
Qed.

(** A [try] block keeps the property when each turn of its loop does. *)
Lemma fetch_loop_platforms {A B} (items : response A → list B) (body : B → prog scraper_state unit)
    (fetched : result (response A)) s :
  (∀ x s, Forall platform_is_str (sc_games s) →
          Forall platform_is_str (sc_games (snd (body x s)))) →
  Forall platform_is_str (sc_games s) →
  Forall platform_is_str
    (sc_games (snd ((resp ← lift fetched; raise_for_status resp;;
                     for_each (items resp) body) s))).
Proof.
  intros Hbody Hs. rewrite prog_bind_run, lift_run.
  destruct fetched as [[ok p]|e]; [|done].
  rewrite prog_bind_run. cbn [raise_for_status status_ok lift].
  destruct ok; [|done]. cbv beta iota.
  apply (for_each_preserves (λ s', Forall platform_is_str (sc_games s'))); [|done].
  intros x s' _. apply Hbody.
Qed.

Lemma gog_try_platforms fetched s :
  Forall platform_is_str (sc_games s) →
  Forall platform_is_str (sc_games (snd (gog_try fetched s))).
Proof.
  apply (fetch_loop_platforms payload gog_element).
  intros [title|] s' Hs'; [|done]. cbn [gog_element].
  destruct (_ && _); [|done]. apply games_append_platforms; [by eexists | done].
Qed.

Lemma amazon_try_platforms fetched s :
  Forall platform_is_str (sc_games s) →
  Forall platform_is_str (sc_games (snd (amazon_try fetched s))).
Proof.
  apply (fetch_loop_platforms (λ r, take 10 (payload r)) amazon_element).
  intros [title|] s' Hs'; [|done]. cbn [amazon_element].
  destruct (_ && _); [|done]. apply games_append_platforms; [by eexists | done].
Qed.

Lemma itch_try_platforms urljoin fetched s :
  Forall platform_is_str (sc_games s) →
  Forall platform_is_str (sc_games (snd (itch_try urljoin fetched s))).
Proof.
  apply (fetch_loop_platforms (λ r, take 10 (payload r)) (itch_element urljoin)).
  intros [[[title path]|] price] s' Hs'; [|done]. cbn [itch_element itch_title itch_price].
  destruct (itch_is_free price); [|done].
  apply games_append_platforms; [by eexists | done].
Qed.

Lemma ubisoft_try_platforms fetched s :
  Forall platform_is_str (sc_games s) →
  Forall platform_is_str (sc_games (snd (ubisoft_try fetched s))).
Proof.
  apply (fetch_loop_platforms (λ r, take 10 (payload r)) ubisoft_element).
  intros [[title|] [price|]] s' Hs'; try done.
  cbn [ubisoft_element ubisoft_title ubisoft_price].
  destruct (_ && _); [|done]. apply games_append_platforms; [by eexists | done].
Qed.

Lemma microsoft_try_platforms fetched s :
  Forall platform_is_str (sc_games s) →
  Forall platform_is_str (sc_games (snd (microsoft_try fetched s))).
Proof.
  intros Hs. unfold microsoft_try. rewrite prog_bind_run, lift_run.
  destruct fetched as [[[] p]|e]; done.
Qed.

Lemma epic_try_platforms fetched s :
  Forall platform_is_str (sc_games s) →
  Forall platform_is_str (sc_games (snd (epic_try fetched s))).
Proof.
  intros Hs. unfold epic_try. rewrite prog_bind_run, lift_run.
  destruct fetched as [[ok body]|e]; [|done].
  rewrite prog_bind_run. cbn [raise_for_status status_ok lift].
  destruct ok; [|done].
  rewrite prog_bind_run, lift_run.
  destruct body as [data|]; [|done]. cbn [response_json payload].
  rewrite prog_bind_run, lift_run.
  destruct (epic_has_catalog data) as [[]|e]; cbn [when]; [|done..].
  rewrite prog_bind_run, lift_run.
  destruct (epic_elements data) as [elements|e]; [|done].
  apply (for_each_preserves (λ s', Forall platform_is_str (sc_games s'))); [|done].
  intros game s1 _ Hs1. unfold epic_element. rewrite prog_bind_run, lift_run.
  destruct (py_get game "promotions" JNull) as [promotions|e]; [|done].
  destruct (py_truthy promotions); cbn [when]; [|done].
  rewrite prog_bind_run, lift_run.
  destruct (py_get promotions "promotionalOffers" JNull) as [current|e]; [|done].
  destruct (py_truthy current); cbn [when]; [|done].
  rewrite prog_bind_run, lift_run.
  destruct (py_getitem promotions "promotionalOffers" ≫= py_iter) as [offers|e]; [|done].
  apply (for_each_preserves (λ s', Forall platform_is_str (sc_games s'))); [|done].
  intros promo s2 _ Hs2.
  destruct (epic_promotion_run game promo s2)
    as [_ [->|(o & windows & -> & _ & _ & _ & Ho)]]; [done|].
  cbn [snd sc_games]. apply Forall_app. split; [done|].
  constructor; [|done]. by eapply epic_game_info_platform.
Qed.

Lemma steam_try_platforms fetched s :
  Forall platform_is_str (sc_games s) →
  Forall platform_is_str (sc_games (snd (steam_try fetched s))).
Proof.
  intros Hs. unfold steam_try. rewrite prog_bind_run, lift_run.
  destruct fetched as [[ok body]|e]; [|done].
  rewrite prog_bind_run. cbn [raise_for_status status_ok lift].
  destruct ok; [|done].
  rewrite prog_bind_run, lift_run.
  destruct body as [data|]; [|done]. cbn [response_json payload].
  rewrite prog_bind_run, lift_run.
  destruct (steam_has_specials data) as [[]|e]; cbn [when]; [|done..].
  rewrite prog_bind_run, lift_run.
  destruct (steam_items data) as [items|e]; [|done].
  apply (for_each_preserves (λ s', Forall platform_is_str (sc_games s'))); [|done].
  intros item s1 _ Hs1. unfold steam_item. rewrite prog_bind_run, lift_run.
  destruct (steam_is_free item) as [[]|e]; cbn [when]; [|done..].
  rewrite prog_bind_run, lift_run.
  destruct (steam_game_info item) as [o|e] eqn:Ho; [|done].
  apply games_append_platforms; [|done]. by eapply steam_game_info_platform.
Qed.

Lemma isolating_platforms {A}
    (scraper : result (response A) → prog scraper_state (list offer))
    try_block message fetched games :
  fault_isolating scraper try_block message →
  (∀ s, Forall platform_is_str (sc_games s) →
        Forall platform_is_str (sc_games (snd (try_block fetched s)))) →
  call (scraper fetched) = Ok games →
  Forall platform_is_str games.
Proof.
  intros Hiso Htry. unfold call.
  destruct (Hiso fetched (ScraperState [] [])) as (started & finished & Hrun).
  specialize (Htry (ScraperState [] started) (Forall_nil_2 _)).
  destruct (try_block fetched _) as [outcome after].
  destruct Hrun as [-> _]. by intros [= <-].
Qed.

Lemma scrapers_platforms w :
  Forall platform_is_str (returned_offers (scrapers w)).
Proof.
  unfold returned_offers, scrapers. cbn [flat_map snd].
  repeat (apply Forall_app; split); try apply Forall_nil_2.
  - destruct (call (scrape_epic_games _)) as [games|] eqn:H; [|done].
    exact (isolating_platforms _ _ _ _ _ epic_isolating (epic_try_platforms _) H).
  - destruct (call (scrape_steam_weekend_deals _)) as [games|] eqn:H; [|done].
    exact (isolating_platforms _ _ _ _ _ steam_isolating (steam_try_platforms _) H).
  - destruct (call (scrape_gog_giveaways _)) as [games|] eqn:H; [|done].
    exact (isolating_platforms _ _ _ _ _ gog_isolating (gog_try_platforms _) H).
  - destruct (call (scrape_itchio_sales _ _)) as [games|] eqn:H; [|done].
    exact (isolating_platforms _ _ _ _ _ (itch_isolating _) (itch_try_platforms _ _) H).
  - destruct (call (scrape_ubisoft_connect _)) as [games|] eqn:H; [|done].
    exact (isolating_platforms _ _ _ _ _ ubisoft_isolating (ubisoft_try_platforms _) H).
  - destruct (call (scrape_amazon_prime_gaming _)) as [games|] eqn:H; [|done].
    exact (isolating_platforms _ _ _ _ _ amazon_isolating (amazon_try_platforms _) H).
  - destruct (call (scrape_microsoft_store _)) as [games|] eqn:H; [|done].
    exact (isolating_platforms _ _ _ _ _ microsoft_isolating (microsoft_try_platforms _) H).
Qed.

(** What the deduplicator keeps of the offers of a run has a string
    platform, in whatever order the scrapers completed. *)
Lemma unique_platforms w completed unique :
  completed ≡ₚ scrapers w →
  _remove_duplicates (returned_offers completed) = Ok unique →
  Forall hashable_platform unique.
Proof.
  intros Hp Hd.
  assert (Forall platform_is_str (returned_offers completed)) as Hall.
  { rewrite (returned_offers_Permutation _ _ Hp). apply scrapers_platforms. }
  pose proof (remove_duplicates_sublist _ _ Hd) as Hsub.
  apply Forall_forall. intros o Ho. apply platform_is_str_hashable.
  by apply (proj1 (Forall_forall _ _) Hall), (elem_of_sublist unique).
Qed.

End Platforms.

(* ================================================================== *)
(** * The sinks and the entry point *)
(* ================================================================== *)

Section Sinks.

Lemma set_console_twice c l w :
  set_console (console (set_console c w) ++ l) (set_console c w)
  = set_console (c ++ l) w.
Proof. by destruct w. Qed.

Lemma set_console_nil w : set_console (console w ++ []) w = w.
Proof. destruct w. unfold set_console. cbn. by rewrite app_nil_r. Qed.

Lemma prints_ret : prints (mret ()).
Proof. intros w. exists []. cbn. by rewrite set_console_nil. Qed.

Lemma prints_print line : prints (print line).
Proof. intros w. by exists [line]. Qed.

Lemma prints_bind (m k : prog world unit) : prints m → prints k → prints (m;; k).
Proof.
  intros Hm Hk w. destruct (Hm w) as [l1 H1]. rewrite prog_bind_run, H1.
  destruct (Hk (set_console (console w ++ l1) w)) as [l2 H2]. rewrite H2.
  exists (l1 ++ l2). by rewrite set_console_twice, app_assoc.
Qed.

Lemma prints_when cond (m : prog world unit) : prints m → prints (when cond m).
Proof. destruct cond; [done|]. intros _. apply prints_ret. Qed.

Lemma prints_for_each {A} (xs : list A) (body : A → prog world unit) :
  Forall (λ x, prints (body x)) xs → prints (for_each xs body).
Proof.
  induction 1 as [|x xs Hx _ IH]; [apply prints_ret|].
  cbn [for_each]. by apply prints_bind.
Qed.

Lemma prints_print_game game : has_title game → prints (print_game game).
Proof.
  intros [title Htitle]. unfold print_game, dict_getitem. rewrite Htitle.
  intros w. rewrite prog_bind_run, lift_run.
  revert w. apply prints_bind; [apply prints_print|].
  apply prints_bind; apply prints_when, prints_print.
Qed.

Lemma prints_print_platform entry :
  Forall has_title (snd entry) → prints (print_platform entry).
Proof.
  destruct entry as [platform games]. cbn [snd]. intros Hgames.
  unfold print_platform. apply prints_bind; [apply prints_print|].
  apply prints_bind; [|apply prints_when, prints_print].
  apply prints_for_each. apply Forall_forall. intros game Hgame.
  apply prints_print_game. revert game Hgame. apply Forall_forall.
  by apply Forall_take.
Qed.

Lemma group_add_titles platforms platform game :
  Forall (λ entry, Forall has_title (snd entry)) platforms → has_title game →
  Forall (λ entry, Forall has_title (snd entry)) (group_add platforms platform game).
Proof.
  intros Hp Hg. induction Hp as [|[p games] platforms Hgames Hrest IH]; cbn.
  - by repeat constructor.
  - cbn in Hgames. destruct (py_eq_atom platform p).
    + constructor; [|done]. cbn. apply Forall_app. split; [done|]. by constructor.
    + by constructor.
Qed.

Lemma group_by_platform_ok games : ∀ platforms,
  Forall has_title games → Forall hashable_platform games →
  Forall (λ entry, Forall has_title (snd entry)) platforms →
  ∃ grouped, group_by_platform games platforms = Ok grouped
             ∧ Forall (λ entry, Forall has_title (snd entry)) grouped.
Proof.
  induction games as [|game games IH]; intros platforms Ht Hh Hp; [by eauto|].
  apply Forall_cons in Ht as [Hgt Ht]. apply Forall_cons in Hh as [Hgh Hh].
  cbn [group_by_platform]. unfold hashable_platform in Hgh. rewrite Hgh.
  apply IH; try done. by apply group_add_titles.
Qed.

Lemma print_summary_prints w :
  Forall has_title (free_games w) → Forall hashable_platform (free_games w) →
  ∃ lines, print_summary w = (Ok (), set_console (console w ++ lines) w).
Proof.
  intros Ht Hh. unfold print_summary. rewrite prog_bind_run.
  unfold get_free_games.
  destruct (free_games w) as [|game games] eqn:Hgames; [apply prints_print|].
  rewrite prog_bind_run, lift_run.
  destruct (group_by_platform_ok (game :: games) [] Ht Hh) as (grouped & -> & Hg);
    [constructor|].
  revert w Hgames. 
  assert (prints (print (PSummary (List.length (game :: games)));; print PRule;;
             for_each grouped print_platform)) as Hp.
  { apply prints_bind; [apply prints_print|].
    apply prints_bind; [apply prints_print|].
    apply prints_for_each. eapply Forall_impl; [exact Hg|].
    intros entry. apply prints_print_platform. }
  intros w _. apply Hp.
Qed.

Lemma platform_set_ok games : ∀ members,
  Forall hashable_platform games → ∃ platforms, platform_set games members = Ok platforms.
Proof.
  induction games as [|game games IH]; intros members Hh; [by eauto|].
  apply Forall_cons in Hh as [Hg Hh]. cbn [platform_set].
  unfold hashable_platform in Hg. rewrite Hg. by apply IH.
Qed.

Lemma save_to_json_run filename w :
  writable w filename = true →
  Forall hashable_platform (free_games w) →
  ∃ platforms,
    save_to_json filename w
    = (Ok (),
       World (free_games w) (console w)
         (journal w ++ [LogRecord INFO
                          ("Saved " +:+ str_of_nat (List.length (free_games w))
                           +:+ " games to " +:+ filename) None])
         (<[filename := JsonFile (json_document (clock w (ticks w)) platforms
                                    (free_games w))]> (files w))
         (writable w) (clock w) (S (ticks w))).
Proof.
  intros Hw Hh. destruct (platform_set_ok _ [] Hh) as [platforms Hp].
  exists platforms. destruct w as [fg co jo fi wr cl ti]. cbn in *.
  unfold save_to_json, try_except.
  rewrite prog_bind_run. unfold open_w. cbn. rewrite Hw.
  rewrite prog_bind_run. unfold now. cbn.
  rewrite prog_bind_run. unfold get_free_games. cbn.
  rewrite prog_bind_run, lift_run, Hp.
  rewrite prog_bind_run. unfold write_file, logger_info, set_files. cbn.
  by rewrite insert_insert_eq.
Qed.

Lemma save_to_csv_empty filename w :
  free_games w = [] →
  save_to_csv filename w
  = (Ok (), set_journal (journal w ++ [LogRecord WARNING "No games to save" None]) w).
Proof.
  intros Hg. unfold save_to_csv, try_except. rewrite prog_bind_run.
  unfold get_free_games. by rewrite Hg.
Qed.

Lemma csv_cell_get game field :
  csv_cell (dict_get game field (JStr EmptyString))
  = match dict_lookup game field with
    | Some v => csv_cell v
    | None => EmptyString
    end.
Proof. unfold dict_get. by destruct (dict_lookup game field). Qed.

Lemma csv_cells_stamped game stamp :
  csv_cells (dict_set (csv_row_of game) "scraped_at" (JStr stamp))
  = expected_csv_row game stamp.
Proof.
  unfold csv_cells, csv_row_of, expected_csv_row. cbn.
  by rewrite <- !csv_cell_get.
Qed.

Lemma csv_loop filename games : ∀ fg co jo fi wr cl ti header rows,
  for_each games (csv_game filename)
    (World fg co jo (<[filename := CsvFile header rows]> fi) wr cl ti)
  = (Ok (),
     World fg co jo
       (<[filename := CsvFile header (rows ++ expected_csv_rows cl ti games)]> fi)
       wr cl (ti + List.length games)).
Proof.
  induction games as [|game games IH]; intros fg co jo fi wr cl ti header rows.
  - cbn. by rewrite app_nil_r, Nat.add_0_r.
  - cbn [for_each]. rewrite prog_bind_run.
    unfold csv_game at 1. rewrite prog_bind_run.
    unfold now, csv_writerow, set_ticks, set_files. cbv beta iota.
    cbn [files ticks clock free_games console journal writable].
    rewrite csv_cells_stamped, alter_insert_eq. cbn [csv_append].
    rewrite IH. rewrite <- app_assoc. cbn [expected_csv_rows app List.length].
    by rewrite Nat.add_succ_r.
Qed.

Lemma save_to_csv_run filename w :
  free_games w ≠ [] →
  writable w filename = true →
  save_to_csv filename w
  = (Ok (),
     World (free_games w) (console w)
       (journal w ++ [LogRecord INFO
                        ("Saved " +:+ str_of_nat (List.length (free_games w))
                         +:+ " games to " +:+ filename) None])
       (<[filename := CsvFile fieldnames
                        (expected_csv_rows (clock w) (ticks w) (free_games w))]>
          (files w))
       (writable w) (clock w) (ticks w + List.length (free_games w))).
Proof.
  intros Hne Hw. destruct w as [fg co jo fi wr cl ti].
  cbn [free_games console journal files writable clock ticks] in *.
  unfold save_to_csv, try_except. rewrite prog_bind_run. unfold get_free_games.
  cbv beta iota. cbn [free_games].
  destruct fg as [|game games]; [done|].
  rewrite prog_bind_run. unfold open_w. cbn [writable]. rewrite Hw.
  rewrite prog_bind_run. unfold csv_writeheader, write_file, set_files.
  cbn [free_games console journal files writable clock ticks].
  rewrite insert_insert_eq.
  rewrite prog_bind_run, csv_loop. unfold logger_info, emit, world_logging, set_journal.
  cbn [free_games console journal files writable clock ticks].
  by rewrite app_nil_l.
Qed.

Lemma title_lower_has_title game t : title_lower_of game = Ok t → has_title game.
Proof.
  unfold title_lower_of, dict_getitem, has_title.
  by destruct (dict_lookup game "title").
Qed.

Lemma remove_duplicates_loop_titles games : ∀ st st',
  remove_duplicates_loop games st = Ok st' → Forall has_title games.
Proof.
  induction games as [|g games IH]; intros [u seen] st'; [done|].
  cbn [remove_duplicates_loop].
  intros (st1 & Hstep & Hloop)%bind_Ok_inv.
  apply remove_duplicates_step_inv in Hstep as (tl & d & Htl & _ & _).
  constructor; [by eapply title_lower_has_title | by eapply IH].
Qed.

Lemma remove_duplicates_titles games out :
  _remove_duplicates games = Ok out → Forall has_title out.
Proof.
  intros Hrun. pose proof Hrun as Hrun'. unfold _remove_duplicates in Hrun.
  apply bind_Ok_inv in Hrun as ([out1 seen'] & Hloop & [= <-]).
  pose proof (remove_duplicates_loop_titles _ _ _ Hloop) as Ht.
  apply remove_duplicates_loop_extends in Hloop as (out' & -> & Hsub).
  cbn. apply Forall_forall. intros g Hg.
  by apply (proj1 (Forall_forall _ _) Ht), (elem_of_sublist out').
Qed.

Ltac world_simpl :=
  cbv beta iota;
  cbn [free_games console journal files writable clock ticks
       set_free_games set_console set_journal set_files set_ticks].

Lemma main_try_run completed w unique :
  _remove_duplicates (returned_offers completed) = Ok unique →
  Forall hashable_platform unique →
  writable w "free_games.json" = true →
  writable w "free_games.csv" = true →
  ∃ w' platforms lines,
    main_try completed w = (Ok (), w')
    ∧ files w'
      = match unique with
        | [] => <["free_games.json" :=
                  JsonFile (json_document (clock w (ticks w)) platforms unique)]>
                  (files w)
        | _ => <["free_games.csv" :=
                 CsvFile fieldnames (expected_csv_rows (clock w) (S (ticks w)) unique)]>
                 (<["free_games.json" :=
                    JsonFile (json_document (clock w (ticks w)) platforms unique)]>
                    (files w))
        end
    ∧ console w'
      = console w ++ [PStarting; PSearchNotice; PPleaseWait] ++ lines
        ++ [PCompleted; PFound (List.length unique); PSaved;
            match unique with
            | [] => PNoneFree
            | _ => PAllFree (List.length unique)
            end]
    ∧ (unique = [] →
       lines = [PNoGamesFound]
       ∧ LogRecord WARNING "No games to save" None ∈ journal w').
Proof.
  intros Hd Hh Hjson Hcsv.
  pose proof (remove_duplicates_titles _ _ Hd) as Ht.
  destruct w as [fg co jo fi wr cl ti]. world_simpl. cbn [writable] in Hjson, Hcsv.
  unfold main_try.
  rewrite prog_bind_run. unfold print at 1. world_simpl.
  rewrite prog_bind_run. unfold print at 1. world_simpl.
  rewrite prog_bind_run. unfold print at 1. world_simpl.
  rewrite prog_bind_run, (scrape_all_platforms_threaded_run _ _ _ Hd). world_simpl.
  rewrite prog_bind_run.
  match goal with
  | |- context [print_summary ?W] =>
      destruct (print_summary_prints W Ht Hh) as [lines Hlines];
      assert (unique = [] → lines = [PNoGamesFound]) as Hnone
  end.
  { intros ->. cbv in Hlines. by injection Hlines as <-%app_inv_head. }
  rewrite Hlines. world_simpl.
  rewrite prog_bind_run.
  match goal with
  | |- context [save_to_json ?F ?W] =>
      destruct (save_to_json_run F W Hjson Hh) as [platforms ->]
  end.
  world_simpl. rewrite prog_bind_run.
  destruct unique as [|game games].
  - rewrite save_to_csv_empty by done. world_simpl.
    unfold print. rewrite !prog_bind_run. world_simpl.
    eexists _, platforms, lines. split; [reflexivity|]. world_simpl.
    split; [done|]. split; [by rewrite <- !app_assoc|].
    intros _. split; [by apply Hnone|].
    apply elem_of_app. right. apply list_elem_of_here.
  - rewrite save_to_csv_run by done. world_simpl.
    unfold print. rewrite !prog_bind_run. world_simpl.
    eexists _, platforms, lines. split; [reflexivity|]. world_simpl.
    split; [done|]. split; [by rewrite <- !app_assoc|]. done.
Qed.

Lemma expected_csv_rows_lookup time games : ∀ tick i game,
  games !! i = Some game →
  expected_csv_rows time tick games !! i
  = Some (expected_csv_row game (time (tick + i))).
Proof.
  induction games as [|g games IH]; intros tick i game; [done|].
  destruct i as [|i]; simpl.
  - intros [= ->]. by rewrite Nat.add_0_r.
  - intros Hi. rewrite (IH (S tick) i game Hi). by rewrite Nat.add_succ_r.
Qed.

Lemma expected_csv_rows_length time games : ∀ tick,
  List.length (expected_csv_rows time tick games) = List.length games.
Proof. induction games as [|g games IH]; intros tick; simpl; [done|]. by rewrite IH. Qed.

End Sinks.

(** [main] on any futures whose offers can be grouped by platform. *)
Lemma main_run
    (completed : list (string * result (list offer))) (w : world)
    (unique : list offer) :
  _remove_duplicates (returned_offers completed) = Ok unique →
  Forall hashable_platform unique →
  writable w "free_games.json" = true →
  writable w "free_games.csv" = true →
  ∃ w', main completed w = (Ok (), w')
    ∧ (∃ stamp platforms,
         files w' !! "free_games.json"
         = Some (JsonFile (json_document stamp platforms unique)))
    ∧ match unique with
      | [] =>
          files w' !! "free_games.csv" = files w !! "free_games.csv"
          ∧ LogRecord WARNING "No games to save" None ∈ journal w'
          ∧ console w'
            = console w ++ [PStarting; PSearchNotice; PPleaseWait; PNoGamesFound;
                            PCompleted; PFound 0; PSaved; PNoneFree]
      | _ =>
          ∃ tick,
            files w' !! "free_games.csv"
            = Some (CsvFile fieldnames (expected_csv_rows (clock w) tick unique))
      end.
Proof.
  intros Hd Hh Hjson Hcsv.
  destruct (main_try_run completed (set_free_games [] w) unique Hd Hh)
    as (w' & platforms & lines & Hrun & Hfiles & Hconsole & Hnone);
    [by destruct w..|].
  exists w'. split.
  - unfold main. rewrite prog_bind_run. unfold put_free_games, try_except.
    cbv beta iota. by rewrite Hrun.
  - destruct w as [fg co jo fi wr cl ti]. cbn in Hfiles, Hconsole |- *.
    rewrite Hfiles. destruct unique as [|game games].
    + split; [eexists _, _; apply lookup_insert_eq|].
      destruct (Hnone eq_refl) as [-> Hwarn].
      split; [by rewrite lookup_insert_ne|]. split; [done|].
      by rewrite Hconsole.
    + split.
      * eexists _, _. rewrite lookup_insert_ne by done. apply lookup_insert_eq.
      * eexists. apply lookup_insert_eq.
Qed.

(** C8, as the source has it: on the seven scrapers of a run, in whatever
    order they complete, when the deduplicator returns and the two files can
    be written, [main] returns and writes [free_games.json] with the
    offers, also when there is none; it writes [free_games.csv] when there
    is at least one offer, and leaves it as it was, with a warning in the
    log, when there is none.  A run without offers ends with the message
    that no game is free, not with an error. *)
Theorem main_writes_sinks
    (net : web) (completed : list (string * result (list offer))) (w : world)
    (unique : list offer) :
  completed ≡ₚ scrapers net →
  _remove_duplicates (returned_offers completed) = Ok unique →
  writable w "free_games.json" = true →
  writable w "free_games.csv" = true →
  ∃ w', main completed w = (Ok (), w')
    ∧ (∃ stamp platforms,
         files w' !! "free_games.json"
         = Some (JsonFile (json_document stamp platforms unique)))
    ∧ match unique with
      | [] =>
          files w' !! "free_games.csv" = files w !! "free_games.csv"
          ∧ LogRecord WARNING "No games to save" None ∈ journal w'
          ∧ console w'
            = console w ++ [PStarting; PSearchNotice; PPleaseWait; PNoGamesFound;
                            PCompleted; PFound 0; PSaved; PNoneFree]
      | _ =>
          ∃ tick,
            files w' !! "free_games.csv"
            = Some (CsvFile fieldnames (expected_csv_rows (clock w) tick unique))
      end.
Proof.
  intros Hp Hd Hjson Hcsv. apply main_run; try done.
  by apply (unique_platforms net completed).
Qed.

Lemma main_writes_sinks_witness :
  ∃ w', main (scrapers sample_web) fresh_world = (Ok (), w')
    ∧ (∃ stamp platforms,
         files w' !! "free_games.json"
         = Some (JsonFile (json_document stamp platforms [sample_control_offer])))
    ∧ ∃ tick,
        files w' !! "free_games.csv"
        = Some (CsvFile fieldnames
                  (expected_csv_rows (clock fresh_world) tick [sample_control_offer])).
Proof.
  apply (main_writes_sinks sample_web (scrapers sample_web) fresh_world
           [sample_control_offer]).
  - reflexivity.
  - vm_compute. reflexivity.
  - reflexivity.
  - reflexivity.
Defined.

(** C8, as the claim states it, fails: no storefront can be reached, the
    run has no offer and returns; [free_games.json] is written,
    [free_games.csv] is not. *)
Lemma main_without_offers_writes_no_csv :
  fst (main (scrapers offline) fresh_world) = Ok ()
  ∧ free_games (snd (main (scrapers offline) fresh_world)) = []
  ∧ is_Some (files (snd (main (scrapers offline) fresh_world)) !! "free_games.json")
  ∧ files (snd (main (scrapers offline) fresh_world)) !! "free_games.csv" = None.
Proof.
  split; [vm_compute; reflexivity|].
  split; [vm_compute; reflexivity|].
  split; [|vm_compute; reflexivity].
  eexists. vm_compute. reflexivity.
Qed.

(** C9, as the source has it: when there is at least one offer and the
    file can be opened, the CSV sink writes the header row and one row per
    offer, in the order of the offers; the row of an offer has the eight
    fields of the header the offer may carry, empty where it carries none,
    and then the time read when the row is written, one reading per row;
    what else the offer carries is not in the row. *)
Theorem save_to_csv_writes_rows (filename : string) (w : world) :
  free_games w ≠ [] →
  writable w filename = true →
  ∃ w' rows,
    save_to_csv filename w = (Ok (), w')
    ∧ files w' !! filename
      = Some (CsvFile ["title"; "platform"; "original_price"; "current_price";
                       "url"; "end_date"; "description"; "type"; "scraped_at"]
                      rows)
    ∧ List.length rows = List.length (free_games w)
    ∧ ∀ i game, free_games w !! i = Some game →
        rows !! i = Some (expected_csv_row game (clock w (ticks w + i))).
Proof.
  intros Hne Hw. eexists _, _. rewrite (save_to_csv_run _ _ Hne Hw).
  split; [reflexivity|]. cbn [files].
  split; [apply lookup_insert_eq|].
  split; [apply expected_csv_rows_length|].
  intros i game. apply expected_csv_rows_lookup.
Qed.

Lemma save_to_csv_writes_rows_witness :
  ∃ w' rows,
    save_to_csv "free_games.csv" (set_free_games [sample_control_offer] fresh_world)
    = (Ok (), w')
    ∧ files w' !! "free_games.csv"
      = Some (CsvFile ["title"; "platform"; "original_price"; "current_price";
                       "url"; "end_date"; "description"; "type"; "scraped_at"]
                      rows)
    ∧ List.length rows = 1
    ∧ ∀ i game, [sample_control_offer] !! i = Some game →
        rows !! i = Some (expected_csv_row game (clock fresh_world (0 + i))).
Proof.
  apply (save_to_csv_writes_rows "free_games.csv"
           (set_free_games [sample_control_offer] fresh_world)).
  - discriminate.
  - reflexivity.
Defined.

(** C9, as the claim states it, fails: without offers the CSV sink returns
    at once and writes nothing, not even the header row. *)
Lemma save_to_csv_without_offers_writes_nothing :
  fst (save_to_csv "free_games.csv" fresh_world) = Ok ()
  ∧ files (snd (save_to_csv "free_games.csv" fresh_world)) !! "free_games.csv" = None
  ∧ journal (snd (save_to_csv "free_games.csv" fresh_world))
    = [LogRecord WARNING "No games to save" None].
Proof. repeat split; vm_compute; reflexivity. Qed.

(* ================================================================== *)
(** * More on the deduplicator *)
(* ================================================================== *)

Section MoreDedup.
Implicit Types (games pre post out : list offer) (seen : gset string).

Lemma is_duplicate_in_false title_words (l : list string) :
  is_duplicate_in title_words l = Ok false →
  ∀ t, t ∈ l → overlap_exceeds title_words (word_set t) = Ok false.
Proof.
  induction l as [|t l IH]; simpl; [by intros _ t ?%elem_of_nil|].
  intros (hit & Hhit & H)%bind_Ok_inv. destruct hit; [done|].
  intros t' [->|Ht']%elem_of_cons; [done|]. by apply IH.
Qed.

Lemma remove_duplicates_loop_apart games : ∀ u seen out seen',
  remove_duplicates_loop games (u, seen) = Ok (u ++ out, seen') →
  (∀ o t to, o ∈ out → t ∈ seen → title_lower_of o = Ok to →
     overlap_exceeds (word_set to) (word_set t) = Ok false)
  ∧ (∀ l1 a l2 b l3 ta tb,
       out = l1 ++ a :: l2 ++ b :: l3 →
       title_lower_of a = Ok ta → title_lower_of b = Ok tb →
       overlap_exceeds (word_set tb) (word_set ta) = Ok false).
Proof.
  induction games as [|g games IH]; intros u seen out seen'.
  - cbn. intros [= Hu _].
    assert (out = []) as -> by (apply (app_inv_head u); by rewrite app_nil_r).
    split; [by intros o t to ?%elem_of_nil|].
    intros l1 a l2 b l3 ta tb Hsplit. by destruct l1.
  - cbn [remove_duplicates_loop].
    intros (st1 & Hstep & Hloop)%bind_Ok_inv.
    apply remove_duplicates_step_inv in Hstep as (tl & d & Htl & Hd & ->).
    destruct d; [by eapply IH|].
    destruct (remove_duplicates_loop_extends _ _ _ _ _ Hloop) as (out' & Hout & _).
    rewrite <- app_assoc in Hout. apply app_inv_head in Hout as ->.
    replace (u ++ [g] ++ out') with ((u ++ [g]) ++ out') in Hloop
      by (by rewrite <- app_assoc).
    destruct (IH _ _ _ _ Hloop) as [IHseen IHpairs].
    pose proof (is_duplicate_in_false _ _ Hd) as Hfresh.
    split.
    + intros o t to [->|Ho]%elem_of_cons Ht Hto.
      * rewrite Htl in Hto. injection Hto as <-.
        by apply Hfresh, elem_of_elements.
      * apply (IHseen o t to Ho); [|done]. by apply elem_of_union_r.
    + intros l1 a l2 b l3 ta tb Hsplit Hta Htb.
      destruct l1 as [|x l1]; cbn in Hsplit; injection Hsplit as -> ->.
      * rewrite Htl in Hta. injection Hta as <-.
        apply (IHseen b tl tb); [|by apply elem_of_union_l, elem_of_singleton|done].
        apply elem_of_app. right. apply list_elem_of_here.
      * by eapply IHpairs.
Qed.

(** Every title of an offer of [unique_games] is in [seen_titles]. *)
Lemma remove_duplicates_loop_seen games : ∀ u seen u' seen',
  remove_duplicates_loop games (u, seen) = Ok (u', seen') →
  (∀ g t, g ∈ u → title_lower_of g = Ok t → t ∈ seen) →
  ∀ g t, g ∈ u' → title_lower_of g = Ok t → t ∈ seen'.
Proof.
  induction games as [|g games IH]; intros u seen u' seen'; cbn [remove_duplicates_loop].
  - by intros [= <- <-].
  - intros (st1 & Hstep & Hloop)%bind_Ok_inv Hinv.
    apply remove_duplicates_step_inv in Hstep as (tl & d & Htl & _ & ->).
    destruct d; [by eapply IH|].
    eapply IH; [done|]. intros g' t [Hg'| ->%list_elem_of_singleton]%elem_of_app Ht.
    + apply elem_of_union_r. by eapply Hinv.
    + rewrite Htl in Ht. injection Ht as <-. by apply elem_of_union_l, elem_of_singleton.
Qed.

Lemma exceeds_threshold_same (A : gset string) :
  0 < size A → exceeds_threshold A A = true.
Proof.
  intros Hp. rewrite exceeds_threshold_nat by lia.
  rewrite (idemp_L (∩) A).
  apply Nat.ltb_lt. lia.
Qed.

End MoreDedup.

(** X1: the first offer of the input is always kept, at the head of the
    output. *)
Theorem remove_duplicates_keeps_first (game : offer) (rest out : list offer) :
  _remove_duplicates (game :: rest) = Ok out →
  ∃ out', out = game :: out' ∧ sublist out' rest.
Proof.
  unfold _remove_duplicates. intros ([u seen'] & Hloop & [= <-])%bind_Ok_inv.
  cbn [remove_duplicates_loop] in Hloop.
  apply bind_Ok_inv in Hloop as (st1 & Hstep & Hloop).
  apply remove_duplicates_step_inv in Hstep as (tl & d & _ & Hd & ->).
  rewrite elements_empty in Hd. injection Hd as <-.
  apply remove_duplicates_loop_extends in Hloop as (out' & -> & Hsub).
  by exists out'.
Qed.

Lemma remove_duplicates_keeps_first_witness :
  ∃ out', [titled "Control"; titled "Braid"] = titled "Control" :: out'
          ∧ sublist out' [titled "control"; titled "Braid"].
Proof.
  apply (remove_duplicates_keeps_first (titled "Control")
           [titled "control"; titled "Braid"]).
  vm_compute. reflexivity.
Defined.

(** X2: no offer of the output is a duplicate of an offer kept before it:
    the test of the loop, applied to the titles of any two offers of the
    output, the later against the earlier, is defined and fails. *)
Theorem remove_duplicates_output_apart (games out : list offer) :
  _remove_duplicates games = Ok out →
  ∀ l1 a l2 b l3 ta tb,
    out = l1 ++ a :: l2 ++ b :: l3 →
    title_lower_of a = Ok ta → title_lower_of b = Ok tb →
    overlap_exceeds (word_set tb) (word_set ta) = Ok false.
Proof.
  unfold _remove_duplicates. intros ([u seen'] & Hloop & [= <-])%bind_Ok_inv.
  change u with ([] ++ u) in Hloop.
  exact (proj2 (remove_duplicates_loop_apart _ _ _ _ _ Hloop)).
Qed.

Lemma remove_duplicates_output_apart_witness :
  overlap_exceeds (word_set "b c d e g h") (word_set "a b c d e f") = Ok false.
Proof.
  apply (remove_duplicates_output_apart
           [titled "a b c d e f"; titled "a b c d e g"; titled "b c d e g h"]
           [titled "a b c d e f"; titled "b c d e g h"]
           ltac:(vm_compute; reflexivity)
           [] (titled "a b c d e f") [] (titled "b c d e g h") []).
  - reflexivity.
  - reflexivity.
  - reflexivity.
Defined.

(** X3: an offer whose title has the words of the title of an offer already
    kept is dropped, whatever the case, the order of the words and the
    punctuation between them. *)
Theorem remove_duplicates_same_words
    (games kept : list offer) (first later : offer) :
  _remove_duplicates games = Ok kept →
  first ∈ kept →
  title_has_word first = true →
  title_is_str later = true →
  word_set (normalized_title later) = word_set (normalized_title first) →
  _remove_duplicates (games ++ [later]) = Ok kept.
Proof.
  unfold _remove_duplicates.
  intros ([u seen] & Hloop & [= <-])%bind_Ok_inv Hfirst Hword Hstr Hsame.
  rewrite remove_duplicates_loop_app, Hloop, bind_Ok.
  cbn [remove_duplicates_loop].
  pose proof (title_is_str_lower _ (title_has_word_str _ Hword)) as Htf.
  pose proof (title_is_str_lower _ Hstr) as Htl.
  assert (normalized_title first ∈ seen) as Hin.
  { eapply (remove_duplicates_loop_seen _ _ _ _ _ Hloop); [|done..].
    by intros g t ?%elem_of_nil. }
  assert (0 < size (word_set (normalized_title first))) as Hpos.
  { pose proof (normalized_title_size _ (title_has_word_str _ Hword)) as Hsz.
    rewrite (title_has_word_not_free _ Hword) in Hsz.
    apply Nat.eqb_neq in Hsz. lia. }
  assert (is_duplicate_in (word_set (normalized_title later)) (elements seen) = Ok true)
    as Hdup.
  { rewrite Hsame, is_duplicate_in_pos by done. f_equal.
    apply existsb_exists. exists (normalized_title first). split.
    - by apply list_elem_of_In, elem_of_elements.
    - by apply exceeds_threshold_same. }
  by rewrite (remove_duplicates_step_eq _ _ _ _ _ Htl Hdup).
Qed.

Lemma remove_duplicates_same_words_witness :
  _remove_duplicates ([titled "Braid"; titled "Control: Ultimate Edition"]
                      ++ [titled "  ULTIMATE edition - control "])
  = Ok [titled "Braid"; titled "Control: Ultimate Edition"].
Proof.
  apply (remove_duplicates_same_words
           [titled "Braid"; titled "Control: Ultimate Edition"]
           [titled "Braid"; titled "Control: Ultimate Edition"]
           (titled "Control: Ultimate Edition")
           (titled "  ULTIMATE edition - control ")).
  - vm_compute. reflexivity.
  - apply list_elem_of_further, list_elem_of_here.
  - reflexivity.
  - reflexivity.
  - vm_compute. reflexivity.
Defined.

(** X4: for titles of at most five distinct words the threshold leaves no
    room: the test succeeds exactly when the two word sets are equal. *)
Theorem overlap_exceeds_short_titles (A B : gset string) :
  0 < max (size A) (size B) → max (size A) (size B) ≤ 5 →
  overlap_exceeds A B = Ok true ↔ A = B.
Proof.
  intros Hpos Hle. unfold overlap_exceeds.
  destruct (Nat.eqb_spec (max (size A) (size B)) 0) as [H0|_]; [lia|].
  assert (size (A ∩ B) ≤ size A) as HkA
    by (apply subseteq_size; intros x [? _]%elem_of_intersection; done).
  assert (size (A ∩ B) ≤ size B) as HkB
    by (apply subseteq_size; intros x [_ ?]%elem_of_intersection; done).
  split.
  - intros [= Hlt%Nat.ltb_lt].
    assert (A ∩ B = A) as HA.
    { apply set_subseteq_size_eq; [|lia].
      intros x [? _]%elem_of_intersection; done. }
    assert (A ∩ B = B) as HB.
    { apply set_subseteq_size_eq; [|lia].
      intros x [_ ?]%elem_of_intersection; done. }
    congruence.
  - intros <-. rewrite (idemp_L (∩) A) in *. f_equal. apply Nat.ltb_lt. lia.
Qed.

Lemma overlap_exceeds_short_titles_witness :
  overlap_exceeds (word_set "control ultimate edition")
                  (word_set "control special edition") = Ok true
  ↔ word_set "control ultimate edition" = word_set "control special edition".
Proof.
  apply overlap_exceeds_short_titles.
  - vm_compute. lia.
  - vm_compute. lia.
Defined.

(** X5: an offer without the key [title] makes the deduplicator raise
    [KeyError], and an offer whose title is not a string (a JSON [null], a
    number) makes it raise [AttributeError], when the loop reaches it. *)
Theorem remove_duplicates_bad_title
    (pre post kept : list offer) (game : offer) :
  _remove_duplicates pre = Ok kept →
  (dict_lookup game "title" = None →
   _remove_duplicates (pre ++ game :: post) = Raise KeyError)
  ∧ (∀ v, dict_lookup game "title" = Some v → (∀ s, v ≠ JStr s) →
     _remove_duplicates (pre ++ game :: post) = Raise AttributeError).
Proof.
  unfold _remove_duplicates.
  intros ([u seen] & Hloop & _)%bind_Ok_inv.
  rewrite remove_duplicates_loop_app, Hloop, bind_Ok.
  cbn [remove_duplicates_loop]. unfold remove_duplicates_step, title_lower_of, dict_getitem.
  split.
  - by intros ->.
  - intros v -> Hv. rewrite bind_Ok.
    destruct v as [| | |s| |]; try done. by destruct (Hv s).
Qed.

Lemma remove_duplicates_bad_title_witness :
  _remove_duplicates ([titled "Braid"] ++ [("title", JNull); ("platform", JStr "Epic Games Store")]
                      :: [titled "Control"])
  = Raise AttributeError.
Proof.
  apply (proj2 (remove_duplicates_bad_title [titled "Braid"] [titled "Control"]
                  [titled "Braid"]
                  [("title", JNull); ("platform", JStr "Epic Games Store")]
                  ltac:(vm_compute; reflexivity)) JNull).
  - reflexivity.
  - discriminate.
Defined.

(** X6: the outcome of the inner loop, a value or [ZeroDivisionError], does
    not depend on the order in which the set [seen_titles] is enumerated. *)
Theorem is_duplicate_order_independent
    (title_words : gset string) (seen seen' : list string) :
  seen ≡ₚ seen' →
  is_duplicate_in title_words seen = is_duplicate_in title_words seen'.
Proof. apply is_duplicate_in_Permutation. Qed.

Lemma is_duplicate_order_independent_witness :
  is_duplicate_in (word_set "braid") ["control"; "braid"]
  = is_duplicate_in (word_set "braid") ["braid"; "control"].
Proof.
  apply is_duplicate_order_independent. apply Permutation_swap.
Defined.

(** X7: on offers whose titles are strings the deduplicator raises
    [ZeroDivisionError] when two or more titles have no word character, and
    otherwise returns what [Dedupe] describes: one title without word
    character is harmless. *)
Theorem remove_duplicates_refines_Dedupe (games : list offer) :
  Forall (λ o, title_is_str o = true) games →
  _remove_duplicates games
  = if 2 <=? token_free_titles games then Raise ZeroDivisionError
    else Ok (Dedupe games).
Proof. apply remove_duplicates_exact. Qed.

Lemma remove_duplicates_refines_Dedupe_witness :
  _remove_duplicates [titled "Braid"; titled "???"; titled "braid"]
  = Ok [titled "Braid"; titled "???"].
Proof.
  rewrite (remove_duplicates_refines_Dedupe
             [titled "Braid"; titled "???"; titled "braid"]).
  - vm_compute. reflexivity.
  - repeat constructor.
Defined.

(* ================================================================== *)
(** * More on the Epic helpers and on answers of another shape *)
(* ================================================================== *)

(** X8: [_get_epic_original_price] never raises: it gives [Unknown] for a
    game that is not an object or has no [price]; when the integer
    [originalPrice] is there, it gives [Free] for zero and for a negative
    amount, and the amount in units, with two decimals, for a positive
    amount (below [2^52], where the division is exact to the cent). *)
Theorem get_epic_original_price_cases :
  (∀ game, (∀ g, game ≠ JDict g) → _get_epic_original_price game = "Unknown")
  ∧ (∀ g, dict_lookup g "price" = None →
       _get_epic_original_price (JDict g) = "Unknown")
  ∧ (∀ game z, original_price_minor game = Some z → (z ≤ 0)%Z →
       _get_epic_original_price game = "Free")
  ∧ (∀ game z, original_price_minor game = Some z → (0 < z < 2 ^ 52)%Z →
       _get_epic_original_price game
       = "$" +:+ str_of_Z (z / 100) +:+ "." +:+ two_digits (z mod 100)).
Proof.
  split; [|split; [|split]].
  - intros game Hgame. unfold _get_epic_original_price.
    destruct game as [| | |s|l|g]; try done.
    + cbn [py_in]. rewrite bind_Ok. by destruct (is_substring "price" s).
    + cbn [py_in]. rewrite bind_Ok. by destruct (existsb _ l).
    + by destruct (Hgame g).
  - intros g Hg. unfold _get_epic_original_price. cbn [py_in]. by rewrite Hg.
  - intros game z Hz Hle. rewrite (epic_original_price_of_minor _ _ Hz).
    destruct (Z.ltb_spec 0 z); [lia|done].
  - intros game z Hz [Hlt Hbound]. rewrite (epic_original_price_of_minor _ _ Hz).
    destruct (Z.ltb_spec 0 z); [|lia].
    by rewrite (format_price_exact (JInt z) z eq_refl) by lia.
Qed.

Lemma get_epic_original_price_cases_witness :
  _get_epic_original_price (sample_game "Refund" (-500)) = "Free"
  ∧ _get_epic_original_price (sample_game "Control" 2999)
    = "$" +:+ str_of_Z (2999 / 100) +:+ "." +:+ two_digits (2999 mod 100)
  ∧ _get_epic_original_price (JList [JStr "price"]) = "Unknown".
Proof.
  split; [|split].
  - apply (proj1 (proj2 (proj2 get_epic_original_price_cases))
             (sample_game "Refund" (-500)) (-500)%Z); [reflexivity | lia].
  - apply (proj2 (proj2 (proj2 get_epic_original_price_cases))
             (sample_game "Control" 2999) 2999%Z); [reflexivity | split; reflexivity].
  - apply (proj1 get_epic_original_price_cases). discriminate.
Defined.

(** X9: [_get_epic_url] never raises and always gives an address of the
    store: the root itself when the slug is missing or empty or cannot be
    read, the product page of the slug when the first mapping has one. *)
Theorem get_epic_url_cases :
  (∀ game, String.prefix "https://store.epicgames.com" (_get_epic_url game) = true)
  ∧ (∀ g, dict_lookup g "catalogNs" = None →
       _get_epic_url (JDict g) = "https://store.epicgames.com")
  ∧ (∀ g ns m rest slug,
       dict_lookup g "catalogNs" = Some (JDict ns) →
       dict_lookup ns "mappings" = Some (JList (JDict m :: rest)) →
       dict_lookup m "pageSlug" = Some (JStr slug) →
       _get_epic_url (JDict g)
       = if String.eqb slug EmptyString then "https://store.epicgames.com"
         else "https://store.epicgames.com/en-US/p/" +:+ slug).
Proof.
  split; [|split].
  - intros game. unfold _get_epic_url.
    destruct (py_get game "catalogNs" (JDict [])) as [ns|]; [|done].
    rewrite bind_Ok.
    destruct (py_get ns "mappings" (JList [JDict []])) as [ms|]; [|done].
    rewrite bind_Ok.
    destruct (py_getitem_0 ms) as [m|]; [|done].
    rewrite bind_Ok.
    destruct (py_get m "pageSlug" (JStr EmptyString)) as [slug|]; [|done].
    rewrite bind_Ok. cbn [catch_default].
    by destruct (py_truthy slug).
  - intros g Hg. unfold _get_epic_url. cbn [py_get]. unfold dict_get. by rewrite Hg.
  - intros g ns m rest slug Hg Hns Hm. unfold _get_epic_url. cbn [py_get].
    unfold dict_get. rewrite Hg, bind_Ok. cbn [py_get]. unfold dict_get.
    rewrite Hns, bind_Ok. cbn [py_getitem_0]. rewrite bind_Ok. cbn [py_get].
    unfold dict_get. rewrite Hm, bind_Ok. cbn [catch_default py_truthy py_str].
    by destruct (String.eqb slug EmptyString).
Qed.

Lemma get_epic_url_cases_witness :
  _get_epic_url
    (JDict [("catalogNs", JDict [("mappings", JList [JDict [("pageSlug", JStr "control")]])])])
  = "https://store.epicgames.com/en-US/p/control".
Proof.
  apply (proj2 (proj2 get_epic_url_cases)
           [("catalogNs", JDict [("mappings", JList [JDict [("pageSlug", JStr "control")]])])]
           [("mappings", JList [JDict [("pageSlug", JStr "control")]])]
           [("pageSlug", JStr "control")] [] "control"); reflexivity.
Defined.

Lemma first_wide_image_find images :
  Forall (λ image, ∃ d, image = JDict d) images →
  first_wide_image images
  = Ok match List.find is_wide_image images with
       | Some (JDict d) => dict_get d "url" (JStr EmptyString)
       | _ => JStr EmptyString
       end.
Proof.
  induction 1 as [|image images [d ->] _ IH]; [done|].
  cbn [first_wide_image List.find is_wide_image py_get]. rewrite bind_Ok.
  by destruct (py_eq_str (dict_get d "type" JNull) "OfferImageWide").
Qed.

(** X10: [_get_epic_image_url] never raises; on a list of image objects it
    gives the [url] of the first image of type [OfferImageWide], the empty
    string when that image has no [url], when no image is wide, and when
    the game has no [keyImages]. *)
Theorem get_epic_image_url_first_wide :
  (∀ g, dict_lookup g "keyImages" = None →
     _get_epic_image_url (JDict g) = JStr EmptyString)
  ∧ (∀ g images,
       dict_lookup g "keyImages" = Some (JList images) →
       Forall (λ image, ∃ d, image = JDict d) images →
       _get_epic_image_url (JDict g)
       = match List.find is_wide_image images with
         | Some (JDict d) => dict_get d "url" (JStr EmptyString)
         | _ => JStr EmptyString
         end).
Proof.
  split.
  - intros g Hg. unfold _get_epic_image_url. cbn [py_in]. by rewrite Hg.
  - intros g images Hg Himages. unfold _get_epic_image_url. cbn [py_in py_getitem].
    unfold dict_getitem. rewrite Hg. rewrite bool_decide_eq_true_2 by eauto.
    rewrite !bind_Ok. cbn [py_iter]. rewrite bind_Ok.
    by rewrite (first_wide_image_find images Himages).
Qed.

Lemma get_epic_image_url_first_wide_witness :
  _get_epic_image_url
    (JDict [("keyImages",
             JList [JDict [("type", JStr "Thumbnail"); ("url", JStr "https://cdn.example/t.png")];
                    JDict [("type", JStr "OfferImageWide"); ("url", JStr "https://cdn.example/w.png")]])])
  = JStr "https://cdn.example/w.png".
Proof.
  apply (proj2 get_epic_image_url_first_wide
           [("keyImages",
             JList [JDict [("type", JStr "Thumbnail"); ("url", JStr "https://cdn.example/t.png")];
                    JDict [("type", JStr "OfferImageWide"); ("url", JStr "https://cdn.example/w.png")]])]
           [JDict [("type", JStr "Thumbnail"); ("url", JStr "https://cdn.example/t.png")];
            JDict [("type", JStr "OfferImageWide"); ("url", JStr "https://cdn.example/w.png")]]).
  - reflexivity.
  - repeat constructor; eexists; reflexivity.
Defined.

(** X11: an answer that is an object without the expected top-level key
    is not a failure for the two JSON scrapers: they return no offer and
    log no error, only their two information records. *)
Theorem json_scrapers_ignore_other_shapes (d : dict) (log : list log_record) :
  (dict_lookup d "data" = None →
   scrape_epic_games (Ok (Response true (Some (JDict d)))) (ScraperState [] log)
   = (Ok [],
      ScraperState []
        (log ++ [LogRecord INFO "Scraping Epic Games Store..." None]
             ++ [LogRecord INFO "Found 0 free games on Epic Games Store" None])))
  ∧ (dict_lookup d "specials" = None →
     scrape_steam_weekend_deals (Ok (Response true (Some (JDict d))))
       (ScraperState [] log)
     = (Ok [],
        ScraperState []
          (log ++ [LogRecord INFO "Scraping Steam for weekend deals..." None]
               ++ [LogRecord INFO "Found 0 free games on Steam" None]))).
Proof.
  split; intros Hd.
  - unfold scrape_epic_games.
    rewrite (shell_run _ _
      (λ n, "Found " +:+ str_of_nat n +:+ " free games on Epic Games Store")).
    unfold epic_try. rewrite prog_bind_run, lift_run.
    rewrite prog_bind_run. cbn [raise_for_status status_ok lift].
    rewrite prog_bind_run, lift_run. cbn [response_json payload].
    rewrite prog_bind_run, lift_run. unfold epic_has_catalog. cbn [py_in].
    rewrite Hd. cbn. by rewrite <- app_assoc.
  - unfold scrape_steam_weekend_deals.
    rewrite (shell_run _ _ (λ n, "Found " +:+ str_of_nat n +:+ " free games on Steam")).
    unfold steam_try. rewrite prog_bind_run, lift_run.
    rewrite prog_bind_run. cbn [raise_for_status status_ok lift].
    rewrite prog_bind_run, lift_run. cbn [response_json payload].
    rewrite prog_bind_run, lift_run. unfold steam_has_specials. cbn [py_in].
    rewrite Hd. cbn. by rewrite <- app_assoc.
Qed.

Lemma json_scrapers_ignore_other_shapes_witness :
  scrape_epic_games (Ok (Response true (Some (JDict [("errors", JList [])]))))
    (ScraperState [] [])
  = (Ok [],
     ScraperState []
       ([] ++ [LogRecord INFO "Scraping Epic Games Store..." None]
           ++ [LogRecord INFO "Found 0 free games on Epic Games Store" None])).
Proof.
  apply (proj1 (json_scrapers_ignore_other_shapes [("errors", JList [])] [])).
  reflexivity.
Defined.

(* ================================================================== *)
(** * The storefronts read through BeautifulSoup *)
(* ================================================================== *)

Section Pages.

(** A loop whose turn appends at most one offer, chosen by [keep]. *)
Lemma for_each_keep {A} (keep : A → option offer) (body : A → prog scraper_state unit)
    (xs : list A) :
  (∀ x s, body x s
          = (Ok (), ScraperState (sc_games s ++ option_list (keep x)) (sc_log s))) →
  ∀ s, for_each xs body s
       = (Ok (), ScraperState (sc_games s ++ omap keep xs) (sc_log s)).
Proof.
  intros Hbody. induction xs as [|x xs IH]; intros s.
  - cbn. rewrite app_nil_r. by destruct s.
  - cbn [for_each omap list_omap]. rewrite prog_bind_run, Hbody, IH.
    cbn [sc_games sc_log]. rewrite <- app_assoc.
    by destruct (keep x).
Qed.

Lemma omap_length_le {A B} (f : A → option B) (xs : list A) :
  List.length (omap f xs) ≤ List.length xs.
Proof.
  induction xs as [|x xs IH]; cbn; [done|]. destruct (f x); cbn; lia.
Qed.

Lemma state_append_nil s : ScraperState (sc_games s ++ []) (sc_log s) = s.
Proof. destruct s. cbn. by rewrite app_nil_r. Qed.

Lemma gog_element_keep title_text s :
  gog_element title_text s
  = (Ok (), ScraperState (sc_games s ++ option_list (gog_kept title_text)) (sc_log s)).
Proof.
  destruct title_text as [title|]; cbn [gog_element gog_kept];
    [|by rewrite state_append_nil].
  destruct title as [|c title]; [by rewrite state_append_nil|].
  cbn [String.eqb negb andb].
  destruct (3 <? String.length (String c title)); [done|]. by rewrite state_append_nil.
Qed.

Lemma amazon_element_keep title_text s :
  amazon_element title_text s
  = (Ok (),
     ScraperState (sc_games s ++ option_list (amazon_kept title_text)) (sc_log s)).
Proof.
  destruct title_text as [title|]; cbn [amazon_element amazon_kept];
    [|by rewrite state_append_nil].
  destruct title as [|c title]; [by rewrite state_append_nil|].
  cbn [String.eqb negb andb].
  destruct (3 <? String.length (String c title)); [done|]. by rewrite state_append_nil.
Qed.


Lemma ubisoft_element_keep card s :
  ubisoft_element card s
  = (Ok (),
     ScraperState (sc_games s ++ option_list (ubisoft_kept card)) (sc_log s)).
Proof.
  destruct card as [[title|] [price|]];
    cbn [ubisoft_element ubisoft_kept ubisoft_title ubisoft_price];
    try by rewrite state_append_nil.
  destruct (_ && _); [done|]. by rewrite state_append_nil.
Qed.

(** The call of a scraper whose [try] block is a loop over the page. *)
Lemma page_call {A B}
    (scraper : result (response A) → prog scraper_state (list offer))
    (try_block : result (response A) → prog scraper_state unit)
    (items : response A → list B) (body : B → prog scraper_state unit)
    (keep : B → option offer) message :
  fault_isolating scraper try_block message →
  (∀ fetched,
     try_block fetched
     = (resp ← lift fetched; raise_for_status resp;; for_each (items resp) body)) →
  (∀ x s, body x s
          = (Ok (), ScraperState (sc_games s ++ option_list (keep x)) (sc_log s))) →
  ∀ fetched,
    call (scraper fetched)
    = Ok match fetched with
         | Ok resp => if status_ok resp then omap keep (items resp) else []
         | Raise _ => []
         end.
Proof.
  intros Hiso Htry Hbody fetched. unfold call.
  destruct (Hiso fetched (ScraperState [] [])) as (started & finished & Hrun).
  rewrite Htry in Hrun. rewrite prog_bind_run, lift_run in Hrun.
  destruct fetched as [[ok p]|e].
  - rewrite prog_bind_run in Hrun. cbn [raise_for_status status_ok lift] in Hrun.
    destruct ok.
    + rewrite (for_each_keep keep body _ Hbody) in Hrun.
      destruct Hrun as [-> _]. done.
    + destruct Hrun as [-> _]. done.
  - destruct Hrun as [-> _]. done.
Qed.

End Pages.

(** X12: the GOG scraper returns, in the order of the page, one offer per
    giveaway element whose title element has more than three characters,
    with that text as title; it returns nothing when the request fails. *)
Theorem scrape_gog_giveaways_result (fetched : result (response (list (option string)))) :
  call (scrape_gog_giveaways fetched)
  = Ok match fetched with
       | Ok resp => if status_ok resp then omap gog_kept (payload resp) else []
       | Raise _ => []
       end.
Proof.
  apply (page_call _ gog_try payload gog_element gog_kept _ gog_isolating).
  - done.
  - apply gog_element_keep.
Qed.


(** X14: the Ubisoft scraper reads the first ten cards only and keeps a
    card when it has a title of more than three characters and a price
    text containing [free], in any case: at most ten offers. *)
Theorem scrape_ubisoft_connect_result (fetched : result (response (list ubisoft_card))) :
  call (scrape_ubisoft_connect fetched)
  = Ok match fetched with
       | Ok resp =>
           if status_ok resp then omap ubisoft_kept (take 10 (payload resp)) else []
       | Raise _ => []
       end
  ∧ ∃ games, call (scrape_ubisoft_connect fetched) = Ok games
             ∧ List.length games ≤ 10.
Proof.
  assert (call (scrape_ubisoft_connect fetched)
          = Ok match fetched with
               | Ok resp =>
                   if status_ok resp
                   then omap ubisoft_kept (take 10 (payload resp)) else []
               | Raise _ => []
               end) as Hcall.
  { apply (page_call _ ubisoft_try (λ r, take 10 (payload r))
             ubisoft_element ubisoft_kept _ ubisoft_isolating).
    - done.
    - apply ubisoft_element_keep. }
  split; [done|]. eexists. split; [exact Hcall|].
  destruct fetched as [[[] p]|e]; cbn; try lia.
  etrans; [apply omap_length_le|]. rewrite length_take. lia.
Qed.

(** X15: the Amazon scraper reads the first ten offer elements only and
    keeps those whose title element has more than three characters: at
    most ten offers, each priced [Free (Prime Required)]. *)
Theorem scrape_amazon_prime_gaming_result
    (fetched : result (response (list (option string)))) :
  call (scrape_amazon_prime_gaming fetched)
  = Ok match fetched with
       | Ok resp =>
           if status_ok resp then omap amazon_kept (take 10 (payload resp)) else []
       | Raise _ => []
       end
  ∧ ∃ games, call (scrape_amazon_prime_gaming fetched) = Ok games
             ∧ List.length games ≤ 10.
Proof.
  assert (call (scrape_amazon_prime_gaming fetched)
          = Ok match fetched with
               | Ok resp =>
                   if status_ok resp
                   then omap amazon_kept (take 10 (payload resp)) else []
               | Raise _ => []
               end) as Hcall.
  { apply (page_call _ amazon_try (λ r, take 10 (payload r))
             amazon_element amazon_kept _ amazon_isolating).
    - done.
    - apply amazon_element_keep. }
  split; [done|]. eexists. split; [exact Hcall|].
  destruct fetched as [[[] p]|e]; cbn; try lia.
  etrans; [apply omap_length_le|]. rewrite length_take. lia.
Qed.

(** X16: the Microsoft Store scraper returns no offer, whatever the store
    answers; a failed request only adds an error record to its log. *)
Theorem scrape_microsoft_store_empty (fetched : result (response unit)) :
  call (scrape_microsoft_store fetched) = Ok []
  ∧ ∀ e, fetched = Raise e →
      LogRecord ERROR "Error scraping Microsoft Store: " (Some e)
      ∈ sc_log (snd (scrape_microsoft_store fetched (ScraperState [] []))).
Proof.
  split.
  - unfold call.
    destruct (microsoft_isolating fetched (ScraperState [] []))
      as (started & finished & Hrun).
    unfold microsoft_try in Hrun. rewrite prog_bind_run, lift_run in Hrun.
    destruct fetched as [[[] p]|e]; cbn in Hrun; by destruct Hrun as [-> _].
  - intros e ->. vm_compute. apply list_elem_of_further, list_elem_of_here.
Qed.

Lemma scrape_microsoft_store_empty_witness :
  LogRecord ERROR "Error scraping Microsoft Store: " (Some RequestException)
  ∈ sc_log (snd (scrape_microsoft_store (Raise RequestException) (ScraperState [] []))).
Proof.
  apply (proj2 (scrape_microsoft_store_empty (Raise RequestException))). reflexivity.
Defined.

(* ================================================================== *)
(** * More on the orchestrator, the sinks and the entry point *)
(* ================================================================== *)

(** X17: the loop of the orchestrator logs one record per future, in the
    order of completion, [Completed] for a future that returned and the
    error for one that raised, and touches nothing else. *)
Theorem gather_logs_each_future
    (completed : list (string * result (list offer))) (all_games : list offer)
    (w : world) :
  journal (snd (gather completed all_games w)) = journal w ++ gather_records completed
  ∧ List.length (gather_records completed) = List.length completed
  ∧ files (snd (gather completed all_games w)) = files w
  ∧ console (snd (gather completed all_games w)) = console w
  ∧ free_games (snd (gather completed all_games w)) = free_games w.
Proof.
  rewrite gather_run. destruct w. cbn.
  repeat split. unfold gather_records. by rewrite length_map.
Qed.

(** X18: [scrape_all_platforms_threaded] stores in [self.free_games] the
    list it returns, so that [get_current_free_games] gives it back; when
    the deduplicator raises, the exception goes through and
    [self.free_games] keeps the list it had. *)
Theorem scrape_all_platforms_threaded_stores
    (completed : list (string * result (list offer))) (w : world) :
  fst ((scrape_all_platforms_threaded completed;; get_current_free_games) w)
  = _remove_duplicates (returned_offers completed)
  ∧ (∀ e, _remove_duplicates (returned_offers completed) = Raise e →
       fst (scrape_all_platforms_threaded completed w) = Raise e
       ∧ free_games (snd (scrape_all_platforms_threaded completed w)) = free_games w).
Proof.
  split.
  - rewrite prog_bind_run.
    destruct (_remove_duplicates (returned_offers completed)) as [unique|e] eqn:Hd.
    + rewrite (scrape_all_platforms_threaded_run _ _ _ Hd). reflexivity.
    + destruct w as [fg co jo fi wr cl ti].
      unfold scrape_all_platforms_threaded. rewrite prog_bind_run.
      unfold logger_info at 1. cbv beta iota.
      rewrite prog_bind_run, gather_run. cbn [app].
      by rewrite prog_bind_run, lift_run, Hd.
  - intros e Hd.
    assert (∃ j, scrape_all_platforms_threaded completed w = (Raise e, set_journal j w))
      as [j ->].
    { destruct w as [fg co jo fi wr cl ti].
      unfold scrape_all_platforms_threaded. rewrite prog_bind_run.
      unfold logger_info at 1. cbv beta iota.
      rewrite prog_bind_run, gather_run. cbn [app].
      rewrite prog_bind_run, lift_run, Hd. eexists. reflexivity. }
    by destruct w.
Qed.

Lemma scrape_all_platforms_threaded_stores_witness :
  fst (scrape_all_platforms_threaded
         [("scrape_itchio_sales", Ok [titled "..."; titled "???"])] fresh_world)
  = Raise ZeroDivisionError
  ∧ free_games (snd (scrape_all_platforms_threaded
                       [("scrape_itchio_sales", Ok [titled "..."; titled "???"])]
                       fresh_world))
    = free_games fresh_world.
Proof.
  apply (proj2 (scrape_all_platforms_threaded_stores
                  [("scrape_itchio_sales", Ok [titled "..."; titled "???"])]
                  fresh_world)).
  vm_compute. reflexivity.
Defined.

Section MoreSinks.

Lemma py_eq_atom_str p x : py_eq_atom (JStr p) x = true ↔ x = JStr p.
Proof.
  destruct x as [| | |s| |]; cbn; try (split; [done|discriminate]).
  rewrite String.eqb_eq. split; congruence.
Qed.

Lemma atom_in_str p members : atom_in (JStr p) members = true ↔ JStr p ∈ members.
Proof.
  unfold atom_in. rewrite existsb_exists. split.
  - intros (x & Hx & ->%py_eq_atom_str). by apply list_elem_of_In.
  - intros Hin. exists (JStr p). split; [by apply list_elem_of_In|].
    by apply py_eq_atom_str.
Qed.

Lemma platform_set_strings games : ∀ members,
  Forall platform_is_str games → NoDup members →
  ∃ platforms,
    platform_set games members = Ok platforms
    ∧ NoDup platforms
    ∧ ∀ x, x ∈ platforms
           ↔ x ∈ members
             ∨ ∃ game p, game ∈ games ∧ dict_lookup game "platform" = Some (JStr p)
                         ∧ x = JStr p.
Proof.
  induction games as [|game games IH]; intros members Hg Hnd.
  - exists members. cbn. split; [done|]. split; [done|]. intros x. split; [by left|].
    intros [?|(g & p & ?%elem_of_nil & _)]; done.
  - apply Forall_cons in Hg as [[p Hp] Hg]. cbn [platform_set].
    unfold dict_get. rewrite Hp. cbn [py_hashable].
    destruct (atom_in (JStr p) members) eqn:Hin.
    + destruct (IH members Hg Hnd) as (ps & -> & Hps & Hiff).
      exists ps. split; [done|]. split; [done|]. intros x. rewrite Hiff. split.
      * intros [?|(g & q & Hgin & Hq & ->)]; [by left|].
        right. exists g, q. split; [by apply list_elem_of_further|done].
      * intros [?|(g & q & [->|Hgin]%elem_of_cons & Hq & ->)]; [by left| |].
        -- left. rewrite Hp in Hq. injection Hq as <-. by apply atom_in_str.
        -- right. by exists g, q.
    + assert (JStr p ∉ members) as Hnotin.
      { intros Hm%atom_in_str. congruence. }
      destruct (IH (members ++ [JStr p]) Hg) as (ps & -> & Hps & Hiff).
      { apply NoDup_app. split; [done|]. split; [|apply NoDup_singleton].
        intros x Hx ->%list_elem_of_singleton. done. }
      exists ps. split; [done|]. split; [done|]. intros x. rewrite Hiff. split.
      * intros [[?| ->%list_elem_of_singleton]%elem_of_app|(g & q & Hgin & Hq & ->)].
        -- by left.
        -- right. exists game, p. split; [apply list_elem_of_here|done].
        -- right. exists g, q. split; [by apply list_elem_of_further|done].
      * intros [?|(g & q & [->|Hgin]%elem_of_cons & Hq & ->)].
        -- left. apply elem_of_app. by left.
        -- left. rewrite Hp in Hq. injection Hq as <-.
           apply elem_of_app. right. apply list_elem_of_here.
        -- right. by exists g, q.
Qed.

End MoreSinks.

Section SinkCases.

Lemma save_to_json_cases filename w :
  save_to_json filename w
  = if writable w filename
    then match platform_set (free_games w) [] with
         | Ok platforms =>
             (Ok (),
              World (free_games w) (console w)
                (journal w ++ [LogRecord INFO
                                 ("Saved " +:+ str_of_nat (List.length (free_games w))
                                  +:+ " games to " +:+ filename) None])
                (<[filename := JsonFile (json_document (clock w (ticks w)) platforms
                                           (free_games w))]> (files w))
                (writable w) (clock w) (S (ticks w)))
         | Raise e =>
             (Ok (),
              World (free_games w) (console w)
                (journal w ++ [LogRecord ERROR "Error saving to JSON: " (Some e)])
                (<[filename := EmptyFile]> (files w))
                (writable w) (clock w) (S (ticks w)))
         end
    else (Ok (),
          set_journal
            (journal w ++ [LogRecord ERROR "Error saving to JSON: " (Some OSError)]) w).
Proof.
  destruct w as [fg co jo fi wr cl ti].
  cbn [free_games console journal files writable clock ticks].
  unfold save_to_json, try_except.
  rewrite prog_bind_run. unfold open_w. cbn [writable].
  destruct (wr filename); [|reflexivity].
  rewrite prog_bind_run. unfold now. cbv beta iota.
  rewrite prog_bind_run. unfold get_free_games. cbv beta iota.
  cbn [free_games console journal files writable clock ticks
       set_free_games set_console set_journal set_files set_ticks].
  rewrite prog_bind_run, lift_run.
  destruct (platform_set fg []) as [platforms|e]; [|reflexivity].
  rewrite prog_bind_run. unfold write_file, logger_info, set_files. cbn.
  by rewrite insert_insert_eq.
Qed.

Lemma save_to_csv_cases filename w :
  save_to_csv filename w
  = match free_games w with
    | [] =>
        (Ok (),
         set_journal (journal w ++ [LogRecord WARNING "No games to save" None]) w)
    | _ =>
        if writable w filename
        then (Ok (),
              World (free_games w) (console w)
                (journal w ++ [LogRecord INFO
                                 ("Saved " +:+ str_of_nat (List.length (free_games w))
                                  +:+ " games to " +:+ filename) None])
                (<[filename := CsvFile fieldnames
                                 (expected_csv_rows (clock w) (ticks w) (free_games w))]>
                   (files w))
                (writable w) (clock w) (ticks w + List.length (free_games w)))
        else (Ok (),
              set_journal
                (journal w ++ [LogRecord ERROR "Error saving to CSV: " (Some OSError)])
                w)
    end.
Proof.
  destruct (free_games w) as [|game games] eqn:Hg.
  - by apply save_to_csv_empty.
  - destruct (writable w filename) eqn:Hw.
    + rewrite <- Hg. apply save_to_csv_run; [by rewrite Hg | done].
    + destruct w as [fg co jo fi wr cl ti].
      cbn [free_games writable] in Hg, Hw. subst fg.
      unfold save_to_csv, try_except. rewrite prog_bind_run.
      unfold get_free_games. cbv beta iota. cbn [free_games].
      rewrite prog_bind_run. unfold open_w. cbn [writable]. by rewrite Hw.
Qed.

End SinkCases.

(** X19: [save_to_json] never raises and never changes [self.free_games].
    When the file cannot be opened it leaves the files as they are and logs
    the error.  It opens the file before it builds the document: when a
    platform is a list or an object, which cannot be a member of a set, the
    file is left empty and the error is logged. *)
Theorem save_to_json_never_raises (filename : string) (w : world) :
  fst (save_to_json filename w) = Ok ()
  ∧ free_games (snd (save_to_json filename w)) = free_games w
  ∧ (writable w filename = false →
     files (snd (save_to_json filename w)) = files w
     ∧ LogRecord ERROR "Error saving to JSON: " (Some OSError)
       ∈ journal (snd (save_to_json filename w)))
  ∧ (writable w filename = true →
     ∀ e, platform_set (free_games w) [] = Raise e →
       files (snd (save_to_json filename w)) !! filename = Some EmptyFile
       ∧ LogRecord ERROR "Error saving to JSON: " (Some e)
         ∈ journal (snd (save_to_json filename w))).
Proof.
  rewrite save_to_json_cases.
  destruct (writable w filename) eqn:Hw.
  - destruct (platform_set (free_games w) []) as [platforms|e] eqn:Hp.
    + do 2 (split; [done|]). split; [done|]. by intros _ e.
    + do 2 (split; [done|]). split; [done|]. intros _ e' [= <-].
      cbn [snd files journal]. split; [apply lookup_insert_eq|].
      apply elem_of_app. right. apply list_elem_of_here.
  - split; [done|]. split; [by destruct w|]. split; [|done]. intros _.
    destruct w; cbn. split; [done|]. apply elem_of_app. right. apply list_elem_of_here.
Qed.

Lemma save_to_json_never_raises_witness :
  files (snd (save_to_json "free_games.json"
                (set_free_games [[("title", JStr "Braid"); ("platform", JList [])]]
                   fresh_world)))
    !! "free_games.json" = Some EmptyFile
  ∧ LogRecord ERROR "Error saving to JSON: " (Some TypeError)
    ∈ journal (snd (save_to_json "free_games.json"
                      (set_free_games [[("title", JStr "Braid"); ("platform", JList [])]]
                         fresh_world))).
Proof.
  apply (proj2 (proj2 (proj2 (save_to_json_never_raises "free_games.json"
           (set_free_games [[("title", JStr "Braid"); ("platform", JList [])]]
              fresh_world))))).
  - reflexivity.
  - reflexivity.
Defined.

(** X20: [save_to_csv] never raises and never changes [self.free_games].
    When there are offers and the file cannot be opened, it leaves the
    files as they are and logs the error. *)
Theorem save_to_csv_never_raises (filename : string) (w : world) :
  fst (save_to_csv filename w) = Ok ()
  ∧ free_games (snd (save_to_csv filename w)) = free_games w
  ∧ (free_games w ≠ [] → writable w filename = false →
     files (snd (save_to_csv filename w)) = files w
     ∧ LogRecord ERROR "Error saving to CSV: " (Some OSError)
       ∈ journal (snd (save_to_csv filename w))).
Proof.
  rewrite save_to_csv_cases.
  destruct (free_games w) as [|game games] eqn:Hg.
  - split; [done|]. split; [by destruct w|]. by intros [].
  - destruct (writable w filename) eqn:Hw.
    + split; [done|]. split; [done|]. by intros _ ?.
    + split; [done|]. split; [by destruct w|]. intros _ _.
      destruct w; cbn. split; [done|]. apply elem_of_app. right. apply list_elem_of_here.
Qed.

Lemma save_to_csv_never_raises_witness :
  let w := World [titled "Braid"] [] [] ∅ (λ _, false) (λ _, "T") 0 in
  files (snd (save_to_csv "free_games.csv" w)) = files w
  ∧ LogRecord ERROR "Error saving to CSV: " (Some OSError)
    ∈ journal (snd (save_to_csv "free_games.csv" w)).
Proof.
  intros w.
  apply (proj2 (proj2 (save_to_csv_never_raises "free_games.csv" w))).
  - discriminate.
  - reflexivity.
Defined.

(** X21: the document [save_to_json] writes, when the platforms of the
    offers are strings and the file can be opened, replaces what the file
    held; it carries the offers as they are and in their order, their
    number, and the platforms: each platform of an offer once, and no
    other. *)
Theorem save_to_json_document (filename : string) (w : world) :
  writable w filename = true →
  Forall platform_is_str (free_games w) →
  ∃ platforms,
    files (snd (save_to_json filename w)) !! filename
    = Some (JsonFile
              (JDict [("scraped_at", JStr (clock w (ticks w)));
                      ("total_games", JInt (Z.of_nat (List.length (free_games w))));
                      ("platforms", JList platforms);
                      ("games", JList (map JDict (free_games w)))]))
    ∧ NoDup platforms
    ∧ ∀ x, x ∈ platforms
           ↔ ∃ game p, game ∈ free_games w
                       ∧ dict_lookup game "platform" = Some (JStr p) ∧ x = JStr p.
Proof.
  intros Hw Hstr.
  destruct (platform_set_strings (free_games w) [] Hstr (NoDup_nil_2))
    as (platforms & Hp & Hnd & Hiff).
  exists platforms. rewrite save_to_json_cases, Hw, Hp. cbn [snd files].
  split; [apply lookup_insert_eq|]. split; [done|].
  intros x. rewrite Hiff. split; [|by right].
  by intros [?%elem_of_nil|?].
Qed.

Lemma save_to_json_document_witness :
  let w := set_free_games [sample_control_offer; sample_control_offer] fresh_world in
  ∃ platforms,
    files (snd (save_to_json "free_games.json" w)) !! "free_games.json"
    = Some (JsonFile
              (JDict [("scraped_at", JStr (clock w (ticks w)));
                      ("total_games", JInt (Z.of_nat (List.length (free_games w))));
                      ("platforms", JList platforms);
                      ("games", JList (map JDict (free_games w)))]))
    ∧ NoDup platforms
    ∧ ∀ x, x ∈ platforms
           ↔ ∃ game p, game ∈ free_games w
                       ∧ dict_lookup game "platform" = Some (JStr p) ∧ x = JStr p.
Proof.
  intros w. apply (save_to_json_document "free_games.json" w).
  - reflexivity.
  - repeat constructor; eexists; reflexivity.
Defined.

(** X22: in the CSV file the row of an offer carries its title, its
    platform and its url as they are, when they are strings, in the first,
    second and fifth cells, an empty cell for an [end_date] that is [None],
    and nine cells in all. *)
Theorem save_to_csv_keeps_strings
    (filename : string) (w : world) (i : nat) (game : offer) (t p u : string) :
  writable w filename = true →
  free_games w !! i = Some game →
  dict_lookup game "title" = Some (JStr t) →
  dict_lookup game "platform" = Some (JStr p) →
  dict_lookup game "url" = Some (JStr u) →
  ∃ header rows row,
    files (snd (save_to_csv filename w)) !! filename = Some (CsvFile header rows)
    ∧ rows !! i = Some row
    ∧ List.length row = List.length header
    ∧ row !! 0 = Some t ∧ row !! 1 = Some p ∧ row !! 4 = Some u
    ∧ (dict_lookup game "end_date" = Some JNull → row !! 5 = Some EmptyString).
Proof.
  intros Hw Hi Ht Hp Hu.
  assert (free_games w ≠ []) as Hne by (intros Hnil; by rewrite Hnil in Hi).
  rewrite (save_to_csv_run _ _ Hne Hw). cbn [snd files].
  eexists _, _, _. split; [apply lookup_insert_eq|].
  split; [by apply expected_csv_rows_lookup|].
  unfold expected_csv_row. cbn [map app]. rewrite Ht, Hp, Hu. cbn.
  repeat split. by intros ->.
Qed.

Lemma save_to_csv_keeps_strings_witness :
  ∃ header rows row,
    files (snd (save_to_csv "free_games.csv"
                  (set_free_games [sample_control_offer] fresh_world)))
      !! "free_games.csv" = Some (CsvFile header rows)
    ∧ rows !! 0 = Some row
    ∧ List.length row = List.length header
    ∧ row !! 0 = Some "Control" ∧ row !! 1 = Some "Epic Games Store"
    ∧ row !! 4 = Some "https://store.epicgames.com"
    ∧ (dict_lookup sample_control_offer "end_date" = Some JNull →
       row !! 5 = Some EmptyString).
Proof.
  apply (save_to_csv_keeps_strings "free_games.csv"
           (set_free_games [sample_control_offer] fresh_world) 0 sample_control_offer);
    reflexivity.
Defined.

(* ================================================================== *)
(** * More on the summary and the entry point *)
(* ================================================================== *)

Section Summary.

Lemma py_eq_atom_str_r x p : py_eq_atom x (JStr p) = true ↔ x = JStr p.
Proof.
  destruct x as [| | |s| |]; cbn; try (split; [done|discriminate]).
  rewrite String.eqb_eq. split; congruence.
Qed.

Lemma filter_nil_all {A} (f : A → bool) xs :
  (∀ x, x ∈ xs → f x = false) → List.filter f xs = [].
Proof.
  induction xs as [|x xs IH]; intros Hf; [done|]. cbn.
  rewrite (Hf x (list_elem_of_here _ _)). apply IH. intros y Hy. apply Hf.
  by apply list_elem_of_further.
Qed.

Lemma filter_snoc {A} (f : A → bool) xs x :
  List.filter f (xs ++ [x]) = List.filter f xs ++ (if f x then [x] else []).
Proof. by rewrite List.filter_app. Qed.

(** The keys after [platforms[platform].append(game)]. *)
Lemma group_add_keys platforms p game :
  map fst (group_add platforms (JStr p) game)
  = map fst platforms
    ++ (if atom_in (JStr p) (map fst platforms) then [] else [JStr p]).
Proof.
  induction platforms as [|[q ms] platforms IH]; [done|].
  cbn [group_add map fst atom_in existsb].
  destruct (py_eq_atom (JStr p) q) eqn:Hq; cbn [orb map fst app].
  - by rewrite app_nil_r.
  - fold (atom_in (JStr p) (map fst platforms)). by rewrite IH.
Qed.

(** The entries after [platforms[platform].append(game)]. *)
Lemma group_add_elem platforms p game q ms :
  NoDup (map fst platforms) →
  (q, ms) ∈ group_add platforms (JStr p) game →
  (q ≠ JStr p ∧ (q, ms) ∈ platforms)
  ∨ (q = JStr p
     ∧ ((∃ ms0, (q, ms0) ∈ platforms ∧ ms = ms0 ++ [game])
        ∨ (¬ (JStr p ∈ map fst platforms) ∧ ms = [game]))).
Proof.
  induction platforms as [|[q' ms'] platforms IH]; intros Hnd.
  - cbn. intros [= -> ->]%list_elem_of_singleton. right. split; [done|]. right.
    split; [|done]. apply not_elem_of_nil.
  - cbn [map fst] in Hnd. apply NoDup_cons in Hnd as [Hq' Hnd].
    cbn [group_add]. destruct (py_eq_atom (JStr p) q') eqn:Heq.
    + apply py_eq_atom_str in Heq as ->.
      intros [[= -> ->]|Hin]%elem_of_cons.
      * right. split; [done|]. left. exists ms'. split; [apply list_elem_of_here|done].
      * left. split; [|by apply list_elem_of_further].
        intros ->. apply Hq'. apply list_elem_of_fmap. by exists (JStr p, ms).
    + assert (q' ≠ JStr p) as Hne.
      { intros ->. cbn in Heq. by rewrite String.eqb_refl in Heq. }
      intros [[= -> ->]|Hin]%elem_of_cons.
      * left. split; [done|apply list_elem_of_here].
      * destruct (IH Hnd Hin) as [[? ?]|[-> [(ms0 & ? & ->)|[Hnot ->]]]].
        -- left. split; [done|by apply list_elem_of_further].
        -- right. split; [done|]. left. exists ms0.
           split; [by apply list_elem_of_further|done].
        -- right. split; [done|]. right. split; [|done].
           cbn [map fst]. intros [?|?]%elem_of_cons; [congruence|done].
Qed.

Lemma group_add_so_far platforms seen game p :
  grouped_so_far platforms seen →
  dict_get game "platform" (JStr "Unknown") = JStr p →
  grouped_so_far (group_add platforms (JStr p) game) (seen ++ [game]).
Proof.
  intros (Hnd & Hms & Hkeys) Hp. split; [|split].
  - rewrite group_add_keys.
    destruct (atom_in (JStr p) (map fst platforms)) eqn:Hin.
    + by rewrite app_nil_r.
    + apply NoDup_app. split; [done|]. split; [|apply NoDup_singleton].
      intros x Hx ->%list_elem_of_singleton.
      apply atom_in_str in Hx. congruence.
  - intros q ms Hin. rewrite filter_snoc. unfold on_platform at 2. rewrite Hp.
    destruct (group_add_elem _ _ _ _ _ Hnd Hin)
      as [[Hne Hold]|[-> [(ms0 & Hold & ->)|[Hnot ->]]]].
    + destruct (Hms _ _ Hold) as [Hnil ->]. split; [done|].
      destruct (py_eq_atom (JStr p) q) eqn:Heq.
      * apply py_eq_atom_str in Heq. congruence.
      * by rewrite app_nil_r.
    + destruct (Hms _ _ Hold) as [Hnil ->].
      cbn [py_eq_atom]. rewrite String.eqb_refl. split; [|done].
      intros [? _]%app_eq_nil. done.
    + cbn [py_eq_atom]. rewrite String.eqb_refl. split; [done|].
      assert (List.filter (on_platform (JStr p)) seen = []) as ->; [|done].
      apply filter_nil_all. intros g Hg.
      destruct (on_platform (JStr p) g) eqn:Hon; [|done].
      apply py_eq_atom_str_r in Hon. specialize (Hkeys g Hg). by rewrite Hon in Hkeys.
  - intros g [Hg| ->%list_elem_of_singleton]%elem_of_app; rewrite group_add_keys.
    + apply elem_of_app. left. by apply Hkeys.
    + rewrite Hp. destruct (atom_in (JStr p) (map fst platforms)) eqn:Hin.
      * rewrite app_nil_r. by apply atom_in_str.
      * apply elem_of_app. right. apply list_elem_of_here.
Qed.

Lemma group_by_platform_so_far games : ∀ platforms seen,
  Forall platform_is_str games →
  grouped_so_far platforms seen →
  ∃ grouped, group_by_platform games platforms = Ok grouped
             ∧ grouped_so_far grouped (seen ++ games).
Proof.
  induction games as [|game games IH]; intros platforms seen Hstr Hinv.
  - exists platforms. by rewrite app_nil_r.
  - apply Forall_cons in Hstr as [[p Hp] Hstr]. cbn [group_by_platform].
    assert (dict_get game "platform" (JStr "Unknown") = JStr p) as Hget
      by (unfold dict_get; by rewrite Hp).
    rewrite Hget. cbn [py_hashable].
    destruct (IH (group_add platforms (JStr p) game) (seen ++ [game]) Hstr)
      as (grouped & -> & Hg); [by apply group_add_so_far|].
    exists grouped. split; [done|]. by rewrite <- app_assoc in Hg.
Qed.

Lemma group_by_platform_unhashable games : ∀ platforms,
  Exists (λ game, py_hashable (dict_get game "platform" (JStr "Unknown")) = false)
    games →
  group_by_platform games platforms = Raise TypeError.
Proof.
  induction games as [|game games IH]; intros platforms Hex.
  - by apply Exists_nil in Hex.
  - cbn [group_by_platform].
    destruct (py_hashable (dict_get game "platform" (JStr "Unknown"))) eqn:Hh;
      [|done].
    apply IH. apply Exists_cons in Hex as [Hex|Hex]; [congruence|done].
Qed.

Lemma print_game_run game w :
  has_title game →
  print_game game w = (Ok (), set_console (console w ++ game_lines game) w).
Proof.
  intros [title Htitle]. unfold print_game, game_lines, dict_getitem, dict_get.
  rewrite Htitle. rewrite prog_bind_run, lift_run.
  rewrite prog_bind_run. unfold print at 1. cbv beta iota.
  rewrite prog_bind_run.
  destruct (has_truthy game "original_price"), (has_truthy game "end_date");
    destruct w; unfold when, print, set_console; cbn;
    by rewrite <- ?app_assoc, ?app_nil_r.
Qed.

Lemma for_each_prints {A} (lines : A → list printed) (body : A → prog world unit) xs :
  (∀ x, x ∈ xs → ∀ w, body x w = (Ok (), set_console (console w ++ lines x) w)) →
  ∀ w, for_each xs body w = (Ok (), set_console (console w ++ flat_map lines xs) w).
Proof.
  induction xs as [|x xs IH]; intros Hbody w.
  - cbn. destruct w; cbn. by rewrite app_nil_r.
  - cbn [for_each flat_map]. rewrite prog_bind_run.
    rewrite (Hbody x (list_elem_of_here _ _)).
    rewrite IH by (intros y Hy; apply Hbody; by apply list_elem_of_further).
    destruct w; cbn. by rewrite <- app_assoc.
Qed.

Lemma print_platform_run entry w :
  Forall has_title (take 5 (snd entry)) →
  print_platform entry w
  = (Ok (), set_console (console w ++ platform_lines entry) w).
Proof.
  destruct entry as [platform games]. cbn [snd]. intros Ht.
  unfold print_platform, platform_lines. cbn [fst snd].
  rewrite prog_bind_run. unfold print at 1. cbv beta iota.
  rewrite prog_bind_run.
  rewrite (for_each_prints game_lines).
  2:{ intros game Hg w'. apply print_game_run.
      by apply (proj1 (Forall_forall _ _) Ht). }
  destruct (5 <? List.length games); destruct w; unfold when, print, set_console; cbn;
    by rewrite <- ?app_assoc, ?app_nil_r.
Qed.

Lemma title_lines_game game : List.filter is_title_line (game_lines game)
  = [PTitle (dict_get game "title" JNull)].
Proof.
  unfold game_lines.
  by destruct (has_truthy game "original_price"), (has_truthy game "end_date").
Qed.

Lemma title_lines_games games :
  List.length (List.filter is_title_line (flat_map game_lines games))
  = List.length games.
Proof.
  induction games as [|g games IH]; [done|].
  cbn [flat_map]. rewrite List.filter_app, List.length_app, title_lines_game, IH. done.
Qed.

End Summary.

(** X23: the grouping of [print_summary], on offers whose platforms are
    strings: the groups have distinct platforms, none is empty, each holds
    the offers of its platform and no other, in their order, and the
    platform of each offer has a group. *)
Theorem group_by_platform_partition (games : list offer) :
  Forall platform_is_str games →
  ∃ grouped,
    group_by_platform games [] = Ok grouped
    ∧ NoDup (map fst grouped)
    ∧ (∀ platform members, (platform, members) ∈ grouped →
         members ≠ [] ∧ members = List.filter (on_platform platform) games)
    ∧ (∀ game, game ∈ games →
         dict_get game "platform" (JStr "Unknown") ∈ map fst grouped).
Proof.
  intros Hstr.
  destruct (group_by_platform_so_far games [] [] Hstr) as (grouped & Hrun & Hg).
  - split; [constructor|]. split; [by intros q ms ?%elem_of_nil|].
    by intros g ?%elem_of_nil.
  - by exists grouped.
Qed.

Lemma group_by_platform_partition_witness :
  ∃ grouped,
    group_by_platform
      [[("title", JStr "A"); ("platform", JStr "Steam")];
       [("title", JStr "B"); ("platform", JStr "GOG")];
       [("title", JStr "C"); ("platform", JStr "Steam")]] [] = Ok grouped
    ∧ NoDup (map fst grouped)
    ∧ (∀ platform members, (platform, members) ∈ grouped →
         members ≠ []
         ∧ members
           = List.filter (on_platform platform)
               [[("title", JStr "A"); ("platform", JStr "Steam")];
                [("title", JStr "B"); ("platform", JStr "GOG")];
                [("title", JStr "C"); ("platform", JStr "Steam")]])
    ∧ (∀ game,
         game ∈ [[("title", JStr "A"); ("platform", JStr "Steam")];
                 [("title", JStr "B"); ("platform", JStr "GOG")];
                 [("title", JStr "C"); ("platform", JStr "Steam")]] →
         dict_get game "platform" (JStr "Unknown") ∈ map fst grouped).
Proof.
  apply (group_by_platform_partition
           [[("title", JStr "A"); ("platform", JStr "Steam")];
            [("title", JStr "B"); ("platform", JStr "GOG")];
            [("title", JStr "C"); ("platform", JStr "Steam")]]).
  repeat constructor; eexists; reflexivity.
Defined.

(** X24: what [print_summary] prints when there are offers, all with a
    title and a platform that can be a key: the heading, the rule, and for
    each platform its line with the number of its offers, the lines of its
    first five offers at most, and, when it has more than five, one line
    with the number of the others. *)
Theorem print_summary_lines (w : world) :
  free_games w ≠ [] →
  Forall has_title (free_games w) →
  Forall hashable_platform (free_games w) →
  ∃ grouped,
    group_by_platform (free_games w) [] = Ok grouped
    ∧ print_summary w
      = (Ok (),
         set_console
           (console w ++ [PSummary (List.length (free_games w)); PRule]
            ++ flat_map platform_lines grouped) w)
    ∧ ∀ entry, entry ∈ grouped →
        List.length (List.filter is_title_line (platform_lines entry))
        = Nat.min 5 (List.length (snd entry))
        ∧ ∀ n, PMore n ∈ platform_lines entry
               ↔ 5 < List.length (snd entry) ∧ n = List.length (snd entry) - 5.
Proof.
  intros Hne Ht Hh.
  destruct (group_by_platform_ok (free_games w) [] Ht Hh) as (grouped & Hrun & Hg);
    [constructor|].
  exists grouped. split; [done|]. split.
  - unfold print_summary. rewrite prog_bind_run. unfold get_free_games.
    destruct (free_games w) as [|game games] eqn:Hgames; [done|].
    rewrite prog_bind_run, lift_run, Hrun.
    rewrite prog_bind_run. unfold print at 1. cbv beta iota.
    rewrite prog_bind_run. unfold print at 1. cbv beta iota.
    rewrite (for_each_prints platform_lines).
    2:{ intros entry Hentry w'. apply print_platform_run. apply Forall_take.
        by apply (proj1 (Forall_forall _ _) Hg). }
    destruct w; unfold set_console; cbn. by rewrite <- !app_assoc.
  - intros [platform members] _. unfold platform_lines. cbn [fst snd]. split.
    + rewrite !List.filter_app, !List.length_app, title_lines_games.
      rewrite length_take. cbn [List.filter is_title_line List.length].
      by destruct (5 <? List.length members).
    + intros n. rewrite !elem_of_app. split.
      * intros [Hin|[Hin|Hin]].
        -- by apply list_elem_of_singleton in Hin.
        -- apply list_elem_of_In, in_flat_map in Hin as (g & _ & Hin).
           unfold game_lines in Hin.
           destruct (has_truthy g "original_price"), (has_truthy g "end_date");
             cbn in Hin; intuition discriminate.
        -- destruct (5 <? List.length members) eqn:Hlen.
           ++ apply list_elem_of_singleton in Hin. injection Hin as ->.
              by apply Nat.ltb_lt in Hlen.
           ++ by apply elem_of_nil in Hin.
      * intros [Hlen ->]. right. right. apply Nat.ltb_lt in Hlen. rewrite Hlen.
        apply list_elem_of_here.
Qed.

Lemma print_summary_lines_witness :
  let w := set_free_games [sample_control_offer] fresh_world in
  ∃ grouped,
    group_by_platform (free_games w) [] = Ok grouped
    ∧ print_summary w
      = (Ok (),
         set_console
           (console w ++ [PSummary (List.length (free_games w)); PRule]
            ++ flat_map platform_lines grouped) w)
    ∧ ∀ entry, entry ∈ grouped →
        List.length (List.filter is_title_line (platform_lines entry))
        = Nat.min 5 (List.length (snd entry))
        ∧ ∀ n, PMore n ∈ platform_lines entry
               ↔ 5 < List.length (snd entry) ∧ n = List.length (snd entry) - 5.
Proof.
  intros w. apply (print_summary_lines w).
  - discriminate.
  - repeat constructor. eexists. reflexivity.
  - repeat constructor.
Defined.

(** X25: [print_summary] groups the offers before it prints: when the
    platform of an offer is a list or an object, which cannot be a key, it
    raises [TypeError] and has printed nothing. *)
Theorem print_summary_unhashable_platform (w : world) :
  Exists (λ game, py_hashable (dict_get game "platform" (JStr "Unknown")) = false)
    (free_games w) →
  print_summary w = (Raise TypeError, w).
Proof.
  intros Hex. unfold print_summary. rewrite prog_bind_run. unfold get_free_games.
  destruct (free_games w) as [|game games] eqn:Hgames.
  - by apply Exists_nil in Hex.
  - rewrite prog_bind_run, lift_run.
    by rewrite (group_by_platform_unhashable _ [] Hex).
Qed.

Lemma print_summary_unhashable_platform_witness :
  print_summary
    (set_free_games [titled "Braid"; [("title", JStr "Fez"); ("platform", JList [])]]
       fresh_world)
  = (Raise TypeError,
     set_free_games [titled "Braid"; [("title", JStr "Fez"); ("platform", JList [])]]
       fresh_world).
Proof.
  apply (print_summary_unhashable_platform
           (set_free_games
              [titled "Braid"; [("title", JStr "Fez"); ("platform", JList [])]]
              fresh_world)).
  apply Exists_cons_tl, Exists_cons_hd. reflexivity.
Defined.

Lemma scrape_all_platforms_threaded_raises_run completed w e :
  _remove_duplicates (returned_offers completed) = Raise e →
  scrape_all_platforms_threaded completed w
  = (Raise e,
     set_journal
       (journal w
        ++ LogRecord INFO "Starting comprehensive threaded scraping..." None
           :: gather_records completed) w).
Proof.
  intros Hd. destruct w as [fg co jo fi wr cl ti].
  unfold scrape_all_platforms_threaded. rewrite prog_bind_run.
  unfold logger_info at 1. cbv beta iota.
  rewrite prog_bind_run, gather_run. cbn [app].
  rewrite prog_bind_run, lift_run, Hd.
  unfold set_journal, emit, world_logging, set_journal. cbn.
  by rewrite <- app_assoc.
Qed.

(** X26: when the deduplicator raises, the handler of [main] takes the
    exception.  On a standard output that accepts the lines, [main] then
    writes no file and stores no offer; it logs the error and prints it
    after the three opening lines. *)
Theorem main_reports_deduplicator_error
    (completed : list (string * result (list offer))) (w : world) (e : exn) :
  _remove_duplicates (returned_offers completed) = Raise e →
  files (snd (main completed w)) = files w
  ∧ free_games (snd (main completed w)) = []
  ∧ console (snd (main completed w))
    = console w ++ [PStarting; PSearchNotice; PPleaseWait; PError e]
  ∧ LogRecord ERROR "Unexpected error: " (Some e)
    ∈ journal (snd (main completed w)).
Proof.
  intros Hd.
  assert (main completed w
          = (Ok (),
             World [] (console w ++ [PStarting; PSearchNotice; PPleaseWait; PError e])
               (journal w
                ++ LogRecord INFO "Starting comprehensive threaded scraping..." None
                   :: gather_records completed
                ++ [LogRecord ERROR "Unexpected error: " (Some e)])
               (files w) (writable w) (clock w) (ticks w))) as ->.
  { unfold main. rewrite prog_bind_run.
    unfold put_free_games, try_except. cbv beta iota. unfold main_try.
    rewrite prog_bind_run. unfold print at 1. cbv beta iota.
    rewrite prog_bind_run. unfold print at 1. cbv beta iota.
    rewrite prog_bind_run. unfold print at 1. cbv beta iota.
    rewrite prog_bind_run, (scrape_all_platforms_threaded_raises_run _ _ _ Hd).
    destruct w as [fg co jo fi wr cl ti].
    unfold logger_error, print, mbind, prog_bind, emit, world_logging,
      set_journal, set_console, set_free_games.
    cbn [free_games console journal files writable clock ticks snd fst].
    by rewrite <- !app_assoc. }
  cbn [snd files free_games console journal].
  split; [done|]. split; [done|]. split; [done|].
  apply elem_of_app. right. apply list_elem_of_further.
  apply elem_of_app. right. apply list_elem_of_here.
Qed.

Lemma main_reports_deduplicator_error_witness :
  files (snd (main [("scrape_itchio_sales", Ok [titled "!!!"; titled "???"])]
                fresh_world)) = files fresh_world
  ∧ free_games (snd (main [("scrape_itchio_sales", Ok [titled "!!!"; titled "???"])]
                       fresh_world)) = []
  ∧ console (snd (main [("scrape_itchio_sales", Ok [titled "!!!"; titled "???"])]
                    fresh_world))
    = console fresh_world
      ++ [PStarting; PSearchNotice; PPleaseWait; PError ZeroDivisionError]
  ∧ LogRecord ERROR "Unexpected error: " (Some ZeroDivisionError)
    ∈ journal (snd (main [("scrape_itchio_sales", Ok [titled "!!!"; titled "???"])]
                      fresh_world)).
Proof.
  apply (main_reports_deduplicator_error
           [("scrape_itchio_sales", Ok [titled "!!!"; titled "???"])]
           fresh_world ZeroDivisionError).
  vm_compute. reflexivity.
Defined.

(** X27: every offer the seven scrapers return, whatever the storefronts
    answer, carries a platform that is a string: in a run the grouping of
    [print_summary] and the set of platforms of [save_to_json] cannot fail
    on a platform. *)
Theorem scrapers_offers_have_platform (net : web) :
  Forall platform_is_str (returned_offers (scrapers net)).
Proof. apply scrapers_platforms. Qed.
